(** * Hand-Gesture Snake: the gesture interpreter and the game engine

    A shallow embedding of [gesture_control.py] and [snake_game.py].
    Python objects are records, attribute assignments are state updates in
    a small state-and-exception monad that keeps the state reached when an
    exception is raised (Python mutates [self] in place), Python [int] is
    [Z] and Python [float] is the binary64 type of the kernel. *)

From Stdlib Require Import ZArith List Bool String Ascii Lia.
From Stdlib Require Import Floats DecimalString DecimalZ DecimalPos.
Import ListNotations.
Open Scope Z_scope.
Set Warnings "-inexact-float".

(** ** Python computations over a mutable state *)

Inductive exn : Type :=
| IndexError | ValueError | OverflowError | TypeError | AttributeError
| OSError | JSONDecodeError | ZeroDivisionError | DetectorError.

(** [Spinning] is a [while True] loop that has not reached its [break]
    within the attempts it was given. *)
Inductive outcome (A : Type) : Type :=
| Done (a : A)
| Raised (e : exn)
| Spinning.
Arguments Done {A} a.
Arguments Raised {A} e.
Arguments Spinning {A}.

Definition Py (S A : Type) : Type := S -> S * outcome A.

Definition ret {S A : Type} (a : A) : Py S A := fun s => (s, Done a).

Definition bind {S A B : Type} (m : Py S A) (k : A -> Py S B) : Py S B :=
  fun s =>
    match m s with
    | (s', Done a) => k a s'
    | (s', Raised e) => (s', Raised e)
    | (s', Spinning) => (s', Spinning)
    end.

Definition raise {S A : Type} (e : exn) : Py S A := fun s => (s, Raised e).
Definition gets {S A : Type} (f : S -> A) : Py S A := fun s => (s, Done (f s)).
Definition modify {S : Type} (f : S -> S) : Py S unit := fun s => (f s, Done tt).
Definition when {S : Type} (b : bool) (m : Py S unit) : Py S unit :=
  if b then m else ret tt.

(** [try: body except Exception: handler] *)
Definition try_except {S A : Type} (body handler : Py S A) : Py S A :=
  fun s =>
    match body s with
    | (s', Raised _) => handler s'
    | r => r
    end.

Declare Scope py_scope.
Delimit Scope py_scope with py.
Notation "x <- m ;; k" := (bind m (fun x => k))
  (at level 61, m at next level, right associativity) : py_scope.
Notation "m ;; k" := (bind m (fun _ => k))
  (at level 61, right associativity) : py_scope.
Open Scope py_scope.

(** [for a in l: body a] *)
Fixpoint for_each {S A : Type} (l : list A) (body : A -> Py S unit) : Py S unit :=
  match l with
  | [] => ret tt
  | a :: l' => body a ;; for_each l' body
  end.

(** [while True: if body(): break], given [fuel] attempts. *)
Fixpoint while_true {S : Type} (fuel : nat) (body : Py S bool) : Py S unit :=
  match fuel with
  | O => fun s => (s, Spinning)
  | S n => stop <- body ;; if stop then ret tt else while_true n body
  end.

(** A relation between the state before and the state after that the
    computation keeps, whatever its outcome. *)
Definition keeps {S A : Type} (R : S -> S -> Prop) (m : Py S A) : Prop :=
  forall s, R s (fst (m s)).

(** The computation has not been cut short for lack of rounds. *)
Definition settled {S A : Type} (r : S * outcome A) : Prop :=
  snd r <> Spinning.

(** Once a number of rounds lets the computation end, any larger number
    gives the same result. *)
Definition stable {S A : Type} (m : nat -> Py S A) : Prop :=
  forall n n' s, (n <= n')%nat -> settled (m n s) -> m n' s = m n s.

(** ** Python numbers *)

(** [int(x)] of a float: truncation toward zero; [ValueError] on NaN and
    [OverflowError] on an infinity. *)
Definition py_int (f : float) : exn + Z :=
  match Prim2SF f with
  | S754_zero _ => inr 0
  | S754_finite s m e =>
      let mag := if 0 <=? e then Z.shiftl (Z.pos m) e
                 else Z.shiftr (Z.pos m) (- e) in
      inr (if s then - mag else mag)
  | S754_infinity _ => inl OverflowError
  | S754_nan => inl ValueError
  end.

(** [float(n)] of an int, as in [n * x] with [x] a float: the nearest
    binary64 value. *)
Definition py_float (n : Z) : float :=
  SF2Prim (binary_normalize prec emax n 0 false).

Definition int_ {S : Type} (f : float) : Py S Z :=
  match py_int f with
  | inr z => ret z
  | inl e => raise e
  end.

Definition opt_eqb {A : Type} (eqb : A -> A -> bool) (a b : option A) : bool :=
  match a, b with
  | Some x, Some y => eqb x y
  | None, None => true
  | _, _ => false
  end.

(** ** gesture_control.py *)

Module GestureControl.

Definition point : Type := float * float.

Record NormalizedLandmark : Type := { x : float; y : float }.

(** The landmarks of a hand that the interpreter reads. *)
Record HandLandmarks : Type := {
  WRIST : NormalizedLandmark;
  THUMB_TIP : NormalizedLandmark;
  INDEX_FINGER_TIP : NormalizedLandmark }.

(** What [self.hands.process(rgb)] hands back: [multi_hand_landmarks] is
    the list of hands ([None] is the empty list), [multi_handedness] the
    list of [classification[0].score]. *)
Record Results : Type := {
  multi_hand_landmarks : list HandLandmarks;
  multi_handedness : list float }.

Inductive Process : Type :=
| Throws
| Returns (results : Results).

(** A camera frame, as far as [detect_gestures] looks at it: its
    [shape] (rows, columns) and what the detector does on it. *)
Record Frame : Type := {
  shape : Z * Z;
  process : Process }.

(** The drawing calls made on [annotated], in order. *)
Inductive Overlay : Type :=
| draw_landmarks (hand : HandLandmarks)
| text_speed_boost
| circle_thumb (cx cy : Z)
| text_direction (d : string)
| bar_background (ypos : Z)
| bar_filled (filled green red : Z)
| text_confidence (percent : Z)
| center_box (x1 y1 box_w box_h : Z)
| text_status (hand : bool) (ypos : Z)
| text_gesture_error.

Record GestureControl : Type := {
  previous_position : option point;
  position_history : list point;
  current_direction : option string;
  gesture_cooldown : Z;
  no_hand_frames : Z;
  last_confidence : float }.

Definition max_history : Z := 6.
Definition gesture_threshold : float := 0.035.
Definition max_cooldown : Z := 4.
Definition max_no_hand_frames : Z := 12.

(** [GestureControl.__init__] *)
Definition init : GestureControl :=
  {| previous_position := None;
     position_history := [];
     current_direction := None;
     gesture_cooldown := 0;
     no_hand_frames := 0;
     last_confidence := 0 |}.

Definition set_previous_position (v : option point) (s : GestureControl) :=
  {| previous_position := v;
     position_history := position_history s;
     current_direction := current_direction s;
     gesture_cooldown := gesture_cooldown s;
     no_hand_frames := no_hand_frames s;
     last_confidence := last_confidence s |}.

Definition set_position_history (v : list point) (s : GestureControl) :=
  {| previous_position := previous_position s;
     position_history := v;
     current_direction := current_direction s;
     gesture_cooldown := gesture_cooldown s;
     no_hand_frames := no_hand_frames s;
     last_confidence := last_confidence s |}.

Definition set_current_direction (v : option string) (s : GestureControl) :=
  {| previous_position := previous_position s;
     position_history := position_history s;
     current_direction := v;
     gesture_cooldown := gesture_cooldown s;
     no_hand_frames := no_hand_frames s;
     last_confidence := last_confidence s |}.

Definition set_gesture_cooldown (v : Z) (s : GestureControl) :=
  {| previous_position := previous_position s;
     position_history := position_history s;
     current_direction := current_direction s;
     gesture_cooldown := v;
     no_hand_frames := no_hand_frames s;
     last_confidence := last_confidence s |}.

Definition set_no_hand_frames (v : Z) (s : GestureControl) :=
  {| previous_position := previous_position s;
     position_history := position_history s;
     current_direction := current_direction s;
     gesture_cooldown := gesture_cooldown s;
     no_hand_frames := v;
     last_confidence := last_confidence s |}.

Definition set_last_confidence (v : float) (s : GestureControl) :=
  {| previous_position := previous_position s;
     position_history := position_history s;
     current_direction := current_direction s;
     gesture_cooldown := gesture_cooldown s;
     no_hand_frames := no_hand_frames s;
     last_confidence := v |}.

(** The locals of [detect_gestures] that outlive the [try] block. *)
Record Locals : Type := {
  annotated : list Overlay;
  direction : option string;
  is_pinching : bool;
  dynamic_thresh : float }.

Definition Ctx : Type := GestureControl * Locals.

Definition self_ {A : Type} (f : GestureControl -> A) : Py Ctx A :=
  gets (fun c => f (fst c)).
Definition local_ {A : Type} (f : Locals -> A) : Py Ctx A :=
  gets (fun c => f (snd c)).
Definition assign (f : GestureControl -> GestureControl) : Py Ctx unit :=
  modify (fun c => (f (fst c), snd c)).

Definition draw (o : Overlay) : Py Ctx unit :=
  modify (fun c => (fst c,
    {| annotated := annotated (snd c) ++ [o];
       direction := direction (snd c);
       is_pinching := is_pinching (snd c);
       dynamic_thresh := dynamic_thresh (snd c) |})).

Definition set_direction (d : option string) : Py Ctx unit :=
  modify (fun c => (fst c,
    {| annotated := annotated (snd c);
       direction := d;
       is_pinching := is_pinching (snd c);
       dynamic_thresh := dynamic_thresh (snd c) |})).

Definition set_is_pinching (b : bool) : Py Ctx unit :=
  modify (fun c => (fst c,
    {| annotated := annotated (snd c);
       direction := direction (snd c);
       is_pinching := b;
       dynamic_thresh := dynamic_thresh (snd c) |})).

Definition set_dynamic_thresh (t : float) : Py Ctx unit :=
  modify (fun c => (fst c,
    {| annotated := annotated (snd c);
       direction := direction (snd c);
       is_pinching := is_pinching (snd c);
       dynamic_thresh := t |})).

(** *** numpy on points *)

Definition np_sub (a b : point) : point :=
  ((fst a - fst b)%float, (snd a - snd b)%float).

Definition np_add (a b : point) : point :=
  ((fst a + fst b)%float, (snd a + snd b)%float).

(** [np.mean(l, axis=0)]: the rows are added in order, then divided by
    their number. *)
Definition np_mean (l : list point) : point :=
  let n := py_float (Z.of_nat (List.length l)) in
  let s := match l with
           | [] => (0%float, 0%float)
           | p :: l' => fold_left np_add l' p
           end in
  ((fst s / n)%float, (snd s / n)%float).

(** [np.linalg.norm] of a vector of two floats. *)
Definition np_norm (v : point) : float :=
  sqrt (fst v * fst v + snd v * snd v)%float.

(** [a > b] on floats. *)
Definition gtb (a b : float) : bool := (b <? a)%float.

(** *** detect_gestures *)

(** [self.reset_gesture_state()] *)
Definition reset_gesture_state (s : GestureControl) : GestureControl :=
  set_no_hand_frames 0
    (set_gesture_cooldown 0
       (set_current_direction None
          (set_position_history []
             (set_previous_position None s)))).

(** Lines 92-103: the direction decision for one hand. *)
Definition decide_direction (smoothed : point) : Py Ctx unit :=
  prev <- self_ previous_position ;;
  cooldown <- self_ gesture_cooldown ;;
  match prev with
  | Some previous =>
      if cooldown <=? 0 then
        let movement := np_sub smoothed previous in
        let dist := np_norm movement in
        thresh <- local_ dynamic_thresh ;;
        if gtb dist thresh then
          let d :=
            if gtb (abs (fst movement)) (abs (snd movement))
            then (if gtb (fst movement) 0 then "RIGHT" else "LEFT")%string
            else (if gtb (snd movement) 0 then "DOWN" else "UP")%string in
          set_direction (Some d) ;;
          current <- self_ current_direction ;;
          when (negb (opt_eqb String.eqb (Some d) current))
            (assign (set_current_direction (Some d)) ;;
             assign (set_gesture_cooldown max_cooldown))
        else ret tt
      else ret tt
  | None => ret tt
  end.

(** Lines 75-118: the body of the loop over the detected hands. *)
Definition track_hand (frame : Frame) (hand_landmarks : HandLandmarks)
  : Py Ctx unit :=
  draw (draw_landmarks hand_landmarks) ;;
  let wrist := WRIST hand_landmarks in
  let current_pos : point := (x wrist, y wrist) in
  assign (fun s => set_position_history (position_history s ++ [current_pos]) s) ;;
  history <- self_ position_history ;;
  when (max_history <? Z.of_nat (List.length history))
    (assign (set_position_history (tl history))) ;;
  history <- self_ position_history ;;
  let smoothed := np_mean history in
  decide_direction smoothed ;;
  let thumb := THUMB_TIP hand_landmarks in
  let index := INDEX_FINGER_TIP hand_landmarks in
  let distance := np_norm (np_sub (x thumb, y thumb) (x index, y index)) in
  let pinching := (distance <? 0.05)%float in
  set_is_pinching pinching ;;
  when pinching
    (draw text_speed_boost ;;
     cx <- int_ (x thumb * py_float (snd (shape frame)))%float ;;
     cy <- int_ (y thumb * py_float (fst (shape frame)))%float ;;
     draw (circle_thumb cx cy)) ;;
  assign (set_previous_position (Some smoothed)).

(** [self._draw_confidence_bar(annotated, confidence)] *)
Definition _draw_confidence_bar (frame : Frame) (confidence : float)
  : Py Ctx unit :=
  let h := fst (shape frame) in
  let bar_w := 200 in
  draw (bar_background (h - 50)) ;;
  filled <- int_ (py_float bar_w * confidence)%float ;;
  green <- int_ (py_float 255 * confidence)%float ;;
  red <- int_ (py_float 255 * confidence)%float ;;
  draw (bar_filled filled green (255 - red)) ;;
  percent <- int_ (confidence * py_float 100)%float ;;
  draw (text_confidence percent).

(** [self._draw_center_box(annotated)] *)
Definition _draw_center_box (frame : Frame) : Py Ctx unit :=
  let h := fst (shape frame) in
  let w := snd (shape frame) in
  box_w <- int_ (py_float w * 0.4)%float ;;
  box_h <- int_ (py_float h * 0.5)%float ;;
  draw (center_box ((w - box_w) / 2) ((h - box_h) / 2) box_w box_h).

Definition hands_process (frame : Frame) : Py Ctx Results :=
  match process frame with
  | Throws => raise DetectorError
  | Returns results => ret results
  end.

Definition truthy (d : option string) : bool :=
  match d with
  | Some s => negb (String.eqb s EmptyString)
  | None => false
  end.

Definition nonempty {A : Type} (l : list A) : bool :=
  match l with [] => false | _ :: _ => true end.

(** Lines 54-123: confidence, dynamic threshold, and the hand or no-hand
    branch. *)
Definition observe (frame : Frame) (results : Results) : Py Ctx unit :=
  match multi_hand_landmarks results, multi_handedness results with
  | _ :: _, score :: _ => assign (set_last_confidence score)
  | _, _ => assign (set_last_confidence 0)
  end ;;
  confidence <- self_ last_confidence ;;
  set_dynamic_thresh
    (if gtb confidence 0.8 then 0.02
     else if gtb confidence 0.5 then 0.03
     else 0.05)%float ;;
  if nonempty (multi_hand_landmarks results) then
    assign (set_no_hand_frames 0) ;;
    for_each (multi_hand_landmarks results) (track_hand frame)
  else
    assign (fun s => set_no_hand_frames (no_hand_frames s + 1) s) ;;
    n <- self_ no_hand_frames ;;
    when (max_no_hand_frames <? n) (assign reset_gesture_state).

(** Lines 125-126. *)
Definition cooldown_tick : Py Ctx unit :=
  cooldown <- self_ gesture_cooldown ;;
  when (0 <? cooldown) (assign (set_gesture_cooldown (cooldown - 1))).

(** Lines 128-141: direction text, confidence bar, guide box, status. *)
Definition draw_status (frame : Frame) (results : Results) : Py Ctx unit :=
  current <- self_ current_direction ;;
  when (truthy current)
    (draw (text_direction (match current with Some d => d | None => EmptyString end))) ;;
  confidence <- self_ last_confidence ;;
  _draw_confidence_bar frame confidence ;;
  _draw_center_box frame ;;
  draw (text_status (nonempty (multi_hand_landmarks results))
          (fst (shape frame) - 20)).

(** Lines 51-141: the body of the [try] block. *)
Definition try_body (frame : Frame) : Py Ctx unit :=
  results <- hands_process frame ;;
  observe frame results ;;
  cooldown_tick ;;
  draw_status frame results.

Definition locals0 : Locals :=
  {| annotated := [];
     direction := None;
     is_pinching := false;
     dynamic_thresh := gesture_threshold |}.

(** [detect_gestures(self, frame)]: the state of [self] afterwards and
    the returned triple. *)
Definition detect_gestures (self : GestureControl) (frame : Frame)
  : GestureControl * (option string * bool * list Overlay) :=
  let r := try_except (try_body frame) (draw text_gesture_error)
             (self, locals0) in
  let self' := fst (fst r) in
  let locals := snd (fst r) in
  (self', (current_direction self', is_pinching locals, annotated locals)).

(** The [try] block ran to its end on this frame. *)
Definition completes (self : GestureControl) (frame : Frame) : bool :=
  match snd (try_body frame (self, locals0)) with
  | Done _ => true
  | _ => false
  end.

Definition after (self : GestureControl) (frame : Frame) : GestureControl :=
  fst (detect_gestures self frame).

Definition returned_direction (self : GestureControl) (frame : Frame)
  : option string :=
  fst (fst (snd (detect_gestures self frame))).

Definition returned_boost (self : GestureControl) (frame : Frame) : bool :=
  snd (fst (snd (detect_gestures self frame))).

Definition returned_frame (self : GestureControl) (frame : Frame)
  : list Overlay :=
  snd (snd (detect_gestures self frame)).

(** The interpreter after a sequence of frames. *)
Definition run (self : GestureControl) (frames : list Frame) : GestureControl :=
  fold_left after frames self.

Definition has_hand (frame : Frame) : bool :=
  match process frame with
  | Returns results => nonempty (multi_hand_landmarks results)
  | Throws => false
  end.

Definition no_hand (frame : Frame) : bool :=
  match process frame with
  | Returns results => negb (nonempty (multi_hand_landmarks results))
  | Throws => false
  end.

(** The frame shows a hand and line 102 stores a direction that differs
    from the current one. *)
Definition accepted (self : GestureControl) (frame : Frame) : bool :=
  has_hand frame &&
  negb (opt_eqb String.eqb (current_direction (after self frame))
          (current_direction self)).

(** The frame shows no hand and line 123 calls [reset_gesture_state]. *)
Definition reset_fires (self : GestureControl) (frame : Frame) : bool :=
  no_hand frame && (max_no_hand_frames <? no_hand_frames self + 1).

(** Every frame of the sequence is processed to the end of the [try]
    block. *)
Fixpoint completes_all (self : GestureControl) (frames : list Frame) : bool :=
  match frames with
  | [] => true
  | f :: fs => completes self f && completes_all (after self f) fs
  end.

(** No frame of the sequence accepts a direction or fires the reset. *)
Fixpoint quiet (self : GestureControl) (frames : list Frame) : bool :=
  match frames with
  | [] => true
  | f :: fs =>
      negb (accepted self f) && negb (reset_fires self f) &&
      quiet (after self f) fs
  end.

(** The interpreter's state after each frame of a sequence, with the
    direction that call returned. *)
Fixpoint trace (self : GestureControl) (frames : list Frame)
  : list (GestureControl * option string) :=
  match frames with
  | [] => []
  | f :: fs => (after self f, returned_direction self f) :: trace (after self f) fs
  end.

Definition is_direction_name (d : option string) : Prop :=
  d = Some "UP"%string \/ d = Some "DOWN"%string \/
  d = Some "LEFT"%string \/ d = Some "RIGHT"%string.

(** The gesture state that [reset_gesture_state] restores. *)
Definition gesture_state_initial (s : GestureControl) : Prop :=
  previous_position s = None /\ position_history s = [] /\
  current_direction s = None /\ gesture_cooldown s = 0.

(** A relation on the interpreter, read on the contexts of
    [detect_gestures]. *)
Definition on_self (R : GestureControl -> GestureControl -> Prop)
  : Ctx -> Ctx -> Prop :=
  fun c c' => R (fst c) (fst c').

(** What tracking a hand may do to direction and cooldown: nothing, or a
    direction is accepted at a cooldown of zero or below. *)
Definition hand_effect (s s' : GestureControl) : Prop :=
  no_hand_frames s' = no_hand_frames s /\
  ((current_direction s' = current_direction s /\
    gesture_cooldown s' = gesture_cooldown s) \/
   (gesture_cooldown s <= 0 /\ gesture_cooldown s' = max_cooldown /\
    current_direction s' <> current_direction s /\
    is_direction_name (current_direction s'))).

(** Lines 125-126 on the interpreter. *)
Definition tick (s : GestureControl) : GestureControl :=
  if 0 <? gesture_cooldown s
  then set_gesture_cooldown (gesture_cooldown s - 1) s
  else s.

(** *** Frames to run the interpreter on *)

(** Concrete frames. *)
Definition landmark (a b : float) : NormalizedLandmark := {| x := a; y := b |}.

Definition open_hand (a b : float) : HandLandmarks :=
  {| WRIST := landmark a b;
     THUMB_TIP := landmark 0.25 0.25;
     INDEX_FINGER_TIP := landmark 0.5 0.5 |}.

Definition frame_hand_at (a b : float) : Frame :=
  {| shape := (720, 1280);
     process := Returns {| multi_hand_landmarks := [open_hand a b];
                           multi_handedness := [0.875%float] |} |}.

Definition frame_no_hand : Frame :=
  {| shape := (720, 1280);
     process := Returns {| multi_hand_landmarks := [];
                           multi_handedness := [] |} |}.

Definition frame_throws : Frame :=
  {| shape := (720, 1280); process := Throws |}.

Definition seen_hand : GestureControl := after init (frame_hand_at 0.5 0.5).

(** Lines 87-89: the position joins the history, and the oldest one
    leaves when there are more than [max_history]. *)
Definition window (history : list point) (p : point) : list point :=
  if max_history <? Z.of_nat (List.length (history ++ [p]))
  then tl (history ++ [p])
  else history ++ [p].

(** The history of positions is the same. *)
Definition same_history (s s' : GestureControl) : Prop :=
  position_history s' = position_history s.

(** The history holds at most [max_history] positions afterwards, if it
    did before. *)
Definition history_bounded (s s' : GestureControl) : Prop :=
  Z.of_nat (List.length (position_history s)) <= max_history ->
  Z.of_nat (List.length (position_history s')) <= max_history.

(** Line 109: the thumb tip and the index tip are closer than 0.05. *)
Definition pinch (hand : HandLandmarks) : bool :=
  (np_norm (np_sub (x (THUMB_TIP hand), y (THUMB_TIP hand))
              (x (INDEX_FINGER_TIP hand), y (INDEX_FINGER_TIP hand)))
   <? 0.05)%float.

(** Lines 111-118 of the loop over the hands: the overlay of a pinch,
    and the smoothed position kept for the next frame. *)
Definition mark_pinch (frame : Frame) (hand : HandLandmarks)
  (smoothed : point) : Py Ctx unit :=
  when (pinch hand)
    (draw text_speed_boost ;;
     cx <- int_ (x (THUMB_TIP hand) * py_float (snd (shape frame)))%float ;;
     cy <- int_ (y (THUMB_TIP hand) * py_float (fst (shape frame)))%float ;;
     draw (circle_thumb cx cy)) ;;
  assign (set_previous_position (Some smoothed)).

(** The direction and the cooldown are the same. *)
Definition same_heading (s s' : GestureControl) : Prop :=
  current_direction s' = current_direction s /\
  gesture_cooldown s' = gesture_cooldown s.

(** The boost flag among the locals is the same. *)
Definition same_pinch (c c' : Ctx) : Prop :=
  is_pinching (snd c') = is_pinching (snd c).

(** The counters are in their ranges and the direction is [None] or one
    of the four names. *)
Definition in_range (s : GestureControl) : Prop :=
  0 <= gesture_cooldown s <= max_cooldown /\
  0 <= no_hand_frames s <= max_no_hand_frames /\
  (current_direction s = None \/ is_direction_name (current_direction s)).

(** A frame with one hand, pinching, whose wrist is at [(a, b)]. *)
Definition frame_pinch_at (a b : float) : Frame :=
  {| shape := (720, 1280);
     process := Returns
       {| multi_hand_landmarks :=
            [{| WRIST := landmark a b;
                THUMB_TIP := landmark 0.5 0.5;
                INDEX_FINGER_TIP := landmark 0.5 0.515625 |}];
          multi_handedness := [0.875%float] |} |}.

(** Lines 96-99: the name of the direction of a movement. *)
Definition heading (movement : point) : string :=
  if gtb (abs (fst movement)) (abs (snd movement))
  then (if gtb (fst movement) 0 then "RIGHT" else "LEFT")
  else (if gtb (snd movement) 0 then "DOWN" else "UP").

(** Lines 65-70: the threshold that goes with a confidence. *)
Definition threshold_for (confidence : float) : float :=
  (if gtb confidence 0.8 then 0.02
   else if gtb confidence 0.5 then 0.03
   else 0.05)%float.

(** Lines 57-62: the confidence read off the results. *)
Definition confidence_of (results : Results) : float :=
  match multi_hand_landmarks results, multi_handedness results with
  | _ :: _, score :: _ => score
  | _, _ => 0%float
  end.

End GestureControl.

(** ** What the game reaches outside the program *)

(** A document as [json.load] returns it. *)
Unset Elimination Schemes.
Inductive json : Type :=
| JNull
| JBool (b : bool)
| JInt (n : Z)
| JFloat (f : float)
| JStr (s : string)
| JArr (items : list json)
| JObj (members : list (string * json)).
Set Elimination Schemes.

(** The library calls that are not part of the program: [json.dumps]
    gives the text [json.dump] writes, [json.loads] the document
    [json.load] reads ([None] when it raises), [int_of_str] is [int(s)] on
    a [str] ([None] when it raises). *)
Class PyLib : Type := {
  json_dumps : json -> string;
  json_loads : string -> option json;
  int_of_str : string -> option Z }.

(** The contract of the [json] module that the high score relies on: the
    text written for [{'high_score': n}] is read back as that document. *)
Definition json_reads_back (py : PyLib) : Prop :=
  forall n : Z,
    json_loads (json_dumps (JObj [("high_score"%string, JInt n)])) =
    Some (JObj [("high_score"%string, JInt n)]).

(** The global random generator, as the sequence of raw draws it is going
    to hand out and the number already handed out, and the file
    [high_score.json] ([None] when it does not exist); [open_fails] makes
    every [open] raise. *)
Record World : Type := {
  random_draws : nat -> Z;
  random_pos : nat;
  high_score_json : option string;
  open_fails : bool }.

Definition set_random_pos (v : nat) (w : World) : World :=
  {| random_draws := random_draws w;
     random_pos := v;
     high_score_json := high_score_json w;
     open_fails := open_fails w |}.

Definition set_high_score_json (v : option string) (w : World) : World :=
  {| random_draws := random_draws w;
     random_pos := random_pos w;
     high_score_json := v;
     open_fails := open_fails w |}.

Definition next_draw : Py World Z :=
  fun w => (set_random_pos (S (random_pos w)) w,
            Done (random_draws w (random_pos w))).

(** [random.randint(a, b)]: an integer of [a..b], [ValueError] on an
    empty range. *)
Definition random_randint (a b : Z) : Py World Z :=
  if b <? a then raise ValueError
  else r <- next_draw ;; ret (a + r mod (b - a + 1)).

(** [random.random()]: a multiple of [2^-53] in [0, 1). *)
Definition random_random : Py World float :=
  r <- next_draw ;;
  ret (py_float (r mod 2 ^ 53) / py_float (2 ^ 53))%float.

(** [random.uniform(a, b)] is [a + (b - a) * random()]. *)
Definition random_uniform (a b : float) : Py World float :=
  u <- random_random ;; ret (a + (b - a) * u)%float.

Definition os_path_exists : Py World bool :=
  gets (fun w => match high_score_json w with
                 | Some _ => true
                 | None => false
                 end).

(** [open('high_score.json', 'r')] and reading the text. *)
Definition open_read : Py World string :=
  fun w =>
    if open_fails w then (w, Raised OSError)
    else match high_score_json w with
         | Some text => (w, Done text)
         | None => (w, Raised OSError)
         end.

(** [open('high_score.json', 'w')] and writing [text]. *)
Definition open_write (text : string) : Py World unit :=
  fun w =>
    if open_fails w then (w, Raised OSError)
    else (set_high_score_json (Some text) w, Done tt).

Section Documents.
Context {py : PyLib}.

Definition json_load (text : string) : Py World json :=
  match json_loads text with
  | Some d => ret d
  | None => raise JSONDecodeError
  end.

Fixpoint lookup (key : string) (members : list (string * json))
  : option json :=
  match members with
  | [] => None
  | (k, v) :: rest => if String.eqb k key then Some v else lookup key rest
  end.

(** [d.get(key, default)]; only a [dict] has [get]. *)
Definition dict_get (d : json) (key : string) (default : json)
  : Py World json :=
  match d with
  | JObj members =>
      ret (match lookup key members with
           | Some v => v
           | None => default
           end)
  | _ => raise AttributeError
  end.

(** [int(v)] on what a document may hold. *)
Definition int_of_json (v : json) : Py World Z :=
  match v with
  | JInt n => ret n
  | JBool b => ret (if b then 1 else 0)
  | JFloat f => int_ f
  | JStr s => match int_of_str s with
              | Some n => ret n
              | None => raise ValueError
              end
  | JNull | JArr _ | JObj _ => raise TypeError
  end.

(** [SnakeGame.load_high_score]; it reads nothing of [self]. *)
Definition load_high_score : Py World Z :=
  try_except
    (found <- os_path_exists ;;
     if found then
       text <- open_read ;;
       d <- json_load text ;;
       v <- dict_get d "high_score" (JInt 0) ;;
       int_of_json v
     else ret 0)
    (ret 0).

(** The documents [load_high_score] cannot take a score from. *)
Inductive no_score : json -> Prop :=
| no_score_null : no_score JNull
| no_score_bool b : no_score (JBool b)
| no_score_int n : no_score (JInt n)
| no_score_float f : no_score (JFloat f)
| no_score_str s : no_score (JStr s)
| no_score_array items : no_score (JArr items)
| no_score_member_null : no_score (JObj [("high_score"%string, JNull)])
| no_score_member_array items :
    no_score (JObj [("high_score"%string, JArr items)])
| no_score_member_object members :
    no_score (JObj [("high_score"%string, JObj members)]).

(** A persisted source is corrupt when the file cannot be opened, when
    its text is not JSON, or when the document is one of [no_score]: not
    an object, or the object whose one member is ["high_score"] with
    null, an array or an object as its value. *)
Definition corrupt (w : World) : Prop :=
  exists text, high_score_json w = Some text /\
    (open_fails w = true \/ json_loads text = None \/
     exists d, json_loads text = Some d /\ no_score d).

End Documents.

(** ** snake_game.py *)

Module SnakeGame.

Inductive Direction : Type := UP | DOWN | LEFT | RIGHT.

Definition value (d : Direction) : Z * Z :=
  match d with
  | UP => (0, -1)
  | DOWN => (0, 1)
  | LEFT => (-1, 0)
  | RIGHT => (1, 0)
  end.

Definition Direction_eqb (a b : Direction) : bool :=
  match a, b with
  | UP, UP | DOWN, DOWN | LEFT, LEFT | RIGHT, RIGHT => true
  | _, _ => false
  end.

Definition cell : Type := Z * Z.

Definition cell_eqb (a b : cell) : bool :=
  (fst a =? fst b) && (snd a =? snd b).

(** [c in cells] *)
Definition cell_in (c : cell) (cells : list cell) : bool :=
  existsb (cell_eqb c) cells.

Definition colour : Type := Z * Z * Z.
Definition RED : colour := (255, 0, 0).
Definition ORANGE : colour := (255, 165, 0).
Definition YELLOW : colour := (255, 255, 0).

(** The dict of a power-up. *)
Record PowerUp : Type := {
  pos : cell;
  type : string;
  lifespan : Z }.

Definition PowerUp_eqb (a b : PowerUp) : bool :=
  cell_eqb (pos a) (pos b) && String.eqb (type a) (type b) &&
  (lifespan a =? lifespan b).

(** The dict of a particle; ['x'] and ['y'] start as ints and are floats
    from the first [+=] on, they are kept as floats here. *)
Record Particle : Type := {
  p_x : float;
  p_y : float;
  p_vx : float;
  p_vy : float;
  p_life : Z;
  p_max_life : Z;
  p_color : colour }.

Record SnakeGame : Type := {
  width : Z;
  height : Z;
  grid_size : Z;
  grid_width : Z;
  grid_height : Z;
  high_score : Z;
  particles : list Particle;
  transition_particles : list Particle;
  power_ups : list PowerUp;
  last_power_up_score : Z;
  paused : bool;
  wrap_around : bool;
  snake : list cell;
  direction : Direction;
  next_direction : Direction;
  score : Z;
  game_over : bool;
  speed_boost : bool;
  fruit : cell }.

Definition set_grid_width (v : Z) (g : SnakeGame) : SnakeGame :=
  {| width := width g; height := height g; grid_size := grid_size g;
     grid_width := v; grid_height := grid_height g;
     high_score := high_score g; particles := particles g;
     transition_particles := transition_particles g;
     power_ups := power_ups g; last_power_up_score := last_power_up_score g;
     paused := paused g; wrap_around := wrap_around g; snake := snake g;
     direction := direction g; next_direction := next_direction g;
     score := score g; game_over := game_over g;
     speed_boost := speed_boost g; fruit := fruit g |}.

Definition set_grid_height (v : Z) (g : SnakeGame) : SnakeGame :=
  {| width := width g; height := height g; grid_size := grid_size g;
     grid_width := grid_width g; grid_height := v;
     high_score := high_score g; particles := particles g;
     transition_particles := transition_particles g;
     power_ups := power_ups g; last_power_up_score := last_power_up_score g;
     paused := paused g; wrap_around := wrap_around g; snake := snake g;
     direction := direction g; next_direction := next_direction g;
     score := score g; game_over := game_over g;
     speed_boost := speed_boost g; fruit := fruit g |}.

Definition set_high_score (v : Z) (g : SnakeGame) : SnakeGame :=
  {| width := width g; height := height g; grid_size := grid_size g;
     grid_width := grid_width g; grid_height := grid_height g;
     high_score := v; particles := particles g;
     transition_particles := transition_particles g;
     power_ups := power_ups g; last_power_up_score := last_power_up_score g;
     paused := paused g; wrap_around := wrap_around g; snake := snake g;
     direction := direction g; next_direction := next_direction g;
     score := score g; game_over := game_over g;
     speed_boost := speed_boost g; fruit := fruit g |}.

Definition set_particles (v : list Particle) (g : SnakeGame) : SnakeGame :=
  {| width := width g; height := height g; grid_size := grid_size g;
     grid_width := grid_width g; grid_height := grid_height g;
     high_score := high_score g; particles := v;
     transition_particles := transition_particles g;
     power_ups := power_ups g; last_power_up_score := last_power_up_score g;
     paused := paused g; wrap_around := wrap_around g; snake := snake g;
     direction := direction g; next_direction := next_direction g;
     score := score g; game_over := game_over g;
     speed_boost := speed_boost g; fruit := fruit g |}.

Definition set_transition_particles (v : list Particle) (g : SnakeGame) : SnakeGame :=
  {| width := width g; height := height g; grid_size := grid_size g;
     grid_width := grid_width g; grid_height := grid_height g;
     high_score := high_score g; particles := particles g;
     transition_particles := v; power_ups := power_ups g;
     last_power_up_score := last_power_up_score g; paused := paused g;
     wrap_around := wrap_around g; snake := snake g;
     direction := direction g; next_direction := next_direction g;
     score := score g; game_over := game_over g;
     speed_boost := speed_boost g; fruit := fruit g |}.

Definition set_power_ups (v : list PowerUp) (g : SnakeGame) : SnakeGame :=
  {| width := width g; height := height g; grid_size := grid_size g;
     grid_width := grid_width g; grid_height := grid_height g;
     high_score := high_score g; particles := particles g;
     transition_particles := transition_particles g; power_ups := v;
     last_power_up_score := last_power_up_score g; paused := paused g;
     wrap_around := wrap_around g; snake := snake g;
     direction := direction g; next_direction := next_direction g;
     score := score g; game_over := game_over g;
     speed_boost := speed_boost g; fruit := fruit g |}.

Definition set_last_power_up_score (v : Z) (g : SnakeGame) : SnakeGame :=
  {| width := width g; height := height g; grid_size := grid_size g;
     grid_width := grid_width g; grid_height := grid_height g;
     high_score := high_score g; particles := particles g;
     transition_particles := transition_particles g;
     power_ups := power_ups g; last_power_up_score := v; paused := paused g;
     wrap_around := wrap_around g; snake := snake g;
     direction := direction g; next_direction := next_direction g;
     score := score g; game_over := game_over g;
     speed_boost := speed_boost g; fruit := fruit g |}.

Definition set_paused (v : bool) (g : SnakeGame) : SnakeGame :=
  {| width := width g; height := height g; grid_size := grid_size g;
     grid_width := grid_width g; grid_height := grid_height g;
     high_score := high_score g; particles := particles g;
     transition_particles := transition_particles g;
     power_ups := power_ups g; last_power_up_score := last_power_up_score g;
     paused := v; wrap_around := wrap_around g; snake := snake g;
     direction := direction g; next_direction := next_direction g;
     score := score g; game_over := game_over g;
     speed_boost := speed_boost g; fruit := fruit g |}.

Definition set_wrap_around (v : bool) (g : SnakeGame) : SnakeGame :=
  {| width := width g; height := height g; grid_size := grid_size g;
     grid_width := grid_width g; grid_height := grid_height g;
     high_score := high_score g; particles := particles g;
     transition_particles := transition_particles g;
     power_ups := power_ups g; last_power_up_score := last_power_up_score g;
     paused := paused g; wrap_around := v; snake := snake g;
     direction := direction g; next_direction := next_direction g;
     score := score g; game_over := game_over g;
     speed_boost := speed_boost g; fruit := fruit g |}.

Definition set_snake (v : list cell) (g : SnakeGame) : SnakeGame :=
  {| width := width g; height := height g; grid_size := grid_size g;
     grid_width := grid_width g; grid_height := grid_height g;
     high_score := high_score g; particles := particles g;
     transition_particles := transition_particles g;
     power_ups := power_ups g; last_power_up_score := last_power_up_score g;
     paused := paused g; wrap_around := wrap_around g; snake := v;
     direction := direction g; next_direction := next_direction g;
     score := score g; game_over := game_over g;
     speed_boost := speed_boost g; fruit := fruit g |}.

Definition set_direction (v : Direction) (g : SnakeGame) : SnakeGame :=
  {| width := width g; height := height g; grid_size := grid_size g;
     grid_width := grid_width g; grid_height := grid_height g;
     high_score := high_score g; particles := particles g;
     transition_particles := transition_particles g;
     power_ups := power_ups g; last_power_up_score := last_power_up_score g;
     paused := paused g; wrap_around := wrap_around g; snake := snake g;
     direction := v; next_direction := next_direction g; score := score g;
     game_over := game_over g; speed_boost := speed_boost g;
     fruit := fruit g |}.

Definition set_next_direction (v : Direction) (g : SnakeGame) : SnakeGame :=
  {| width := width g; height := height g; grid_size := grid_size g;
     grid_width := grid_width g; grid_height := grid_height g;
     high_score := high_score g; particles := particles g;
     transition_particles := transition_particles g;
     power_ups := power_ups g; last_power_up_score := last_power_up_score g;
     paused := paused g; wrap_around := wrap_around g; snake := snake g;
     direction := direction g; next_direction := v; score := score g;
     game_over := game_over g; speed_boost := speed_boost g;
     fruit := fruit g |}.

Definition set_score (v : Z) (g : SnakeGame) : SnakeGame :=
  {| width := width g; height := height g; grid_size := grid_size g;
     grid_width := grid_width g; grid_height := grid_height g;
     high_score := high_score g; particles := particles g;
     transition_particles := transition_particles g;
     power_ups := power_ups g; last_power_up_score := last_power_up_score g;
     paused := paused g; wrap_around := wrap_around g; snake := snake g;
     direction := direction g; next_direction := next_direction g;
     score := v; game_over := game_over g; speed_boost := speed_boost g;
     fruit := fruit g |}.

Definition set_game_over (v : bool) (g : SnakeGame) : SnakeGame :=
  {| width := width g; height := height g; grid_size := grid_size g;
     grid_width := grid_width g; grid_height := grid_height g;
     high_score := high_score g; particles := particles g;
     transition_particles := transition_particles g;
     power_ups := power_ups g; last_power_up_score := last_power_up_score g;
     paused := paused g; wrap_around := wrap_around g; snake := snake g;
     direction := direction g; next_direction := next_direction g;
     score := score g; game_over := v; speed_boost := speed_boost g;
     fruit := fruit g |}.

Definition set_speed_boost (v : bool) (g : SnakeGame) : SnakeGame :=
  {| width := width g; height := height g; grid_size := grid_size g;
     grid_width := grid_width g; grid_height := grid_height g;
     high_score := high_score g; particles := particles g;
     transition_particles := transition_particles g;
     power_ups := power_ups g; last_power_up_score := last_power_up_score g;
     paused := paused g; wrap_around := wrap_around g; snake := snake g;
     direction := direction g; next_direction := next_direction g;
     score := score g; game_over := game_over g; speed_boost := v;
     fruit := fruit g |}.

Definition set_fruit (v : cell) (g : SnakeGame) : SnakeGame :=
  {| width := width g; height := height g; grid_size := grid_size g;
     grid_width := grid_width g; grid_height := grid_height g;
     high_score := high_score g; particles := particles g;
     transition_particles := transition_particles g;
     power_ups := power_ups g; last_power_up_score := last_power_up_score g;
     paused := paused g; wrap_around := wrap_around g; snake := snake g;
     direction := direction g; next_direction := next_direction g;
     score := score g; game_over := game_over g;
     speed_boost := speed_boost g; fruit := v |}.
Definition power_up_spawn_chance : float := 0.1.
Definition wrap_transition_frames : Z := 3.
Definition base_speed : Z := 6.
Definition boost_speed : Z := 12.

Definition Env : Type := World * SnakeGame.

Definition self_ {A : Type} (f : SnakeGame -> A) : Py Env A :=
  gets (fun e => f (snd e)).

Definition assign (f : SnakeGame -> SnakeGame) : Py Env unit :=
  modify (fun e => (fst e, f (snd e))).

(** A computation on the world, run from inside a method. *)
Definition world_ {A : Type} (m : Py World A) : Py Env A :=
  fun e => let r := m (fst e) in ((fst r, snd e), snd r).

(** [l.remove(v)]: drops the first element equal to [v]. *)
Fixpoint list_remove {A : Type} (eqb : A -> A -> bool) (v : A) (l : list A)
  : option (list A) :=
  match l with
  | [] => None
  | a :: l' =>
      if eqb a v then Some l'
      else option_map (cons a) (list_remove eqb v l')
  end.

Section Methods.
Context {py : PyLib}.

(** [save_high_score] *)
Definition save_high_score : Py Env unit :=
  try_except
    (best <- self_ high_score ;;
     world_ (open_write
               (json_dumps (JObj [("high_score"%string, JInt best)]))))
    (ret tt).

(** One round of the loop of [spawn_power_up]; [true] at the [break]. *)
Definition power_up_attempt : Py Env bool :=
  columns <- self_ grid_width ;;
  x <- world_ (random_randint 0 (columns - 1)) ;;
  rows <- self_ grid_height ;;
  y <- world_ (random_randint 0 (rows - 1)) ;;
  body <- self_ snake ;;
  food <- self_ fruit ;;
  if negb (cell_in (x, y) body) && negb (cell_eqb (x, y) food) then
    assign (fun g =>
      set_power_ups
        (power_ups g ++
           [{| pos := (x, y); type := "star"; lifespan := 200 |}]) g) ;;
    ret true
  else ret false.

(** [spawn_power_up] *)
Definition spawn_power_up (fuel : nat) : Py Env unit :=
  while_true fuel power_up_attempt.

(** One round of the loop of [spawn_fruit]; [true] at the [break]. *)
Definition fruit_attempt : Py Env bool :=
  columns <- self_ grid_width ;;
  x <- world_ (random_randint 0 (columns - 1)) ;;
  rows <- self_ grid_height ;;
  y <- world_ (random_randint 0 (rows - 1)) ;;
  body <- self_ snake ;;
  stars <- self_ power_ups ;;
  if negb (cell_in (x, y) body) &&
     negb (existsb (fun p => cell_eqb (x, y) (pos p)) stars) then
    assign (set_fruit (x, y)) ;;
    ret true
  else ret false.

(** [spawn_fruit] *)
Definition spawn_fruit (fuel : nat) : Py Env unit :=
  while_true fuel fruit_attempt ;;
  points <- self_ score ;;
  last <- self_ last_power_up_score ;;
  if 30 <=? points - last then
    chance <- world_ random_random ;;
    if (chance <? power_up_spawn_chance)%float then
      spawn_power_up fuel ;;
      points <- self_ score ;;
      assign (set_last_power_up_score points)
    else ret tt
  else ret tt.

(** [reset_game] *)
Definition reset_game (fuel : nat) : Py Env unit :=
  w <- self_ width ;;
  h <- self_ height ;;
  size <- self_ grid_size ;;
  (if size =? 0 then raise ZeroDivisionError else ret tt) ;;
  assign (set_grid_width (Z.max 4 (w / size))) ;;
  assign (set_grid_height (Z.max 4 (h / size))) ;;
  columns <- self_ grid_width ;;
  rows <- self_ grid_height ;;
  let start_x := columns / 2 in
  let start_y := rows / 2 in
  assign (set_snake [(start_x, start_y); (start_x - 1, start_y);
                     (start_x - 2, start_y)]) ;;
  assign (set_direction RIGHT) ;;
  assign (set_next_direction RIGHT) ;;
  assign (set_score 0) ;;
  assign (set_game_over false) ;;
  assign (set_speed_boost false) ;;
  assign (set_particles []) ;;
  assign (set_transition_particles []) ;;
  assign (set_power_ups []) ;;
  assign (set_paused false) ;;
  spawn_fruit fuel.

(** [SnakeGame.__init__], lines 27-61, up to the call of [reset_game]: the
    attributes it sets; the ones that [reset_game] assigns before anything
    reads them ([snake], the directions, [score], [game_over],
    [speed_boost], [fruit]) have no value yet and are given one here. *)
Definition new_game (w h size best : Z) : SnakeGame :=
  {| width := w; height := h; grid_size := size;
     grid_width := Z.max 4 (w / size); grid_height := Z.max 4 (h / size);
     high_score := best; particles := []; transition_particles := [];
     power_ups := []; last_power_up_score := 0;
     paused := false; wrap_around := true; snake := [];
     direction := RIGHT; next_direction := RIGHT;
     score := 0; game_over := false; speed_boost := false;
     fruit := (0, 0) |}.

(** [SnakeGame.__init__(width, height, grid_size)]: line 30 divides by
    the cell size first; then the high score is loaded and [reset_game]
    sets up the rest. *)
Definition __init__ (fuel : nat) (w h size : Z) : Py World SnakeGame :=
  fun world =>
    if size =? 0 then (world, Raised ZeroDivisionError)
    else
      match load_high_score world with
      | (world1, Done best) =>
          match reset_game fuel (world1, new_game w h size best) with
          | ((world2, g), Done _) => (world2, Done g)
          | ((world2, _), Raised e) => (world2, Raised e)
          | ((world2, _), Spinning) => (world2, Spinning)
          end
      | (world1, Raised e) => (world1, Raised e)
      | (world1, Spinning) => (world1, Spinning)
      end.

(** One particle of [add_particle_effect] or [_add_transition_trail]. *)
Definition particle_at (x y : Z) (vx vy : float) (life : Z) (c : colour)
  : Py Env Particle :=
  size <- self_ grid_size ;;
  ret {| p_x := py_float (x * size + size / 2);
         p_y := py_float (y * size + size / 2);
         p_vx := vx; p_vy := vy;
         p_life := life; p_max_life := life; p_color := c |}.

(** One round of the loop of [add_particle_effect]. *)
Definition burst_round (x y : Z) (c : colour) : Py Env unit :=
  vx <- world_ (random_uniform (-4) 4) ;;
  vy <- world_ (random_uniform (-4) 4) ;;
  particle <- particle_at x y vx vy 40 c ;;
  assign (fun g => set_particles (particles g ++ [particle]) g).

(** [add_particle_effect(x, y, color)] *)
Definition add_particle_effect (x y : Z) (c : colour) : Py Env unit :=
  for_each (seq 0 12) (fun _ => burst_round x y c).

(** One round of the loop of [_add_transition_trail]. *)
Definition trail_round (grid_x grid_y : Z) : Py Env unit :=
  vx <- world_ (random_uniform (-1) 1) ;;
  vy <- world_ (random_uniform (-1) 1) ;;
  particle <- particle_at grid_x grid_y vx vy wrap_transition_frames
                (0, 200, 255) ;;
  assign (fun g =>
    set_transition_particles (transition_particles g ++ [particle]) g).

(** [_add_transition_trail(grid_x, grid_y)] *)
Definition _add_transition_trail (grid_x grid_y : Z) : Py Env unit :=
  for_each (seq 0 8) (fun _ => trail_round grid_x grid_y).

(** [update_particles]: every particle is moved and aged in place, and
    removed once its life is spent. *)
Definition update_particles : Py Env unit :=
  assign (fun g =>
    set_particles
      (filter (fun p => 0 <? p_life p)
         (map (fun p =>
                 {| p_x := (p_x p + p_vx p)%float;
                    p_y := (p_y p + p_vy p)%float;
                    p_vx := p_vx p;
                    p_vy := (p_vy p + 0.2)%float;
                    p_life := p_life p - 1;
                    p_max_life := p_max_life p;
                    p_color := p_color p |})
            (particles g))) g).

(** [update_power_ups]: every power-up is aged in place, and removed once
    its lifespan is spent. *)
Definition update_power_ups : Py Env unit :=
  assign (fun g =>
    set_power_ups
      (filter (fun p => 0 <? lifespan p)
         (map (fun p =>
                 {| pos := pos p; type := type p;
                    lifespan := lifespan p - 1 |})
            (power_ups g))) g).

Definition mapping (name : string) : option Direction :=
  if String.eqb name "UP" then Some UP
  else if String.eqb name "DOWN" then Some DOWN
  else if String.eqb name "LEFT" then Some LEFT
  else if String.eqb name "RIGHT" then Some RIGHT
  else None.

Definition opposite (d : Direction) : Direction :=
  match d with
  | UP => DOWN
  | DOWN => UP
  | LEFT => RIGHT
  | RIGHT => LEFT
  end.

(** [change_direction(new_direction)] *)
Definition change_direction (new_direction : string) (g : SnakeGame)
  : SnakeGame :=
  if game_over g || paused g then g
  else match mapping new_direction with
       | Some new_dir =>
           if negb (Direction_eqb new_dir (opposite (direction g)))
           then set_next_direction new_dir g
           else g
       | None => g
       end.

Definition toggle_pause (g : SnakeGame) : SnakeGame :=
  set_paused (negb (paused g)) g.

Definition toggle_wrap (g : SnakeGame) : SnakeGame :=
  set_wrap_around (negb (wrap_around g)) g.

Definition set_speed_boost_ (boost : bool) (g : SnakeGame) : SnakeGame :=
  set_speed_boost boost g.

Definition get_current_speed (g : SnakeGame) : Z :=
  if speed_boost g then boost_speed else base_speed.

(** Lines 232-235 and 240-243: the game ends, the high score is kept. *)
Definition end_game : Py Env unit :=
  assign (set_game_over true) ;;
  points <- self_ score ;;
  best <- self_ high_score ;;
  when (best <? points)
    (assign (set_high_score points) ;;
     save_high_score).

(** Lines 215-227: the cell the head re-enters at, with its trail. *)
Definition wrap (new_head : cell) : Py Env cell :=
  columns <- self_ grid_width ;;
  rows <- self_ grid_height ;;
  if fst new_head <? 0 then
    let new_head := (columns - 1, snd new_head) in
    _add_transition_trail 0 (snd new_head) ;;
    ret new_head
  else if columns <=? fst new_head then
    let new_head := (0, snd new_head) in
    _add_transition_trail (columns - 1) (snd new_head) ;;
    ret new_head
  else if snd new_head <? 0 then
    let new_head := (fst new_head, rows - 1) in
    _add_transition_trail (fst new_head) 0 ;;
    ret new_head
  else if rows <=? snd new_head then
    let new_head := (fst new_head, 0) in
    _add_transition_trail (fst new_head) (rows - 1) ;;
    ret new_head
  else ret new_head.

(** Lines 209-236: the queued direction is committed and the new head
    cell found; [None] when the wall ended the game and [update]
    returned. *)
Definition move_head : Py Env (option cell) :=
  queued <- self_ next_direction ;;
  assign (set_direction queued) ;;
  body <- self_ snake ;;
  match body with
  | [] => raise IndexError
  | (head_x, head_y) :: _ =>
      heading <- self_ direction ;;
      let new_head := (head_x + fst (value heading),
                       head_y + snd (value heading)) in
      wrapping <- self_ wrap_around ;;
      if wrapping then
        new_head <- wrap new_head ;;
        ret (Some new_head)
      else
        columns <- self_ grid_width ;;
        rows <- self_ grid_height ;;
        if (fst new_head <? 0) || (columns <=? fst new_head) ||
           (snd new_head <? 0) || (rows <=? snd new_head)
        then end_game ;; ret None
        else ret (Some new_head)
  end.

(** Lines 259-262: the power-up [pu] against the new head cell. *)
Definition collect (new_head : cell) (pu : PowerUp) : Py Env unit :=
  when (cell_eqb new_head (pos pu))
    (assign (fun g => set_score (score g + 20) g) ;;
     add_particle_effect (fst new_head) (snd new_head) YELLOW ;;
     stars <- self_ power_ups ;;
     match list_remove PowerUp_eqb pu stars with
     | Some rest => assign (set_power_ups rest)
     | None => raise ValueError
     end).

(** Lines 258-262: the loop over a copy of the power-ups. *)
Definition collect_power_ups (new_head : cell) : Py Env unit :=
  stars <- self_ power_ups ;;
  for_each stars (collect new_head).

(** Lines 238-265: self collision, or the move with its effects. *)
Definition advance (fuel : nat) (new_head : cell) : Py Env unit :=
  body <- self_ snake ;;
  if cell_in new_head body then end_game
  else
    assign (set_snake (new_head :: body)) ;;
    food <- self_ fruit ;;
    (if cell_eqb new_head food then
       assign (fun g => set_score (score g + 10) g) ;;
       add_particle_effect (fst new_head) (snd new_head) RED ;;
       spawn_fruit fuel
     else
       assign (fun g => set_snake (removelast (snake g)) g)) ;;
    collect_power_ups new_head ;;
    update_particles ;;
    update_power_ups.

(** [update] *)
Definition update (fuel : nat) : Py Env unit :=
  over <- self_ game_over ;;
  halted <- self_ paused ;;
  if over || halted then ret tt
  else
    moved <- move_head ;;
    match moved with
    | Some new_head => advance fuel new_head
    | None => ret tt
    end.

(** [handle_restart(gesture)] *)
Definition handle_restart (fuel : nat) (gesture : option string)
  : Py Env unit :=
  over <- self_ game_over ;;
  if over && opt_eqb String.eqb gesture (Some "UP"%string)
  then reset_game fuel
  else ret tt.

(** The world after [end_game]: the file is rewritten when the score
    beats the high score and the file can be opened. *)
Definition world_after_end (w : World) (g : SnakeGame) : World :=
  if (high_score g <? score g) && negb (open_fails w)
  then set_high_score_json
         (Some (json_dumps (JObj [("high_score"%string, JInt (score g))]))) w
  else w.

End Methods.

(** The cell the head moves to in the next tick, before any wrapping. *)
Definition next_cell (g : SnakeGame) : cell :=
  match snake g with
  | [] => (0, 0)
  | (head_x, head_y) :: _ =>
      (head_x + fst (value (next_direction g)),
       head_y + snd (value (next_direction g)))
  end.

(** Neither paused nor over. *)
Definition running (g : SnakeGame) : Prop :=
  game_over g = false /\ paused g = false.

(** The cell lines 216-227 move an overflowing head to. *)
Definition wrapped (g : SnakeGame) (c : cell) : cell :=
  if fst c <? 0 then (grid_width g - 1, snd c)
  else if grid_width g <=? fst c then (0, snd c)
  else if snd c <? 0 then (fst c, grid_height g - 1)
  else if grid_height g <=? snd c then (fst c, 0)
  else c.

(** Line 230-231: the cell is off the grid. *)
Definition off_grid (g : SnakeGame) (c : cell) : bool :=
  (fst c <? 0) || (grid_width g <=? fst c) ||
  (snd c <? 0) || (grid_height g <=? snd c).

(** The new head cell of the next tick, as line 239 sees it. *)
Definition new_head_cell (g : SnakeGame) : cell :=
  if wrap_around g then wrapped g (next_cell g) else next_cell g.

(** The world after [n] more draws. *)
Definition skip (n : nat) (w : World) : World :=
  set_random_pos (n + random_pos w) w.

(** A particle of the trail left at cell [(x, y)]. *)
Definition trail_particle_at (g : SnakeGame) (x y : Z) (p : Particle) : Prop :=
  p_x p = py_float (x * grid_size g + grid_size g / 2) /\
  p_y p = py_float (y * grid_size g + grid_size g / 2) /\
  p_life p = wrap_transition_frames /\
  p_max_life p = wrap_transition_frames /\
  p_color p = (0, 200, 255).


(** The power-up that [spawn_power_up] puts on a cell. *)
Definition star (c : cell) : PowerUp :=
  {| pos := c; type := "star"; lifespan := 200 |}.

(** No power-up of the list is on the cell. *)
Definition clear_of (c : cell) (stars : list PowerUp) : bool :=
  negb (existsb (fun p => cell_eqb c (pos p)) stars).

(** The fruit is on the grid, on no segment of the snake and on no
    power-up. *)
Definition fruit_placed (g : SnakeGame) : Prop :=
  off_grid g (fruit g) = false /\
  cell_in (fruit g) (snake g) = false /\
  clear_of (fruit g) (power_ups g) = true.

(** The board, the snake and the fruit are as they were, and no power-up
    has come to a cell that had none. *)
Definition board_kept (g g' : SnakeGame) : Prop :=
  snake g' = snake g /\ fruit g' = fruit g /\
  grid_width g' = grid_width g /\ grid_height g' = grid_height g /\
  forall c, clear_of c (power_ups g) = true -> clear_of c (power_ups g') = true.

(** The cell a round of a search draws when the generator stands at
    draw [p]. *)
Definition candidate (w : World) (g : SnakeGame) (p : nat) : cell :=
  (random_draws w p mod grid_width g, random_draws w (S p) mod grid_height g).

(** [kept view]: the part [view] of the state is the same afterwards. *)
Definition kept {T : Type} (view : Env -> T) (e e' : Env) : Prop :=
  view e' = view e.

(** A view that does not look at the number of draws made. *)
Definition blind_to_draws {T : Type} (view : Env -> T) : Prop :=
  forall n w g, view (set_random_pos n w, g) = view (w, g).

(** The snake and the wrap trails. *)
Definition body_and_trails (e : Env) : list cell * list Particle :=
  (snake (snd e), transition_particles (snd e)).

(** *** States to run the game on *)

(** Concrete game states. *)
Definition quiet_world : World :=
  {| random_draws := fun n => Z.of_nat n * 7 + 3;
     random_pos := 0;
     high_score_json := None;
     open_fails := false |}.

(** The state of the spec's scenario: a 10 by 10 grid, the snake on row 5
    heading right, wrap mode on. *)
Definition scenario : SnakeGame :=
  {| width := 200; height := 200; grid_size := 20;
     grid_width := 10; grid_height := 10;
     high_score := 0; particles := []; transition_particles := [];
     power_ups := []; last_power_up_score := 0;
     paused := false; wrap_around := true;
     snake := [(5, 5); (4, 5); (3, 5)];
     direction := RIGHT; next_direction := RIGHT;
     score := 0; game_over := false; speed_boost := false;
     fruit := (1, 1) |}.

(** The snake of the scenario about to leave the grid on the left. *)
Definition at_left_edge : SnakeGame :=
  set_next_direction LEFT
    (set_direction LEFT (set_snake [(0, 5); (1, 5); (2, 5)] scenario)).

(** The snake along the whole of row 5, heading left from the left edge. *)
Definition along_the_row : SnakeGame :=
  set_score 70
    (set_next_direction LEFT
       (set_direction LEFT
          (set_snake [(0, 5); (1, 5); (2, 5); (3, 5); (4, 5);
                      (5, 5); (6, 5); (7, 5); (8, 5); (9, 5)] scenario))).

(** A snake of length 4 about to turn down into its own tail. *)
Definition coiled : SnakeGame :=
  set_score 10
    (set_next_direction DOWN
       (set_snake [(5, 5); (4, 5); (4, 6); (5, 6)] scenario)).

(** The scenario with the fruit in front of the head. *)
Definition fruit_ahead : SnakeGame := set_fruit (6, 5) scenario.

(** A 4 by 4 board: the snake covers every cell but the fruit's, which
    is in front of its head. *)
Definition last_free_cell : SnakeGame :=
  {| width := 80; height := 80; grid_size := 20;
     grid_width := 4; grid_height := 4;
     high_score := 0; particles := []; transition_particles := [];
     power_ups := []; last_power_up_score := 0;
     paused := false; wrap_around := true;
     snake := [(1, 0); (2, 0); (3, 0); (3, 1); (2, 1); (1, 1); (0, 1);
               (0, 2); (1, 2); (2, 2); (3, 2); (3, 3); (2, 3); (1, 3); (0, 3)];
     direction := LEFT; next_direction := LEFT;
     score := 120; game_over := false; speed_boost := false;
     fruit := (0, 0) |}.

(** *** More of the game, for the facts below *)

(** The power-ups of the list that are on the cell. *)
Definition stars_on (c : cell) (stars : list PowerUp) : list PowerUp :=
  filter (fun p => cell_eqb c (pos p)) stars.

(** The power-ups of the list that are elsewhere. *)
Definition stars_off (c : cell) (stars : list PowerUp) : list PowerUp :=
  filter (fun p => negb (cell_eqb c (pos p))) stars.

(** What [update_power_ups] makes of the list. *)
Definition aged (stars : list PowerUp) : list PowerUp :=
  filter (fun p => 0 <? lifespan p)
    (map (fun p => {| pos := pos p; type := type p;
                      lifespan := lifespan p - 1 |}) stars).

(** What [update_particles] makes of the list. *)
Definition drifted (ps : list Particle) : list Particle :=
  filter (fun p => 0 <? p_life p)
    (map (fun p => {| p_x := (p_x p + p_vx p)%float;
                      p_y := (p_y p + p_vy p)%float;
                      p_vx := p_vx p;
                      p_vy := (p_vy p + 0.2)%float;
                      p_life := p_life p - 1;
                      p_max_life := p_max_life p;
                      p_color := p_color p |}) ps).

(** The scenario with a power-up in front of the head. *)
Definition star_ahead : SnakeGame := set_power_ups [star (6, 5)] scenario.

(** The game after a collision: lines 232-235 and 240-243 on the state
    that has the queued direction committed. *)
Definition ended (g : SnakeGame) : SnakeGame :=
  set_high_score (Z.max (high_score g) (score g))
    (set_game_over true (set_direction (next_direction g) g)).

(** A particle of the burst that [add_particle_effect] leaves at cell
    [(x, y)]. *)
Definition burst_particle_at (g : SnakeGame) (x y : Z) (c : colour)
  (p : Particle) : Prop :=
  p_x p = py_float (x * grid_size g + grid_size g / 2) /\
  p_y p = py_float (y * grid_size g + grid_size g / 2) /\
  p_life p = 40 /\ p_max_life p = 40 /\ p_color p = c.

(** The cell on the edge where lines 216-227 leave the trail of a head
    that overflowed to [c]. *)
Definition trail_cell (g : SnakeGame) (c : cell) : cell :=
  if fst c <? 0 then (0, snd c)
  else if grid_width g <=? fst c then (grid_width g - 1, snd c)
  else if snd c <? 0 then (fst c, 0)
  else (fst c, grid_height g - 1).

(** The scenario in Classic mode with the head about to leave the grid at
    the top. *)
Definition at_top_wall : SnakeGame :=
  set_score 30
    (set_wrap_around false
       (set_next_direction UP
          (set_direction UP (set_snake [(5, 0); (5, 1); (5, 2)] scenario)))).


(** Every cell of the list is on the grid. *)
Definition on_grid (g : SnakeGame) (cells : list cell) : bool :=
  forallb (fun c => negb (off_grid g c)) cells.

(** No cell is in the list twice. *)
Fixpoint distinct (cells : list cell) : bool :=
  match cells with
  | [] => true
  | c :: rest => negb (cell_in c rest) && distinct rest
  end.

(** A game on a grid with cells whose snake is not empty, lies on the
    grid and is on no cell twice, with the fruit placed. *)
Definition well_formed (g : SnakeGame) : Prop :=
  0 < grid_width g /\ 0 < grid_height g /\
  snake g <> [] /\
  on_grid g (snake g) = true /\
  distinct (snake g) = true /\
  fruit_placed g.

(** The game as lines 92-108 of [reset_game] leave it, before the fruit
    is spawned. *)
Definition restarted (g : SnakeGame) : SnakeGame :=
  let columns := Z.max 4 (width g / grid_size g) in
  let rows := Z.max 4 (height g / grid_size g) in
  set_paused false
    (set_power_ups []
       (set_transition_particles []
          (set_particles []
             (set_speed_boost false
                (set_game_over false
                   (set_score 0
                      (set_next_direction RIGHT
                         (set_direction RIGHT
                            (set_snake [(columns / 2, rows / 2);
                                        (columns / 2 - 1, rows / 2);
                                        (columns / 2 - 2, rows / 2)]
                               (set_grid_height rows
                                  (set_grid_width columns g))))))))))).

(** A game that ended with 40 points in a 400 by 600 window. *)
Definition lost_game : SnakeGame :=
  {| width := 400; height := 600; grid_size := 20;
     grid_width := 20; grid_height := 30;
     high_score := 40; particles := []; transition_particles := [];
     power_ups := [star (3, 3)]; last_power_up_score := 30;
     paused := false; wrap_around := false;
     snake := [(19, 7); (18, 7); (17, 7); (16, 7)];
     direction := RIGHT; next_direction := RIGHT;
     score := 40; game_over := true; speed_boost := true;
     fruit := (2, 2) |}.

(** The queued direction is not the reverse of the active one. *)
Definition no_reversal (g : SnakeGame) : Prop :=
  next_direction g <> opposite (direction g).

(** The active and the queued direction. *)
Definition headings (e : Env) : Direction * Direction :=
  (direction (snd e), next_direction (snd e)).

(** [m] run [n] times in a row. *)
Fixpoint times {S : Type} (n : nat) (m : Py S unit) : Py S unit :=
  match n with
  | O => ret tt
  | Datatypes.S k => m ;; times k m
  end.

(** The power-ups that outlive [n] rounds of [update_power_ups], as they
    are after them. *)
Definition aged_by (n : Z) (stars : list PowerUp) : list PowerUp :=
  map (fun p => {| pos := pos p; type := type p; lifespan := lifespan p - n |})
    (filter (fun p => n <? lifespan p) stars).

(** Line 115: the cell is on no segment of the snake and on no
    power-up. *)
Definition free (g : SnakeGame) (c : cell) : bool :=
  negb (cell_in c (snake g)) && clear_of c (power_ups g).

(** The power-up is on a cell of the grid that is on no segment of the
    snake and is not the fruit cell. *)
Definition star_clear (g : SnakeGame) (p : PowerUp) : bool :=
  negb (off_grid g (pos p)) && negb (cell_in (pos p) (snake g)) &&
  negb (cell_eqb (pos p) (fruit g)).

(** Every power-up of the game is. *)
Definition stars_clear (g : SnakeGame) : bool :=
  forallb (star_clear g) (power_ups g).

End SnakeGame.

(** ** A [json] module for the documents the game stores, digit by digit *)

Definition quote_mark : ascii := ascii_of_nat 34.

Definition high_score_prefix : string :=
  String "{" (String quote_mark ("high_score" ++ String quote_mark ": ")).

(** The text [json.dump] writes for [{'high_score': n}]. *)
Definition high_score_text (n : Z) : string :=
  high_score_prefix ++ NilZero.string_of_int (Z.to_int n) ++ "}".

Fixpoint strip_prefix (p s : string) : option string :=
  match p, s with
  | EmptyString, _ => Some s
  | String a p', String b s' =>
      if Ascii.eqb a b then strip_prefix p' s' else None
  | String _ _, EmptyString => None
  end.

(** The string without its last character, when that is [c]. *)
Fixpoint strip_last (c : ascii) (s : string) : option string :=
  match s with
  | EmptyString => None
  | String a EmptyString => if Ascii.eqb a c then Some EmptyString else None
  | String a s' => option_map (String a) (strip_last c s')
  end.

Definition decimal (s : string) : option Z :=
  option_map Z.of_int (NilZero.int_of_string s).

Definition codec_loads (text : string) : option json :=
  match strip_prefix high_score_prefix text with
  | Some rest =>
      match strip_last "}" rest with
      | Some digits =>
          option_map (fun n => JObj [("high_score"%string, JInt n)])
            (decimal digits)
      | None => None
      end
  | None => None
  end.

Definition codec_dumps (d : json) : string :=
  match d with
  | JObj [(key, JInt n)] =>
      if String.eqb key "high_score" then high_score_text n else "null"
  | _ => "null"
  end.

Definition high_score_codec : PyLib :=
  {| json_dumps := codec_dumps;
     json_loads := codec_loads;
     int_of_str := decimal |}.

(** ** main.py *)

Module Main.
Import SnakeGame.

Section Loop.
Context {py : PyLib}.

(** Lines 236-243 of [run]: the latest gesture and boost flag applied to
    the game. *)
Definition steer (fuel : nat) (gesture : option string) (pinching : bool)
  : Py Env unit :=
  match gesture with
  | Some name =>
      if negb (String.eqb name EmptyString) then
        assign (change_direction name) ;;
        over <- self_ game_over ;;
        if over then handle_restart fuel gesture else ret tt
      else ret tt
  | None => ret tt
  end ;;
  assign (set_speed_boost_ pinching).

(** Lines 194-199 of [cleanup]: the score is kept when it beats the high
    score. *)
Definition cleanup : Py Env unit :=
  try_except
    (points <- self_ score ;;
     best <- self_ high_score ;;
     when (best <? points)
       (assign (set_high_score points) ;;
        save_high_score))
    (ret tt).

End Loop.

End Main.

(** * Facts

    ** Relations kept by a computation *)

Section Keeps.
Context {S : Type} (R : S -> S -> Prop).
Hypothesis R_refl : forall s, R s s.
Hypothesis R_trans : forall s1 s2 s3, R s1 s2 -> R s2 s3 -> R s1 s3.

Lemma keeps_ret {A} (a : A) : keeps R (ret a).
Proof. intro s. apply R_refl. Qed.

Lemma keeps_raise {A} (e : exn) : keeps R (@raise S A e).
Proof. intro s. apply R_refl. Qed.

Lemma keeps_gets {A} (f : S -> A) : keeps R (gets f).
Proof. intro s. apply R_refl. Qed.

Lemma keeps_int_ (f : float) : keeps R (int_ f).
Proof. unfold int_. destruct (py_int f); [apply keeps_raise | apply keeps_ret]. Qed.

Lemma keeps_modify (f : S -> S) : (forall s, R s (f s)) -> keeps R (modify f).
Proof. intros H s. apply H. Qed.

Lemma keeps_bind {A B} (m : Py S A) (k : A -> Py S B) :
  keeps R m -> (forall a, keeps R (k a)) -> keeps R (bind m k).
Proof.
  intros Hm Hk s. unfold bind. specialize (Hm s).
  destruct (m s) as [s' [a | e |]]; cbn [fst] in *; try assumption.
  eapply R_trans; [exact Hm | apply Hk].
Qed.

Lemma keeps_when (b : bool) (m : Py S unit) : keeps R m -> keeps R (when b m).
Proof. intro H. destruct b; [exact H | apply keeps_ret]. Qed.

Lemma keeps_for_each {A} (l : list A) (body : A -> Py S unit) :
  (forall a, keeps R (body a)) -> keeps R (for_each l body).
Proof.
  intro H. induction l as [| a l IH]; cbn [for_each].
  - apply keeps_ret.
  - apply keeps_bind; [apply H | intros _; exact IH].
Qed.

Lemma keeps_while_true (fuel : nat) (body : Py S bool) :
  keeps R body -> keeps R (while_true fuel body).
Proof.
  intro H. induction fuel as [| n IH]; cbn [while_true].
  - intro s. apply R_refl.
  - apply keeps_bind; [exact H |]. intros [|]; [apply keeps_ret | exact IH].
Qed.

Lemma keeps_try_except {A} (body handler : Py S A) :
  keeps R body -> keeps R handler -> keeps R (try_except body handler).
Proof.
  intros Hb Hh s. unfold try_except. specialize (Hb s).
  destruct (body s) as [s' [a | e |]]; cbn [fst] in *; try assumption.
  eapply R_trans; [exact Hb | apply Hh].
Qed.

End Keeps.

(** ** More rounds for a search that has ended *)

Section Stable.
Context {S : Type}.

Lemma stable_const {A} (m : Py S A) : stable (fun _ => m).
Proof. intros n n' s _ _. reflexivity. Qed.

Lemma stable_bind {A B} (m : nat -> Py S A) (k : nat -> A -> Py S B) :
  stable m -> (forall a, stable (fun n => k n a)) ->
  stable (fun n => bind (m n) (k n)).
Proof.
  intros Hm Hk n n' s Hle Hs. unfold settled, bind in *.
  specialize (Hm n n' s Hle).
  destruct (m n s) as [s1 [a | e |]] eqn:E.
  - rewrite Hm by (cbn; discriminate). now apply Hk.
  - rewrite Hm by (cbn; discriminate). reflexivity.
  - now cbn in Hs.
Qed.

Lemma stable_while_true (body : Py S bool) :
  stable (fun n => while_true n body).
Proof.
  intros n. induction n as [| n IH]; intros n' s Hle Hs.
  - now cbn in Hs.
  - destruct n' as [| n']; [lia |]. cbn [while_true] in *.
    unfold settled, bind in *.
    destruct (body s) as [s1 [[|] | e |]]; try reflexivity.
    apply IH; [lia | exact Hs].
Qed.

End Stable.

(** ** The gesture interpreter *)

Module GestureFacts.
Import GestureControl.

Lemma opt_eqb_string_spec (a b : option string) :
  opt_eqb String.eqb a b = true <-> a = b.
Proof.
  destruct a as [s|], b as [t|]; simpl; split; intro H;
    try discriminate; try reflexivity.
  - apply String.eqb_eq in H. now subst.
  - injection H as ->. apply String.eqb_refl.
Qed.

Section OnSelf.
Variable R : GestureControl -> GestureControl -> Prop.
Hypothesis R_refl : forall s, R s s.

Lemma keeps_local_update (f : Ctx -> Locals) :
  keeps (on_self R) (modify (fun c => (fst c, f c))).
Proof. intro c. apply R_refl. Qed.

Lemma keeps_draw o : keeps (on_self R) (draw o).
Proof. apply keeps_local_update. Qed.
Lemma keeps_set_direction d : keeps (on_self R) (set_direction d).
Proof. apply keeps_local_update. Qed.
Lemma keeps_set_is_pinching b : keeps (on_self R) (set_is_pinching b).
Proof. apply keeps_local_update. Qed.
Lemma keeps_set_dynamic_thresh t : keeps (on_self R) (set_dynamic_thresh t).
Proof. apply keeps_local_update. Qed.

Lemma keeps_assign f : (forall s, R s (f s)) -> keeps (on_self R) (assign f).
Proof. intros H c. apply H. Qed.

End OnSelf.

Lemma on_self_refl (R : GestureControl -> GestureControl -> Prop) :
  (forall s, R s s) -> forall c, on_self R c c.
Proof. intros H c. apply H. Qed.

Lemma on_self_trans (R : GestureControl -> GestureControl -> Prop) :
  (forall a b c, R a b -> R b c -> R a c) ->
  forall a b c, on_self R a b -> on_self R b c -> on_self R a c.
Proof. intros H a b c. apply H. Qed.

(** [keeps_steps Hr Ht leaf]: walk down a computation; [Hr] and [Ht] are
    reflexivity and transitivity of the relation on [GestureControl],
    [leaf] closes the calls that have a lemma of their own. *)
Ltac keeps_steps Hr Ht leaf :=
  repeat first
    [ leaf
    | apply (keeps_bind _ (on_self_trans _ Ht)); [| intros ? ]
    | apply (keeps_when _ (on_self_refl _ Hr))
    | apply (keeps_for_each _ (on_self_refl _ Hr) (on_self_trans _ Ht)); intros ?
    | apply (keeps_ret _ (on_self_refl _ Hr))
    | apply (keeps_raise _ (on_self_refl _ Hr))
    | apply (keeps_gets _ (on_self_refl _ Hr))
    | apply (keeps_int_ _ (on_self_refl _ Hr))
    | apply (keeps_draw _ Hr) | apply (keeps_set_direction _ Hr)
    | apply (keeps_set_is_pinching _ Hr)
    | apply (keeps_set_dynamic_thresh _ Hr) ].

Lemma hand_effect_refl s : hand_effect s s.
Proof. split; [reflexivity | left; split; reflexivity]. Qed.

Lemma hand_effect_trans s1 s2 s3 :
  hand_effect s1 s2 -> hand_effect s2 s3 -> hand_effect s1 s3.
Proof.
  unfold hand_effect, max_cooldown.
  intros [N1 [[D1 C1] | (L1 & C1 & D1 & I1)]] [N2 [[D2 C2] | (L2 & C2 & D2 & I2)]];
    (split; [congruence |]).
  - left; split; congruence.
  - right; repeat split; try congruence; lia.
  - right; repeat split; try congruence; lia.
  - lia.
Qed.

Lemma decide_direction_effect smoothed :
  keeps (on_self hand_effect) (decide_direction smoothed).
Proof.
  intros [s l]. unfold on_self, decide_direction.
  cbv [bind self_ local_ gets]. cbn [fst snd].
  destruct (previous_position s) as [previous|]; [| apply hand_effect_refl].
  destruct (gesture_cooldown s <=? 0) eqn:Hc; [| apply hand_effect_refl].
  apply Z.leb_le in Hc.
  destruct (gtb _ _); [| apply hand_effect_refl].
  set (d := if gtb (abs _) _ then _ else _).
  assert (Hname : is_direction_name (Some d)).
  { unfold is_direction_name. subst d.
    destruct (gtb (abs _) _); destruct (gtb _ 0); auto. }
  cbv [set_direction modify when assign ret bind]. cbn [fst snd].
  destruct (opt_eqb String.eqb (Some d) (current_direction s)) eqn:Hd;
    cbn [negb fst snd]; [apply hand_effect_refl |].
  split; [reflexivity |]. right.
  cbn [current_direction gesture_cooldown set_gesture_cooldown set_current_direction].
  repeat split; try assumption.
  intro H. apply opt_eqb_string_spec in H. congruence.
Qed.

Lemma track_hand_effect frame hand :
  keeps (on_self hand_effect) (track_hand frame hand).
Proof.
  unfold track_hand, self_.
  keeps_steps hand_effect_refl hand_effect_trans
    ltac:(apply decide_direction_effect);
    apply keeps_assign; intro s;
    (split; [reflexivity | left; split; reflexivity]).
Qed.

Lemma for_each_hand_effect frame hands :
  keeps (on_self hand_effect) (for_each hands (track_hand frame)).
Proof.
  keeps_steps hand_effect_refl hand_effect_trans
    ltac:(apply track_hand_effect).
Qed.

Lemma draw_status_self frame results :
  keeps (on_self eq) (draw_status frame results).
Proof.
  unfold draw_status, _draw_confidence_bar, _draw_center_box, self_.
  keeps_steps (@eq_refl GestureControl) (@eq_trans GestureControl) fail.
Qed.

Lemma after_throws self frame :
  process frame = Throws -> after self frame = self.
Proof.
  intro H. unfold after, detect_gestures, try_except, try_body, hands_process, bind.
  rewrite H. reflexivity.
Qed.

Lemma after_returns self frame results :
  process frame = Returns results ->
  after self frame =
    let r := observe frame results (self, locals0) in
    match snd r with
    | Done _ => tick (fst (fst r))
    | _ => fst (fst r)
    end.
Proof.
  intro H. unfold after, detect_gestures, try_except, try_body, hands_process.
  unfold bind at 1. rewrite H. cbn [ret].
  unfold bind at 1.
  destruct (observe frame results (self, locals0)) as [[s1 l1] [[] | e |]];
    cbn [fst snd]; try reflexivity.
  unfold bind at 1, cooldown_tick at 1.
  cbv [bind self_ gets when assign modify ret]. cbn [fst snd].
  pose proof (draw_status_self frame results) as Hd. unfold keeps, on_self in Hd.
  unfold tick.
  destruct (0 <? gesture_cooldown s1);
    match goal with
    | |- context [draw_status frame results ?c] =>
        specialize (Hd c); destruct (draw_status frame results c) as [[s2 l2] [[] | e |]]
    end; cbv [draw modify]; cbn [fst snd] in *; congruence.
Qed.

Lemma completes_returns self frame results :
  process frame = Returns results ->
  completes self frame = true ->
  exists c, observe frame results (self, locals0) = (c, Done tt).
Proof.
  intros H. unfold completes, try_body, hands_process.
  unfold bind at 1. rewrite H. cbn [ret]. unfold bind at 1.
  destruct (observe frame results (self, locals0)) as [c [[] | e |]];
    cbn [snd]; try discriminate.
  intros _. now exists c.
Qed.

Lemma observe_confidence results (c : Ctx) :
  exists v,
    match multi_hand_landmarks results, multi_handedness results with
    | _ :: _, score :: _ => assign (set_last_confidence score)
    | _, _ => assign (set_last_confidence 0)
    end c = ((set_last_confidence v (fst c), snd c), Done tt).
Proof.
  destruct (multi_hand_landmarks results); [| destruct (multi_handedness results)];
    eexists; reflexivity.
Qed.

(** The state that [observe] leaves on a frame with a hand. *)
Lemma observe_hand frame results self s' l o :
  nonempty (multi_hand_landmarks results) = true ->
  observe frame results (self, locals0) = ((s', l), o) ->
  no_hand_frames s' = 0 /\
  ((current_direction s' = current_direction self /\
    gesture_cooldown s' = gesture_cooldown self) \/
   (gesture_cooldown self <= 0 /\ gesture_cooldown s' = max_cooldown /\
    current_direction s' <> current_direction self /\
    is_direction_name (current_direction s'))).
Proof.
  intros Hn. unfold observe. rewrite Hn.
  unfold bind at 1.
  destruct (observe_confidence results (self, locals0)) as (v & ->).
  cbv [bind self_ gets set_dynamic_thresh modify assign]. cbn [fst snd].
  match goal with
  | |- context [for_each ?hs ?b ?c] =>
      pose proof (for_each_hand_effect frame hs c) as He
  end.
  intro E. rewrite E in He.
  unfold on_self, hand_effect in He. cbn [fst snd] in He.
  destruct He as [N He]. cbn in N, He. split; [exact N |]. exact He.
Qed.

(** The state that [observe] leaves on a frame without a hand. *)
Lemma observe_no_hand frame results self :
  multi_hand_landmarks results = [] ->
  observe frame results (self, locals0) =
    let s1 := set_no_hand_frames (no_hand_frames self + 1)
                (set_last_confidence 0 self) in
    let s2 := if max_no_hand_frames <? no_hand_frames self + 1
              then reset_gesture_state s1 else s1 in
    ((s2, snd (fst (observe frame results (self, locals0)))), Done tt).
Proof.
  intros Hn. unfold observe. rewrite Hn. cbn [nonempty].
  cbv [bind self_ gets set_dynamic_thresh modify assign when ret]. cbn [fst snd].
  cbn [set_no_hand_frames set_last_confidence no_hand_frames].
  destruct (max_no_hand_frames <? no_hand_frames self + 1); reflexivity.
Qed.

Lemma nonempty_false {A} (l : list A) : nonempty l = false -> l = [].
Proof. destruct l; [reflexivity | discriminate]. Qed.

Lemma completes_throws self frame :
  process frame = Throws -> completes self frame = false.
Proof.
  intro H. unfold completes, try_body, hands_process, bind. rewrite H. reflexivity.
Qed.

Lemma after_no_hand self frame :
  no_hand frame = true ->
  after self frame =
    let s1 := set_no_hand_frames (no_hand_frames self + 1)
                (set_last_confidence 0 self) in
    tick (if max_no_hand_frames <? no_hand_frames self + 1
          then reset_gesture_state s1 else s1).
Proof.
  unfold no_hand. destruct (process frame) as [| results] eqn:Hp; [discriminate |].
  intro Hn. apply negb_true_iff, nonempty_false in Hn.
  rewrite (after_returns _ _ _ Hp), (observe_no_hand _ _ _ Hn). reflexivity.
Qed.

(** A frame with a hand: the direction and the cooldown are kept, or a
    direction is accepted at cooldown zero. *)
Lemma after_hand self frame :
  has_hand frame = true ->
  no_hand_frames (after self frame) = 0 /\
  ((current_direction (after self frame) = current_direction self /\
    (completes self frame = true ->
     gesture_cooldown (after self frame) =
       if 0 <? gesture_cooldown self then gesture_cooldown self - 1
       else gesture_cooldown self)) \/
   (gesture_cooldown self <= 0 /\
    current_direction (after self frame) <> current_direction self /\
    is_direction_name (current_direction (after self frame)) /\
    (completes self frame = true ->
     gesture_cooldown (after self frame) = max_cooldown - 1))).
Proof.
  unfold has_hand. destruct (process frame) as [| results] eqn:Hp; [discriminate |].
  intro Hn. rewrite (after_returns _ _ _ Hp).
  assert (Hc : completes self frame = true ->
               snd (observe frame results (self, locals0)) = Done tt).
  { intro Hc. destruct (completes_returns _ _ _ Hp Hc) as [c ->]. reflexivity. }
  destruct (observe frame results (self, locals0)) as [[s1 l1] o] eqn:Ho.
  destruct (observe_hand _ _ _ _ _ _ Hn Ho) as [N He].
  cbn [fst snd] in *.
  assert (Ht : no_hand_frames (tick s1) = no_hand_frames s1 /\
               current_direction (tick s1) = current_direction s1 /\
               gesture_cooldown (tick s1) =
                 if 0 <? gesture_cooldown s1 then gesture_cooldown s1 - 1
                 else gesture_cooldown s1).
  { unfold tick. destruct (0 <? gesture_cooldown s1); repeat split. }
  destruct Ht as (T1 & T2 & T3).
  split.
  - destruct o; congruence.
  - destruct He as [[D C] | (L & C & D & I)]; [left | right].
    + split; [destruct o; congruence |].
      intro H. rewrite (Hc H), T3, C. reflexivity.
    + split; [exact L |]. split; [destruct o; congruence |].
      split; [destruct o; congruence |].
      intro H. rewrite (Hc H), T3, C. reflexivity.
Qed.

Lemma accepted_spec self frame :
  accepted self frame = true <->
  has_hand frame = true /\
  current_direction (after self frame) <> current_direction self.
Proof.
  unfold accepted. rewrite andb_true_iff, negb_true_iff.
  split; intros [H1 H2]; (split; [exact H1 |]).
  - intro E. apply opt_eqb_string_spec in E. congruence.
  - destruct (opt_eqb _ _ _) eqn:E; [| reflexivity].
    apply opt_eqb_string_spec in E. contradiction.
Qed.

(** While the cooldown runs, a processed frame takes one tick off it and
    leaves the direction alone. *)
Lemma after_cooling self frame :
  completes self frame = true ->
  0 < gesture_cooldown self ->
  0 <= no_hand_frames self < max_no_hand_frames ->
  gesture_cooldown (after self frame) = gesture_cooldown self - 1 /\
  current_direction (after self frame) = current_direction self /\
  0 <= no_hand_frames (after self frame) <= no_hand_frames self + 1.
Proof.
  intros Hc Hpos Hn.
  destruct (process frame) as [| results] eqn:Hp.
  { rewrite (completes_throws _ _ Hp) in Hc. discriminate. }
  destruct (has_hand frame) eqn:Hh.
  - destruct (after_hand self frame Hh) as [N [[D C] | (L & _)]]; [| lia].
    rewrite (C Hc), N, D.
    destruct (0 <? gesture_cooldown self) eqn:E; [| apply Z.ltb_ge in E; lia].
    repeat split; lia.
  - assert (Hno : no_hand frame = true).
    { unfold has_hand in Hh. unfold no_hand. rewrite Hp in *. now rewrite Hh. }
    rewrite (after_no_hand _ _ Hno). cbv zeta.
    unfold max_no_hand_frames in *.
    destruct (12 <? no_hand_frames self + 1) eqn:E; [apply Z.ltb_lt in E; lia |].
    unfold tick. cbn [gesture_cooldown set_no_hand_frames set_last_confidence].
    destruct (0 <? gesture_cooldown self) eqn:E2; [| apply Z.ltb_ge in E2; lia].
    cbn. repeat split; lia.
Qed.

(** C1 (amended): no direction is accepted on a frame that starts with a
    positive cooldown; a frame that accepts one starts at cooldown zero or
    below and, processed to its end, leaves the counter at 3, the
    accepting frame taking the first of the 4 ticks itself; the next three
    processed frames bring it to 2, 1 and 0, one per frame, and none of
    them accepts a direction. *)
Theorem cooldown_debounce (self : GestureControl) (frame f1 f2 f3 : Frame) :
  (0 < gesture_cooldown self -> accepted self frame = false) /\
  (accepted self frame = true ->
   completes_all self [frame; f1; f2; f3] = true ->
   gesture_cooldown self <= 0 /\
   gesture_cooldown (run self [frame]) = 3 /\
   gesture_cooldown (run self [frame; f1]) = 2 /\
   gesture_cooldown (run self [frame; f1; f2]) = 1 /\
   gesture_cooldown (run self [frame; f1; f2; f3]) = 0 /\
   accepted (run self [frame]) f1 = false /\
   accepted (run self [frame; f1]) f2 = false /\
   accepted (run self [frame; f1; f2]) f3 = false).
Proof.
  assert (Hblock : forall s f, 0 < gesture_cooldown s -> accepted s f = false).
  { intros s f Hpos. destruct (accepted s f) eqn:Ha; [| reflexivity].
    apply accepted_spec in Ha. destruct Ha as [Hh Hd].
    destruct (after_hand s f Hh) as [_ [[D _] | (L & _)]]; [contradiction | lia]. }
  split; [apply Hblock |].
  intros Ha Hc. apply accepted_spec in Ha. destruct Ha as [Hh Hd].
  cbn [completes_all] in Hc.
  repeat (apply andb_true_iff in Hc; destruct Hc as [? Hc]).
  cbn [run fold_left].
  destruct (after_hand self frame Hh) as [N [[D _] | (L & _ & _ & C)]];
    [contradiction |].
  specialize (C H). unfold max_cooldown in C.
  set (s0 := after self frame) in *.
  destruct (after_cooling s0 f1 H0) as (C1 & D1 & N1);
    [lia | unfold max_no_hand_frames; lia |].
  set (s1 := after s0 f1) in *.
  destruct (after_cooling s1 f2 H1) as (C2 & D2 & N2);
    [lia | unfold max_no_hand_frames; lia |].
  set (s2 := after s1 f2) in *.
  destruct (after_cooling s2 f3 H2) as (C3 & D3 & N3);
    [lia | unfold max_no_hand_frames; lia |].
  repeat split; try lia; apply Hblock; lia.
Qed.

Lemma cooldown_debounce_witness :
  accepted (after seen_hand (frame_hand_at 0.75 0.5)) (frame_hand_at 0.5 0.5)
    = false /\
  gesture_cooldown
    (run seen_hand [frame_hand_at 0.75 0.5; frame_no_hand;
                    frame_hand_at 0.5 0.5; frame_no_hand]) = 0.
Proof.
  split.
  - apply (proj1 (cooldown_debounce (after seen_hand (frame_hand_at 0.75 0.5))
             (frame_hand_at 0.5 0.5) frame_no_hand frame_no_hand frame_no_hand)).
    vm_compute. reflexivity.
  - apply (proj2 (cooldown_debounce seen_hand (frame_hand_at 0.75 0.5)
             frame_no_hand (frame_hand_at 0.5 0.5) frame_no_hand));
      vm_compute; reflexivity.
Defined.

(** C1 as stated fails: a direction is accepted on the second frame, and
    three processed frames later the counter is already zero, where the
    claim has it at one with a fourth frame to go. *)
Lemma cooldown_zero_after_three_frames :
  accepted seen_hand (frame_hand_at 0.75 0.5) = true /\
  completes_all seen_hand
    [frame_hand_at 0.75 0.5; frame_no_hand; frame_no_hand; frame_no_hand] = true /\
  gesture_cooldown (run seen_hand [frame_hand_at 0.75 0.5]) = 3 /\
  gesture_cooldown
    (run seen_hand
       [frame_hand_at 0.75 0.5; frame_no_hand; frame_no_hand; frame_no_hand]) = 0.
Proof. vm_compute. repeat split. Qed.

(** C6: when the detector throws on a frame, [detect_gestures] returns
    the direction stored before the call, [False] for the boost flag and
    the frame with the error text as its only overlay; the interpreter's
    state is what it was. *)
Theorem detector_failure_contained (self : GestureControl) (frame : Frame) :
  process frame = Throws ->
  detect_gestures self frame =
    (self, (current_direction self, false, [text_gesture_error])).
Proof.
  intro H.
  unfold detect_gestures, try_except, try_body, hands_process, bind.
  rewrite H. reflexivity.
Qed.

Lemma detector_failure_contained_witness :
  detect_gestures
    (run seen_hand [frame_hand_at 0.75 0.5]) frame_throws =
  (run seen_hand [frame_hand_at 0.75 0.5],
   (Some "RIGHT"%string, false, [text_gesture_error])).
Proof.
  apply (detector_failure_contained
           (run seen_hand [frame_hand_at 0.75 0.5]) frame_throws).
  reflexivity.
Defined.

Lemma no_hand_step self frame :
  no_hand frame = true ->
  0 <= no_hand_frames self ->
  last_confidence (after self frame) = 0%float /\
  0 <= no_hand_frames (after self frame) <= 12 /\
  (no_hand_frames self <= 12 ->
   no_hand_frames (after self frame) = (no_hand_frames self + 1) mod 13) /\
  (no_hand_frames self + 1 <= 12 ->
   no_hand_frames (after self frame) = no_hand_frames self + 1) /\
  (gesture_state_initial self \/ 12 < no_hand_frames self + 1 ->
   gesture_state_initial (after self frame)).
Proof.
  intros Hn Hpos. rewrite (after_no_hand _ _ Hn). cbv zeta.
  unfold max_no_hand_frames, gesture_state_initial.
  destruct (12 <? no_hand_frames self + 1) eqn:E;
    [apply Z.ltb_lt in E | apply Z.ltb_ge in E].
  - unfold tick. cbn.
    repeat split; try lia.
    intro H. assert (no_hand_frames self = 12) as -> by lia. reflexivity.
  - assert (Hm : (no_hand_frames self + 1) mod 13 = no_hand_frames self + 1)
      by (apply Z.mod_small; lia).
    unfold tick. cbn [gesture_cooldown set_no_hand_frames set_last_confidence].
    destruct (0 <? gesture_cooldown self) eqn:E2; cbn;
      (split; [reflexivity |]); (split; [lia |]);
      (split; [intros _; symmetry; exact Hm |]); (split; [intros _; reflexivity |]);
      (intros [(P & Hh & D & C) | L]; [| lia]);
      [rewrite C in E2; discriminate | repeat split; assumption].
Qed.

Lemma run_no_hand_initial frames : forall self,
  forallb no_hand frames = true ->
  0 <= no_hand_frames self ->
  frames <> [] ->
  gesture_state_initial self \/
    12 < no_hand_frames self + Z.of_nat (List.length frames) ->
  gesture_state_initial (run self frames) /\
  last_confidence (run self frames) = 0%float /\
  0 <= no_hand_frames (run self frames) <= 12.
Proof.
  induction frames as [| f fs IH]; intros self Hall Hpos Hne Hor; [congruence |].
  cbn [forallb] in Hall. apply andb_true_iff in Hall. destruct Hall as [Hf Hfs].
  destruct (no_hand_step self f Hf Hpos) as (L & B & _ & S1 & I).
  cbn [run fold_left]. fold (run (after self f) fs).
  destruct fs as [| f' fs'].
  - cbn [run fold_left]. cbn [List.length] in Hor.
    split; [apply I; destruct Hor; [left; assumption | right; lia] |].
    split; assumption.
  - apply IH; [exact Hfs | lia | discriminate |].
    destruct (Z.lt_ge_cases 12 (no_hand_frames self + 1)) as [Hgt | Hle].
    + left. apply I. now right.
    + destruct Hor as [Hi | Hlen]; [left; apply I; now left |].
      right. rewrite (S1 Hle).
      change (List.length (f :: f' :: fs')) with (S (List.length (f' :: fs'))) in Hlen.
      lia.
Qed.

Lemma run_no_hand_count frames : forall self,
  forallb no_hand frames = true ->
  0 <= no_hand_frames self <= 12 ->
  no_hand_frames (run self frames) =
    (no_hand_frames self + Z.of_nat (List.length frames)) mod 13.
Proof.
  induction frames as [| f fs IH]; intros self Hall Hb.
  - cbn. rewrite Z.add_0_r. symmetry. apply Z.mod_small. lia.
  - cbn [forallb] in Hall. apply andb_true_iff in Hall. destruct Hall as [Hf Hfs].
    destruct (no_hand_step self f Hf (proj1 Hb)) as (_ & B & M & _).
    cbn [run fold_left]. fold (run (after self f) fs).
    rewrite (IH _ Hfs B), (M (proj2 Hb)), Z.add_mod_idemp_l by lia.
    f_equal. change (List.length (f :: fs)) with (S (List.length fs)). lia.
Qed.

(** C7 (amended): after more than 12 consecutive frames without a hand,
    started from a non-negative count, the position history, the previous
    position, the current direction and the cooldown counter have their
    freshly initialised values, and so has the last confidence. The
    no-hand frame count does not stay at zero: it restarts when the reset
    fires and counts the frames since, so it lies between 0 and 12, and
    from a count of at most 12 it is the frames seen so far modulo 13. *)
Theorem loss_of_tracking_reset (self : GestureControl) (frames : list Frame) :
  0 <= no_hand_frames self ->
  forallb no_hand frames = true ->
  (12 < List.length frames)%nat ->
  gesture_state_initial (run self frames) /\
  last_confidence (run self frames) = last_confidence init /\
  0 <= no_hand_frames (run self frames) <= 12 /\
  (no_hand_frames self <= 12 ->
   no_hand_frames (run self frames) =
     (no_hand_frames self + Z.of_nat (List.length frames)) mod 13).
Proof.
  intros Hpos Hall Hlen.
  destruct (run_no_hand_initial frames self Hall Hpos) as (I & L & B).
  - intro E. rewrite E in Hlen. cbn in Hlen. lia.
  - right. lia.
  - split; [exact I |]. split; [exact L |]. split; [exact B |].
    intro Hle. apply run_no_hand_count; [exact Hall | lia].
Qed.

Lemma loss_of_tracking_reset_witness :
  gesture_state_initial
    (run (run seen_hand [frame_hand_at 0.75 0.5]) (repeat frame_no_hand 13)).
Proof.
  apply (loss_of_tracking_reset
           (run seen_hand [frame_hand_at 0.75 0.5]) (repeat frame_no_hand 13)).
  - vm_compute. intro H. discriminate H.
  - reflexivity.
  - cbn. lia.
Defined.

(** C7 as stated fails: after 14 frames without a hand the no-hand frame
    count is 1, not the 0 of a freshly initialised interpreter. *)
Lemma no_hand_count_restarts :
  forallb no_hand (repeat frame_no_hand 14) = true /\
  no_hand_frames (run init (repeat frame_no_hand 14)) = 1 /\
  no_hand_frames init = 0 /\
  run init (repeat frame_no_hand 14) <> init.
Proof.
  repeat split.
  intro H. apply (f_equal no_hand_frames) in H. vm_compute in H. discriminate.
Qed.

Lemma quiet_frame self frame :
  accepted self frame = false ->
  reset_fires self frame = false ->
  current_direction (after self frame) = current_direction self.
Proof.
  intros Ha Hr.
  destruct (process frame) as [| results] eqn:Hp.
  { now rewrite (after_throws _ _ Hp). }
  unfold accepted in Ha. unfold reset_fires in Hr.
  destruct (has_hand frame) eqn:Hh.
  - cbn [andb] in Ha. apply negb_false_iff, opt_eqb_string_spec in Ha. exact Ha.
  - assert (Hno : no_hand frame = true).
    { unfold has_hand in Hh. unfold no_hand. rewrite Hp in *. now rewrite Hh. }
    rewrite Hno in Hr. cbn [andb] in Hr.
    rewrite (after_no_hand _ _ Hno). cbv zeta. rewrite Hr.
    unfold tick. cbn [gesture_cooldown set_no_hand_frames set_last_confidence].
    destruct (0 <? gesture_cooldown self); reflexivity.
Qed.

(** C9: each call returns the direction stored in the interpreter when
    the call ends; a frame that accepts a direction returns one of the four
    names, never [None]; and from a state whose stored direction is [d],
    every call of a sequence in which no frame accepts a different
    direction and no frame fires the loss-of-tracking reset returns [d],
    whether the frame shows movement, no movement, no hand, or makes the
    detector throw. *)
Theorem returned_direction_is_stored
  (self : GestureControl) (frames : list Frame) (d : string) :
  Forall (fun p => snd p = current_direction (fst p)) (trace self frames) /\
  (forall frame, accepted self frame = true ->
     is_direction_name (returned_direction self frame)) /\
  (current_direction self = Some d ->
   quiet self frames = true ->
   Forall (fun p => snd p = Some d) (trace self frames)).
Proof.
  split; [| split].
  - revert self. induction frames as [| f fs IH]; intro self; cbn [trace];
      constructor; [reflexivity | apply IH].
  - intros frame Ha. apply accepted_spec in Ha. destruct Ha as [Hh Hd].
    change (returned_direction self frame)
      with (current_direction (after self frame)).
    destruct (after_hand self frame Hh) as [_ [[D _] | (_ & _ & I & _)]];
      [contradiction | exact I].
  - revert self. induction frames as [| f fs IH]; intros self Hd Hq; cbn [trace];
      constructor.
    + cbn [quiet] in Hq.
      apply andb_true_iff in Hq. destruct Hq as [Hq _].
      apply andb_true_iff in Hq. destruct Hq as [Ha Hr].
      apply negb_true_iff in Ha, Hr. cbn [snd].
      change (returned_direction self f) with (current_direction (after self f)).
      now rewrite (quiet_frame _ _ Ha Hr).
    + cbn [quiet] in Hq.
      apply andb_true_iff in Hq. destruct Hq as [Hq Hrest].
      apply andb_true_iff in Hq. destruct Hq as [Ha Hr].
      apply negb_true_iff in Ha, Hr.
      apply IH; [| exact Hrest]. now rewrite (quiet_frame _ _ Ha Hr).
Qed.

Lemma returned_direction_is_stored_witness :
  Forall (fun p => snd p = Some "RIGHT"%string)
    (trace (run seen_hand [frame_hand_at 0.75 0.5])
       [frame_no_hand; frame_throws; frame_hand_at 0.75 0.5;
        frame_hand_at 0.75 0.5; frame_no_hand]).
Proof.
  apply (proj2 (proj2 (returned_direction_is_stored
           (run seen_hand [frame_hand_at 0.75 0.5])
           [frame_no_hand; frame_throws; frame_hand_at 0.75 0.5;
            frame_hand_at 0.75 0.5; frame_no_hand] "RIGHT"%string)));
    vm_compute; reflexivity.
Defined.

Lemma same_history_refl s : same_history s s.
Proof. reflexivity. Qed.

Lemma same_history_trans a b c :
  same_history a b -> same_history b c -> same_history a c.
Proof. unfold same_history. congruence. Qed.

Lemma history_bounded_refl s : history_bounded s s.
Proof. intro H. exact H. Qed.

Lemma history_bounded_trans a b c :
  history_bounded a b -> history_bounded b c -> history_bounded a c.
Proof. unfold history_bounded. auto. Qed.

Lemma window_length history p :
  Z.of_nat (List.length history) <= max_history ->
  Z.of_nat (List.length (window history p)) <= max_history.
Proof.
  unfold window, max_history. rewrite length_app. cbn [List.length].
  intro H. destruct (Z.ltb_spec 6 (Z.of_nat (List.length history + 1))).
  - destruct history as [| q history]; cbn [app tl List.length] in *; [lia |].
    rewrite length_app. cbn [List.length]. lia.
  - rewrite length_app. cbn [List.length]. lia.
Qed.

Lemma decide_direction_history smoothed :
  keeps (on_self same_history) (decide_direction smoothed).
Proof.
  intros [s l]. unfold on_self, decide_direction.
  cbv [bind self_ local_ gets]. cbn [fst snd].
  destruct (previous_position s) as [previous|]; [| reflexivity].
  destruct (gesture_cooldown s <=? 0); [| reflexivity].
  destruct (gtb _ _); [| reflexivity].
  cbv [set_direction modify when assign ret bind]. cbn [fst snd].
  destruct (negb _); reflexivity.
Qed.

(** [track_hand] leaves the history as the window of lines 87-89 makes
    it, whatever its outcome. *)
Lemma track_hand_history frame hand s l :
  position_history (fst (fst (track_hand frame hand (s, l)))) =
  window (position_history s) (x (WRIST hand), y (WRIST hand)).
Proof.
  unfold track_hand.
  unfold bind at 1, draw at 1, modify. cbn [fst snd].
  unfold bind at 1, assign at 1, modify. cbn [fst snd].
  unfold bind at 1, self_ at 1, gets.
  cbn [fst snd position_history set_position_history].
  unfold bind at 1. unfold window.
  match goal with
  | |- context [when ?b ?m ?c] =>
      assert (Hw : exists s1,
                when b m c = ((s1, snd c), Done tt) /\
                position_history s1 =
                  (if b then tl (position_history s ++ [(x (WRIST hand), y (WRIST hand))])
                   else position_history s ++ [(x (WRIST hand), y (WRIST hand))]))
        by (destruct b; eexists; split; reflexivity);
      destruct Hw as (s1 & -> & Hs1)
  end.
  transitivity (position_history s1); [| exact Hs1]. cbn [snd].
  match goal with
  | |- position_history (fst (fst (?m ?c))) = _ =>
      assert (K : keeps (on_self same_history) m)
  end.
  { unfold self_.
    keeps_steps same_history_refl same_history_trans
      ltac:(idtac; lazymatch goal with
            | |- keeps _ (decide_direction _) => apply decide_direction_history
            end);
      apply keeps_assign; intro s'; reflexivity. }
  apply K.
Qed.



Lemma track_hand_bounded frame hand :
  keeps (on_self history_bounded) (track_hand frame hand).
Proof.
  intros [s l]. unfold on_self, history_bounded. cbn [fst]. intro H.
  rewrite track_hand_history. now apply window_length.
Qed.

Lemma observe_bounded frame results :
  keeps (on_self history_bounded) (observe frame results).
Proof.
  unfold observe, self_.
  destruct (multi_hand_landmarks results) as [| hand hands];
    [| destruct (multi_handedness results)]; cbn [nonempty];
    keeps_steps history_bounded_refl history_bounded_trans
      ltac:(idtac; lazymatch goal with
            | |- keeps _ (track_hand _ _) => apply track_hand_bounded
            end);
    apply keeps_assign; intros s H; try exact H;
    cbn; unfold max_history; lia.
Qed.

Lemma tick_history s : position_history (tick s) = position_history s.
Proof. unfold tick. now destruct (0 <? gesture_cooldown s). Qed.

Lemma after_bounded self frame : history_bounded self (after self frame).
Proof.
  destruct (process frame) as [| results] eqn:Hp.
  { rewrite (after_throws _ _ Hp). apply history_bounded_refl. }
  rewrite (after_returns _ _ _ Hp). cbv zeta.
  pose proof (observe_bounded frame results (self, locals0)) as H.
  unfold on_self in H. cbn [fst] in H.
  destruct (snd (observe frame results (self, locals0))); try exact H.
  unfold history_bounded. rewrite tick_history. exact H.
Qed.

(** The state after a frame with one hand, from the state that [observe]
    leaves. *)
Lemma after_one_hand self frame results hand :
  process frame = Returns results ->
  multi_hand_landmarks results = [hand] ->
  position_history (after self frame) =
    window (position_history self) (x (WRIST hand), y (WRIST hand)).
Proof.
  intros Hp Hh. rewrite (after_returns _ _ _ Hp). cbv zeta.
  assert (Ho : position_history (fst (fst (observe frame results (self, locals0))))
               = window (position_history self) (x (WRIST hand), y (WRIST hand))).
  { unfold observe. rewrite Hh. cbn [nonempty].
    unfold bind at 1.
    destruct (observe_confidence results (self, locals0)) as (v & Hc).
    rewrite Hh in Hc. rewrite Hc.
    cbv [bind self_ gets set_dynamic_thresh modify assign]. cbn [fst snd for_each].
    unfold bind.
    match goal with
    | |- context [track_hand frame hand (?s1, ?l1)] =>
        pose proof (track_hand_history frame hand s1 l1) as Ht;
        destruct (track_hand frame hand (s1, l1)) as [[s2 l2] [[] | e |]]
    end; cbn [fst snd ret] in *; exact Ht. }
  destruct (snd (observe frame results (self, locals0))); try exact Ho.
  rewrite tick_history. exact Ho.
Qed.

(** X1: the history of wrist positions is a window of the last
    [max_history] positions: a frame with one hand appends the wrist
    position and drops the oldest when there are more than 6, whatever
    else happens on the frame; and over any sequence of frames, with any
    number of hands, with or without exceptions, a history of at most 6
    positions stays at most 6 long. *)
Theorem history_is_a_window (self : GestureControl) :
  (forall frame results hand,
     process frame = Returns results ->
     multi_hand_landmarks results = [hand] ->
     position_history (after self frame) =
       window (position_history self) (x (WRIST hand), y (WRIST hand))) /\
  (forall frames,
     Z.of_nat (List.length (position_history self)) <= max_history ->
     Z.of_nat (List.length (position_history (run self frames))) <= max_history).
Proof.
  split; [intros frame results hand; apply after_one_hand |].
  intros frames. revert self.
  induction frames as [| f fs IH]; intros self H; [exact H |].
  cbn [run fold_left]. fold (run (after self f) fs).
  apply IH. now apply after_bounded.
Qed.

Lemma tick_in_range s : in_range s -> in_range (tick s).
Proof.
  unfold in_range, tick, max_cooldown. intros (C & N & D).
  destruct (Z.ltb_spec 0 (gesture_cooldown s)); [| repeat split; tauto].
  cbn [gesture_cooldown no_hand_frames current_direction set_gesture_cooldown].
  repeat split; try tauto; lia.
Qed.

Lemma after_in_range self frame : in_range self -> in_range (after self frame).
Proof.
  intro H. destruct (process frame) as [| results] eqn:Hp.
  { now rewrite (after_throws _ _ Hp). }
  destruct (nonempty (multi_hand_landmarks results)) eqn:Hn.
  - rewrite (after_returns _ _ _ Hp). cbv zeta.
    destruct (observe frame results (self, locals0)) as [[s1 l1] o] eqn:Ho.
    destruct (observe_hand _ _ _ _ _ _ Hn Ho) as [N He].
    assert (H1 : in_range s1).
    { destruct H as (C & Nh & D). unfold in_range, max_no_hand_frames in *.
      rewrite N.
      destruct He as [[-> ->] | (_ & -> & _ & I)];
        unfold max_cooldown; repeat split; try lia; tauto. }
    cbn [fst snd]. destruct o; [now apply tick_in_range | exact H1 | exact H1].
  - assert (Hno : no_hand frame = true)
      by (unfold no_hand; now rewrite Hp, Hn).
    rewrite (after_no_hand _ _ Hno). cbv zeta. apply tick_in_range.
    destruct H as (C & Nh & D).
    unfold in_range, max_no_hand_frames, max_cooldown in *.
    destruct (Z.ltb_spec 12 (no_hand_frames self + 1)); cbn;
      repeat split; try lia; tauto.
Qed.

(** X2: the interpreter's counters never leave their ranges: over any
    sequence of frames, with or without a hand, with or without
    exceptions, the cooldown stays between 0 and [max_cooldown], the
    no-hand count between 0 and [max_no_hand_frames], and the stored
    direction is [None] or one of UP, DOWN, LEFT, RIGHT. *)
Theorem gesture_state_in_range (self : GestureControl) (frames : list Frame) :
  in_range self -> in_range (run self frames).
Proof.
  revert self. induction frames as [| f fs IH]; intros self H; [exact H |].
  cbn [run fold_left]. fold (run (after self f) fs).
  apply IH. now apply after_in_range.
Qed.

(** X3: only a change of direction restarts the cooldown: on a frame with
    a hand that is processed to its end and leaves the stored direction
    as it was, the cooldown goes down by one, or stays at zero; the
    same movement shown again never holds the next change back. *)
Theorem same_direction_keeps_cooldown (self : GestureControl) (frame : Frame) :
  has_hand frame = true ->
  completes self frame = true ->
  current_direction (after self frame) = current_direction self ->
  gesture_cooldown (after self frame) =
    (if 0 <? gesture_cooldown self then gesture_cooldown self - 1
     else gesture_cooldown self) /\
  no_hand_frames (after self frame) = 0.
Proof.
  intros Hh Hc Hd.
  destruct (after_hand self frame Hh) as [N [[_ C] | (_ & D & _)]];
    [| contradiction].
  split; [exact (C Hc) | exact N].
Qed.

Lemma history_is_a_window_witness :
  position_history (after seen_hand (frame_hand_at 0.75 0.5)) =
  [(0.5, 0.5); (0.75, 0.5)]%float.
Proof.
  rewrite (proj1 (history_is_a_window seen_hand) (frame_hand_at 0.75 0.5)
             _ (open_hand 0.75 0.5) eq_refl eq_refl).
  reflexivity.
Defined.

Lemma gesture_state_in_range_witness :
  in_range (run init [frame_hand_at 0.5 0.5; frame_hand_at 0.75 0.5;
                      frame_no_hand; frame_throws]).
Proof.
  apply (gesture_state_in_range init).
  unfold in_range, init, max_cooldown, max_no_hand_frames.
  cbn [gesture_cooldown no_hand_frames current_direction].
  split; [lia | split; [lia | now left]].
Defined.

Lemma same_direction_keeps_cooldown_witness :
  gesture_cooldown
    (after (after seen_hand (frame_hand_at 0.75 0.5)) (frame_hand_at 0.75 0.5))
  = 2.
Proof.
  apply (proj1 (same_direction_keeps_cooldown
                  (after seen_hand (frame_hand_at 0.75 0.5))
                  (frame_hand_at 0.75 0.5) eq_refl
                  ltac:(vm_compute; reflexivity)
                  ltac:(vm_compute; reflexivity))).
Defined.


Lemma same_heading_refl s : same_heading s s.
Proof. split; reflexivity. Qed.

Lemma same_heading_trans a b c :
  same_heading a b -> same_heading b c -> same_heading a c.
Proof. unfold same_heading. intros [] []. split; congruence. Qed.

(** [track_hand] after the window of lines 87-89: the direction decision
    on the smoothed position, the boost flag, and lines 111-118. *)
Lemma track_hand_steps frame hand s l :
  let history := window (position_history s) (x (WRIST hand), y (WRIST hand)) in
  track_hand frame hand (s, l) =
    (decide_direction (np_mean history) ;;
     set_is_pinching (pinch hand) ;;
     mark_pinch frame hand (np_mean history))
      (set_position_history history s,
       {| annotated := annotated l ++ [draw_landmarks hand];
          direction := direction l;
          is_pinching := is_pinching l;
          dynamic_thresh := dynamic_thresh l |}).
Proof.
  cbv zeta. unfold track_hand, window.
  unfold bind at 1, draw at 1, modify. cbn [fst snd].
  unfold bind at 1, assign at 1, modify. cbn [fst snd].
  unfold bind at 1, self_ at 1, gets.
  cbn [fst snd position_history set_position_history].
  unfold bind at 1.
  destruct (max_history <? _); cbn [when];
    [unfold assign at 1, modify | unfold ret at 1]; cbn [fst snd];
    unfold bind at 1, self_ at 1, gets;
    cbn [fst snd position_history set_position_history];
    reflexivity.
Qed.

Lemma same_pinch_refl c : same_pinch c c.
Proof. reflexivity. Qed.

Lemma same_pinch_trans a b c : same_pinch a b -> same_pinch b c -> same_pinch a c.
Proof. unfold same_pinch. congruence. Qed.

(** [keeps_pinch leaf]: walk down a computation that does not set the
    boost flag. *)
Ltac keeps_pinch leaf :=
  repeat lazymatch goal with
    | |- keeps _ (bind _ _) =>
        apply (keeps_bind _ same_pinch_trans); [| intros ? ]
    | |- keeps _ (when _ _) => apply (keeps_when _ same_pinch_refl)
    | |- keeps _ (for_each _ _) =>
        apply (keeps_for_each _ same_pinch_refl same_pinch_trans); intros ?
    | |- keeps _ (ret _) => apply (keeps_ret _ same_pinch_refl)
    | |- keeps _ (raise _) => apply (keeps_raise _ same_pinch_refl)
    | |- keeps _ (self_ _) => apply (keeps_gets _ same_pinch_refl)
    | |- keeps _ (local_ _) => apply (keeps_gets _ same_pinch_refl)
    | |- keeps _ (int_ _) => apply (keeps_int_ _ same_pinch_refl)
    | |- keeps _ (draw _) => intros ?; reflexivity
    | |- keeps _ (set_direction _) => intros ?; reflexivity
    | |- keeps _ (set_dynamic_thresh _) => intros ?; reflexivity
    | |- keeps _ (assign _) => intros ?; reflexivity
    | |- keeps _ (if ?b then _ else _) => destruct b
    | |- keeps _ _ => leaf
    end.

Lemma decide_direction_idle smoothed (c : Ctx) :
  previous_position (fst c) = None ->
  decide_direction smoothed c = (c, Done tt).
Proof.
  intro H. unfold decide_direction. cbv [bind self_ gets]. cbn [fst snd].
  now rewrite H.
Qed.

(** The direction decision always returns, and leaves the boost flag
    alone. *)
Lemma decide_direction_returns smoothed (c : Ctx) :
  exists c', decide_direction smoothed c = (c', Done tt) /\ same_pinch c c'.
Proof.
  destruct c as [s l]. unfold decide_direction.
  cbv [bind self_ local_ gets]. cbn [fst snd].
  destruct (previous_position s) as [previous|]; [| now eexists].
  destruct (gesture_cooldown s <=? 0); [| now eexists].
  destruct (gtb _ _); [| now eexists].
  cbv [set_direction modify when assign ret bind]. cbn [fst snd].
  destruct (negb _); now eexists.
Qed.

Lemma mark_pinch_heading frame hand smoothed :
  keeps (on_self same_heading) (mark_pinch frame hand smoothed).
Proof.
  unfold mark_pinch.
  keeps_steps same_heading_refl same_heading_trans fail.
  apply keeps_assign. intro s. split; reflexivity.
Qed.

Lemma mark_pinch_pinch frame hand smoothed :
  keeps same_pinch (mark_pinch frame hand smoothed).
Proof. unfold mark_pinch. keeps_pinch fail. Qed.

(** When lines 111-118 run to their end, the smoothed position is the
    previous position of the next frame. *)
Lemma mark_pinch_done frame hand smoothed (c : Ctx) :
  snd (mark_pinch frame hand smoothed c) = Done tt ->
  previous_position (fst (fst (mark_pinch frame hand smoothed c))) =
    Some smoothed.
Proof.
  unfold mark_pinch.
  set (marks := when (pinch hand) _).
  unfold bind.
  destruct (marks c) as [c1 [[] | e |]]; cbn [snd]; try discriminate.
  intros _. reflexivity.
Qed.

(** What [observe] leaves on a frame with one hand, in terms of the
    steps of [track_hand]. *)
Lemma observe_one_hand frame results hand self :
  multi_hand_landmarks results = [hand] ->
  exists v l,
    observe frame results (self, locals0) =
      (track_hand frame hand ;; ret tt)
        (set_no_hand_frames 0 (set_last_confidence v self), l) /\
    is_pinching l = false.
Proof.
  intro Hh. unfold observe. rewrite Hh. cbn [nonempty].
  unfold bind at 1.
  destruct (observe_confidence results (self, locals0)) as (v & Hc).
  rewrite Hh in Hc. rewrite Hc.
  cbv [bind self_ gets set_dynamic_thresh modify assign]. cbn [fst snd for_each].
  eexists v, _. split; [reflexivity | reflexivity].
Qed.

Lemma track_hand_first frame hand s l :
  previous_position s = None ->
  let r := track_hand frame hand (s, l) in
  same_heading s (fst (fst r)) /\
  (snd r = Done tt ->
   previous_position (fst (fst r)) =
     Some (np_mean (window (position_history s)
                      (x (WRIST hand), y (WRIST hand))))).
Proof.
  intro Hp. cbv zeta.
  assert (E : exists c,
            track_hand frame hand (s, l) =
              mark_pinch frame hand
                (np_mean (window (position_history s)
                            (x (WRIST hand), y (WRIST hand)))) c /\
            same_heading s (fst c)).
  { rewrite track_hand_steps. cbv zeta.
    unfold bind at 1. rewrite decide_direction_idle by exact Hp.
    unfold bind at 1, set_is_pinching at 1, modify. cbn [fst snd].
    eexists. split; [reflexivity | split; reflexivity]. }
  destruct E as (c & -> & Hc). split.
  - apply (same_heading_trans _ (fst c)); [exact Hc |].
    apply (mark_pinch_heading frame hand _ c).
  - apply mark_pinch_done.
Qed.

(** X4: a direction needs two frames. On a frame with one hand seen with
    no previous position, that is at the start and after the
    loss-of-tracking reset, no direction is accepted wherever the hand
    is: the call returns the direction stored before; when the frame is
    processed to its end, the smoothed position is kept as the previous
    position for the next frame. *)
Theorem first_hand_frame_only_records
  (self : GestureControl) (frame : Frame) (results : Results)
  (hand : HandLandmarks) :
  previous_position self = None ->
  process frame = Returns results ->
  multi_hand_landmarks results = [hand] ->
  current_direction (after self frame) = current_direction self /\
  returned_direction self frame = current_direction self /\
  accepted self frame = false /\
  (completes self frame = true ->
   previous_position (after self frame) =
     Some (np_mean (window (position_history self)
                      (x (WRIST hand), y (WRIST hand))))).
Proof.
  intros Hprev Hp Hh.
  assert (Hd : current_direction (after self frame) = current_direction self /\
               (completes self frame = true ->
                previous_position (after self frame) =
                  Some (np_mean (window (position_history self)
                                   (x (WRIST hand), y (WRIST hand)))))).
  { assert (Hc : completes self frame = true ->
                 snd (observe frame results (self, locals0)) = Done tt).
    { intro Hc. destruct (completes_returns _ _ _ Hp Hc) as [c ->]. reflexivity. }
    rewrite (after_returns _ _ _ Hp). cbv zeta.
    destruct (observe_one_hand frame results hand self Hh) as (v & l & Ho & _).
    rewrite Ho in *. unfold bind in *.
    pose proof (track_hand_first frame hand
                  (set_no_hand_frames 0 (set_last_confidence v self)) l Hprev)
      as [[D _] P].
    cbv zeta in D, P. cbn [current_direction position_history
                             set_no_hand_frames set_last_confidence] in D, P.
    destruct (track_hand frame hand
                (set_no_hand_frames 0 (set_last_confidence v self), l))
      as [[s2 l2] [[] | e |]]; cbn [fst snd ret] in *.
    - split.
      + unfold tick. destruct (0 <? gesture_cooldown s2); exact D.
      + intros _. unfold tick.
        destruct (0 <? gesture_cooldown s2); apply P; reflexivity.
    - split; [exact D |]. intro Hc'. specialize (Hc Hc'). discriminate.
    - split; [exact D |]. intro Hc'. specialize (Hc Hc'). discriminate. }
  destruct Hd as [D P].
  split; [exact D |]. split; [exact D |]. split; [| exact P].
  unfold accepted. rewrite D.
  rewrite (proj2 (opt_eqb_string_spec _ _) eq_refl). apply andb_false_r.
Qed.

Lemma try_body_pinch frame results self :
  process frame = Returns results ->
  is_pinching (snd (fst (try_body frame (self, locals0)))) =
  is_pinching (snd (fst (observe frame results (self, locals0)))).
Proof.
  intro Hp. unfold try_body, hands_process. unfold bind at 1.
  rewrite Hp. cbn [ret]. unfold bind at 1.
  destruct (observe frame results (self, locals0)) as [c1 [[] | e |]];
    cbn [fst snd]; try reflexivity.
  assert (K : keeps same_pinch (cooldown_tick ;; draw_status frame results)).
  { unfold cooldown_tick, draw_status, _draw_confidence_bar, _draw_center_box.
    keeps_pinch fail. }
  apply K.
Qed.

Lemma returned_boost_try_body self frame :
  returned_boost self frame =
  is_pinching (snd (fst (try_body frame (self, locals0)))).
Proof.
  unfold returned_boost, detect_gestures, try_except. cbn [fst snd].
  destruct (try_body frame (self, locals0)) as [c1 [[] | e |]]; reflexivity.
Qed.

(** X5: the boost flag is read off the frame at hand and never carried
    over: the call returns [False] on a frame without a hand, and on one
    on which the detector throws, whatever was returned before; on a
    frame with one hand it returns whether thumb tip and index tip are
    closer than 0.05, even when drawing the overlay raises. *)
Theorem boost_flag_is_per_frame (self : GestureControl) (frame : Frame) :
  (no_hand frame = true \/ process frame = Throws ->
   returned_boost self frame = false) /\
  (forall results hand,
     process frame = Returns results ->
     multi_hand_landmarks results = [hand] ->
     returned_boost self frame = pinch hand).
Proof.
  rewrite returned_boost_try_body. split.
  - intros [Hn | Ht].
    + unfold no_hand in Hn.
      destruct (process frame) as [| results] eqn:Hp; [discriminate |].
      apply negb_true_iff, nonempty_false in Hn.
      rewrite (try_body_pinch _ _ _ Hp).
      assert (K : keeps same_pinch (observe frame results)).
      { unfold observe. rewrite Hn. cbn [nonempty]. keeps_pinch fail. }
      apply (K (self, locals0)).
    + unfold try_body, hands_process, bind. now rewrite Ht.
  - intros results hand Hp Hh. rewrite (try_body_pinch _ _ _ Hp).
    destruct (observe_one_hand frame results hand self Hh) as (v & l & -> & Hl).
    unfold bind at 1.
    assert (Ht : is_pinching
                   (snd (fst (track_hand frame hand
                      (set_no_hand_frames 0 (set_last_confidence v self), l))))
                 = pinch hand).
    { rewrite track_hand_steps. cbv zeta. unfold bind at 1.
      match goal with
      | |- context [decide_direction ?sm ?c] =>
          destruct (decide_direction_returns sm c) as (c' & -> & _)
      end.
      unfold bind at 1, set_is_pinching at 1, modify. cbn [fst snd].
      match goal with
      | |- is_pinching (snd (fst (mark_pinch ?f ?h ?sm ?c))) = _ =>
          rewrite (mark_pinch_pinch f h sm c)
      end.
      reflexivity. }
    destruct (track_hand frame hand _) as [c2 [[] | e |]]; exact Ht.
Qed.

Lemma first_hand_frame_only_records_witness :
  returned_direction init (frame_hand_at 0.75 0.5) = None /\
  previous_position (after init (frame_hand_at 0.75 0.5)) =
    Some (0.75, 0.5)%float.
Proof.
  destruct (first_hand_frame_only_records init (frame_hand_at 0.75 0.5)
              _ (open_hand 0.75 0.5) eq_refl eq_refl eq_refl)
    as (_ & Hr & _ & Hp).
  split; [exact Hr |]. rewrite Hp; [| vm_compute; reflexivity].
  vm_compute. reflexivity.
Defined.

Lemma boost_flag_is_per_frame_witness :
  returned_boost (after init (frame_pinch_at 0.5 0.5)) frame_no_hand = false /\
  returned_boost init (frame_pinch_at 0.5 0.5) = true.
Proof.
  split.
  - apply (proj1 (boost_flag_is_per_frame
                    (after init (frame_pinch_at 0.5 0.5)) frame_no_hand)).
    left. reflexivity.
  - rewrite (proj2 (boost_flag_is_per_frame init (frame_pinch_at 0.5 0.5))
               _ _ eq_refl eq_refl).
    vm_compute. reflexivity.
Defined.

Lemma observe_one_hand_threshold frame results hand self :
  multi_hand_landmarks results = [hand] ->
  exists l,
    observe frame results (self, locals0) =
      (track_hand frame hand ;; ret tt)
        (set_no_hand_frames 0
           (set_last_confidence (confidence_of results) self), l) /\
    dynamic_thresh l = threshold_for (confidence_of results).
Proof.
  intro Hh. unfold observe, confidence_of. rewrite Hh. cbn [nonempty].
  unfold bind at 1.
  destruct (multi_handedness results) as [| score scores];
    cbv [bind self_ gets set_dynamic_thresh modify assign];
    cbn [fst snd for_each last_confidence set_last_confidence];
    eexists; split; reflexivity.
Qed.

(** The direction decision with a previous position and no cooldown. *)
Lemma decide_direction_armed smoothed previous s l :
  previous_position s = Some previous ->
  gesture_cooldown s <= 0 ->
  let movement := np_sub smoothed previous in
  exists l',
    decide_direction smoothed (s, l) =
      ((if gtb (np_norm movement) (dynamic_thresh l)
        then if opt_eqb String.eqb (Some (heading movement)) (current_direction s)
             then s
             else set_gesture_cooldown max_cooldown
                    (set_current_direction (Some (heading movement)) s)
        else s, l'), Done tt).
Proof.
  intros Hp Hc. cbv zeta. unfold decide_direction.
  cbv [bind self_ local_ gets]. cbn [fst snd]. rewrite Hp.
  replace (gesture_cooldown s <=? 0) with true by (symmetry; now apply Z.leb_le).
  cbn [fst snd].
  destruct (gtb _ (dynamic_thresh l)); [| now eexists].
  fold (heading (np_sub smoothed previous)).
  cbv [set_direction modify when assign ret bind]. cbn [fst snd].
  destruct (opt_eqb _ _ _); cbn [negb]; now eexists.
Qed.

(** X6: the direction a frame gives. On a frame with one hand, with a
    previous position and no cooldown running, the movement is the
    smoothed wrist position minus the previous one; when it is longer
    than the threshold that goes with the confidence of the frame (0.02
    above 0.8, 0.03 above 0.5, else 0.05), the stored and returned
    direction is its heading: RIGHT or LEFT by the sign of x when x
    outweighs y, else DOWN or UP by the sign of y; when it is not, the
    direction stays as it was. *)
Theorem movement_gives_direction
  (self : GestureControl) (frame : Frame) (results : Results)
  (hand : HandLandmarks) (previous : point) :
  process frame = Returns results ->
  multi_hand_landmarks results = [hand] ->
  previous_position self = Some previous ->
  gesture_cooldown self <= 0 ->
  let smoothed :=
    np_mean (window (position_history self) (x (WRIST hand), y (WRIST hand))) in
  let movement := np_sub smoothed previous in
  returned_direction self frame =
    (if gtb (np_norm movement) (threshold_for (confidence_of results))
     then Some (heading movement)
     else current_direction self).
Proof.
  intros Hp Hh Hprev Hc. cbv zeta.
  change (returned_direction self frame) with (current_direction (after self frame)).
  rewrite (after_returns _ _ _ Hp). cbv zeta.
  destruct (observe_one_hand_threshold frame results hand self Hh)
    as (l & Ho & Hl).
  rewrite Ho. unfold bind.
  assert (Ht : current_direction
                 (fst (fst (track_hand frame hand
                    (set_no_hand_frames 0
                       (set_last_confidence (confidence_of results) self), l))))
               = (if gtb (np_norm (np_sub
                       (np_mean (window (position_history self)
                                   (x (WRIST hand), y (WRIST hand)))) previous))
                         (threshold_for (confidence_of results))
                  then Some (heading (np_sub
                       (np_mean (window (position_history self)
                                   (x (WRIST hand), y (WRIST hand)))) previous))
                  else current_direction self)).
  { rewrite track_hand_steps. cbv zeta.
    cbn [position_history set_no_hand_frames set_last_confidence].
    unfold bind at 1.
    match goal with
    | |- context [decide_direction ?sm (?s1, ?l1)] =>
        destruct (decide_direction_armed sm previous s1 l1 Hprev Hc)
          as (l' & Hd)
    end.
    cbv zeta in Hd. rewrite Hd. cbn [dynamic_thresh]. rewrite Hl.
    unfold bind at 1, set_is_pinching at 1, modify. cbn [fst snd].
    match goal with
    | |- current_direction (fst (fst (mark_pinch ?f ?h ?sm ?c))) = _ =>
        rewrite (proj1 (mark_pinch_heading f h sm c))
    end.
    cbn [fst].
    destruct (gtb _ (threshold_for _)); [| reflexivity].
    destruct (opt_eqb _ _ _) eqn:E; [| reflexivity].
    apply opt_eqb_string_spec in E. symmetry. exact E. }
  destruct (track_hand frame hand _) as [[s2 l2] [[] | e |]];
    cbn [fst snd ret] in *; try exact Ht.
  unfold tick. destruct (0 <? gesture_cooldown s2); exact Ht.
Qed.

Lemma movement_gives_direction_witness :
  returned_direction seen_hand (frame_hand_at 0.75 0.5) = Some "RIGHT"%string.
Proof.
  rewrite (movement_gives_direction seen_hand (frame_hand_at 0.75 0.5)
             _ (open_hand 0.75 0.5) (0.5, 0.5)%float eq_refl eq_refl);
    [| vm_compute; reflexivity | vm_compute; discriminate].
  vm_compute. reflexivity.
Defined.

End GestureFacts.

(** ** The digit-by-digit [json] module *)

Lemma strip_prefix_app p s : strip_prefix p (p ++ s) = Some s.
Proof.
  induction p as [| a p IH]; cbn; [now destruct s |].
  now rewrite Ascii.eqb_refl.
Qed.

Lemma strip_last_app c s : strip_last c (s ++ String c EmptyString) = Some s.
Proof.
  induction s as [| a s IH]; cbn.
  - now rewrite Ascii.eqb_refl.
  - rewrite IH. cbn. destruct (s ++ String c EmptyString)%string eqn:E; [| reflexivity].
    destruct s; discriminate.
Qed.

Lemma decimal_of_int (n : Z) :
  decimal (NilZero.string_of_int (Z.to_int n)) = Some n.
Proof.
  unfold decimal. rewrite NilZero.isi.
  - cbn. now rewrite DecimalZ.of_to.
  - destruct n; cbn; try discriminate.
    intros [= H]. now apply Unsigned.to_uint_nonnil in H.
  - destruct n; cbn; try discriminate.
    intros [= H]. now apply Unsigned.to_uint_nonnil in H.
Qed.

Lemma high_score_codec_reads_back : json_reads_back high_score_codec.
Proof.
  intro n. cbn [json_loads json_dumps high_score_codec codec_dumps].
  cbn [String.eqb Ascii.eqb Bool.eqb]. unfold codec_loads, high_score_text.
  rewrite strip_prefix_app, strip_last_app, decimal_of_int. reflexivity.
Qed.

Example high_score_text_42 :
  high_score_text 42 =
  String "{" (String quote_mark ("high_score" ++ String quote_mark ": 42}")).
Proof. reflexivity. Qed.

(** ** The game *)

Module SnakeFacts.
Import SnakeGame.

Ltac run_load :=
  unfold load_high_score, try_except, os_path_exists, open_read, json_load,
    dict_get, int_of_json, int_, bind, gets, ret, raise;
  cbv beta iota.

Ltac py_run :=
  cbv [bind ret raise gets modify when self_ assign world_ try_except
       next_draw random_randint random_random random_uniform];
  cbn [fst snd].

Lemma bind_done {S A B} (m : Py S A) (k : A -> Py S B) s s' a :
  m s = (s', Done a) -> bind m k s = k a s'.
Proof. intro H. unfold bind. now rewrite H. Qed.

Lemma skip_0 w : skip 0 w = w.
Proof. now destruct w. Qed.

Lemma skip_skip a b w : skip b (skip a w) = skip (a + b) w.
Proof. unfold skip, set_random_pos. cbn. f_equal. lia. Qed.

Lemma set_transition_particles_same g :
  set_transition_particles (transition_particles g) g = g.
Proof. now destruct g. Qed.

Lemma set_particles_same g : set_particles (particles g) g = g.
Proof. now destruct g. Qed.

Lemma set_high_score_same g : set_high_score (high_score g) g = g.
Proof. now destruct g. Qed.

Lemma kept_refl {T} (view : Env -> T) e : kept view e e.
Proof. reflexivity. Qed.

Lemma kept_trans {T} (view : Env -> T) a b c :
  kept view a b -> kept view b c -> kept view a c.
Proof. unfold kept. congruence. Qed.

Lemma cell_eqb_sym (a b : cell) : cell_eqb a b = cell_eqb b a.
Proof. unfold cell_eqb. now rewrite (Z.eqb_sym (fst a)), (Z.eqb_sym (snd a)). Qed.

Lemma cell_eqb_eq (a b : cell) : cell_eqb a b = true <-> a = b.
Proof.
  unfold cell_eqb. destruct a, b. cbn [fst snd].
  rewrite andb_true_iff, !Z.eqb_eq. split; [intros [-> ->] | intros [= -> ->]]; auto.
Qed.

Lemma clear_of_app (c : cell) (l1 l2 : list PowerUp) :
  clear_of c (l1 ++ l2) = clear_of c l1 && clear_of c l2.
Proof. unfold clear_of. now rewrite existsb_app, negb_orb. Qed.

(** Ageing keeps every power-up where it is. *)
Lemma clear_of_aged (c : cell) (stars : list PowerUp) :
  clear_of c stars = true ->
  clear_of c
    (filter (fun p => 0 <? lifespan p)
       (map (fun p => {| pos := pos p; type := type p;
                         lifespan := lifespan p - 1 |}) stars)) = true.
Proof.
  unfold clear_of. induction stars as [| pu stars IH]; [reflexivity |].
  cbn [map filter existsb pos lifespan]. intro H.
  apply negb_true_iff, orb_false_iff in H. destruct H as [H1 H2].
  destruct (0 <? lifespan pu - 1); cbn [existsb pos].
  - rewrite H1. cbn [orb]. apply IH. now rewrite H2.
  - apply IH. now rewrite H2.
Qed.

Lemma PowerUp_eqb_refl (pu : PowerUp) : PowerUp_eqb pu pu = true.
Proof.
  unfold PowerUp_eqb.
  now rewrite (proj2 (cell_eqb_eq _ _) eq_refl), String.eqb_refl, Z.eqb_refl.
Qed.

(** [l.remove(v)] finds [v] when it is in [l]; what stood after [v] still
    stands at the end. *)
Lemma list_remove_found {A} (eqb : A -> A -> bool) (v : A) (rest : list A) :
  eqb v v = true ->
  forall pre, exists pre',
    list_remove eqb v (pre ++ v :: rest) = Some (pre' ++ rest).
Proof.
  intros Hv pre. induction pre as [| a pre [pre' IH]]; cbn [app list_remove].
  - exists []. now rewrite Hv.
  - destruct (eqb a v).
    + exists (pre ++ [v]). now rewrite <- app_assoc.
    + exists (a :: pre'). now rewrite IH.
Qed.

Lemma list_remove_clear (c : cell) (pu : PowerUp) (stars : list PowerUp) :
  forall rest, list_remove PowerUp_eqb pu stars = Some rest ->
  clear_of c stars = true -> clear_of c rest = true.
Proof.
  unfold clear_of.
  induction stars as [| a stars IH]; intros rest Hr Hc; [discriminate |].
  cbn [existsb] in Hc. apply negb_true_iff, orb_false_iff in Hc.
  destruct Hc as [H1 H2]. cbn [list_remove] in Hr.
  destruct (PowerUp_eqb a pu).
  - injection Hr as <-. now rewrite H2.
  - destruct (list_remove PowerUp_eqb pu stars) as [rest' |]; [| discriminate].
    injection Hr as <-. cbn [existsb]. rewrite H1. cbn [orb].
    apply (IH rest' eq_refl). now rewrite H2.
Qed.

Lemma cell_in_removelast (c : cell) (cells : list cell) :
  cell_in c cells = false -> cell_in c (removelast cells) = false.
Proof.
  unfold cell_in. induction cells as [| a cells IH]; [reflexivity |].
  cbn [existsb]. intro H. apply orb_false_iff in H. destruct H as [H1 H2].
  destruct cells as [| b cells]; [reflexivity |].
  change (removelast (a :: b :: cells)) with (a :: removelast (b :: cells)).
  cbn [existsb]. rewrite H1. cbn [orb]. apply IH. exact H2.
Qed.

Lemma board_kept_refl g : board_kept g g.
Proof. repeat split. auto. Qed.

Lemma board_kept_trans g1 g2 g3 :
  board_kept g1 g2 -> board_kept g2 g3 -> board_kept g1 g3.
Proof.
  intros (A1 & A2 & A3 & A4 & A5) (B1 & B2 & B3 & B4 & B5).
  repeat split; try congruence. auto.
Qed.

Lemma fruit_placed_kept g g' :
  board_kept g g' -> fruit_placed g -> fruit_placed g'.
Proof.
  intros (A1 & A2 & A3 & A4 & A5) (P1 & P2 & P3). unfold fruit_placed, off_grid in *.
  rewrite A1, A2, A3, A4. repeat split; auto.
Qed.

Section Persistence.
Context {py : PyLib}.

Lemma load_high_score_total (w : World) :
  exists n, load_high_score w = (w, Done n).
Proof.
  run_load.
  destruct (high_score_json w) as [text |] eqn:Hf; cbv beta iota;
    [| now exists 0].
  destruct (open_fails w); cbv beta iota; [now exists 0 |].
  rewrite Hf; cbv beta iota.
  destruct (json_loads text) as [d |]; cbv beta iota; [| now exists 0].
  destruct d as [| b | n | f | s | items | members]; cbv beta iota;
    try (now exists 0).
  destruct (lookup "high_score" members) as [v |]; cbv beta iota;
    [| now exists 0].
  destruct v as [| b | n | f | s | items | members']; cbv beta iota;
    try (now exists 0).
  - now eexists.
  - now eexists.
  - destruct (py_int f); [now exists 0 | now eexists].
  - destruct (int_of_str s); [now eexists | now exists 0].
Qed.

Lemma load_high_score_missing (w : World) :
  high_score_json w = None -> load_high_score w = (w, Done 0).
Proof. intro H. run_load. now rewrite H. Qed.

Lemma load_high_score_document (w : World) (text : string) (n : Z) :
  high_score_json w = Some text ->
  open_fails w = false ->
  json_loads text = Some (JObj [("high_score"%string, JInt n)]) ->
  load_high_score w = (w, Done n).
Proof.
  intros Hf Ho Hj. run_load. rewrite Hf. cbv beta iota. rewrite Ho, Hf.
  cbv beta iota. rewrite Hj. reflexivity.
Qed.

Lemma save_high_score_writes (w : World) (g : SnakeGame) :
  open_fails w = false ->
  save_high_score (w, g) =
    ((set_high_score_json
        (Some (json_dumps (JObj [("high_score"%string, JInt (high_score g))])))
        w, g), Done tt).
Proof.
  intro Ho.
  unfold save_high_score, try_except, world_, open_write, self_, bind, gets.
  cbn [fst snd]. now rewrite Ho.
Qed.

Lemma save_high_score_denied (w : World) (g : SnakeGame) :
  open_fails w = true -> save_high_score (w, g) = ((w, g), Done tt).
Proof.
  intro Ho.
  unfold save_high_score, try_except, world_, open_write, self_, bind, gets, ret.
  cbn [fst snd]. now rewrite Ho.
Qed.

Lemma load_high_score_corrupt (w : World) :
  corrupt w -> load_high_score w = (w, Done 0).
Proof.
  intros (text & Hf & H). run_load. rewrite Hf. cbv beta iota.
  destruct (open_fails w); [reflexivity |]. rewrite Hf. cbv beta iota.
  destruct H as [H | [H | (d & H & Hd)]]; [discriminate | |]; rewrite H;
    [reflexivity |].
  destruct Hd; reflexivity.
Qed.

End Persistence.

Lemma keeps_assign_kept {T} (view : Env -> T) (f : SnakeGame -> SnakeGame) :
  (forall w g, view (w, f g) = view (w, g)) ->
  keeps (kept view) (assign f).
Proof. intros H [w g]. apply H. Qed.

Lemma keeps_self_kept {T A} (view : Env -> T) (f : SnakeGame -> A) :
  keeps (kept view) (self_ f).
Proof. intros e. reflexivity. Qed.

Lemma keeps_randint_kept {T} (view : Env -> T) a b :
  blind_to_draws view -> keeps (kept view) (world_ (random_randint a b)).
Proof.
  intros H [w g]. unfold world_, random_randint. cbn [fst snd].
  destruct (b <? a); [reflexivity |]. apply H.
Qed.

Lemma keeps_random_kept {T} (view : Env -> T) :
  blind_to_draws view -> keeps (kept view) (world_ random_random).
Proof. intros H [w g]. apply H. Qed.

Lemma keeps_uniform_kept {T} (view : Env -> T) a b :
  blind_to_draws view -> keeps (kept view) (world_ (random_uniform a b)).
Proof. intros H [w g]. apply H. Qed.

(** [keeps_game Hb leaf]: walk down a method by the shape of its code;
    [Hb] says the view is blind to draws, [leaf] closes the calls that
    have a lemma of their own. *)
Ltac keeps_game Hb leaf :=
  repeat lazymatch goal with
    | |- keeps _ (bind _ _) =>
        apply (keeps_bind _ (kept_trans _)); [| intros ? ]
    | |- keeps _ (when _ _) => apply (keeps_when _ (kept_refl _))
    | |- keeps _ (for_each _ _) =>
        apply (keeps_for_each _ (kept_refl _) (kept_trans _)); intros ?
    | |- keeps _ (while_true _ _) =>
        apply (keeps_while_true _ (kept_refl _) (kept_trans _))
    | |- keeps _ (ret _) => apply (keeps_ret _ (kept_refl _))
    | |- keeps _ (raise _) => apply (keeps_raise _ (kept_refl _))
    | |- keeps _ (self_ _) => apply keeps_self_kept
    | |- keeps _ (world_ (random_randint _ _)) =>
        apply (keeps_randint_kept _ _ _ Hb)
    | |- keeps _ (world_ random_random) => apply (keeps_random_kept _ Hb)
    | |- keeps _ (world_ (random_uniform _ _)) =>
        apply (keeps_uniform_kept _ _ _ Hb)
    | |- keeps _ (assign _) =>
        apply keeps_assign_kept; intros ? ?; reflexivity
    | |- keeps _ (if ?b then _ else _) => destruct b
    | |- keeps _ (match ?o with Some _ => _ | None => _ end) => destruct o
    | |- keeps _ _ => leaf
    end.

Lemma body_and_trails_blind : blind_to_draws body_and_trails.
Proof. intros n w g. reflexivity. Qed.

Section Ticks.
Context {py : PyLib}.

(** The loop of [_add_transition_trail], over any list of rounds. *)
Lemma trail_loop (rounds : list nat) (x y : Z) : forall w g,
  exists trail,
    for_each rounds (fun _ => trail_round x y) (w, g) =
    ((skip (2 * List.length rounds) w,
      set_transition_particles (transition_particles g ++ trail) g), Done tt) /\
    List.length trail = List.length rounds /\
    Forall (trail_particle_at g x y) trail.
Proof.
  induction rounds as [| r rounds IH]; intros w g.
  - exists []. cbn [for_each List.length Nat.mul]. unfold ret.
    rewrite skip_0, app_nil_r, set_transition_particles_same.
    repeat split. constructor.
  - cbn [for_each]. unfold bind at 1, trail_round at 1.
    unfold particle_at. py_run.
    match goal with
    | |- context [for_each rounds _ (?w1, ?g1)] =>
        destruct (IH w1 g1) as (trail & -> & Hl & Hf)
    end.
    eexists (_ :: trail). split; [| split].
    + apply f_equal2; [apply f_equal2 |]; [| | reflexivity].
      * transitivity (skip (2 * List.length rounds) (skip 2 w));
          [reflexivity | rewrite skip_skip; f_equal; cbn [List.length]; lia].
      * unfold set_transition_particles. cbn [transition_particles].
        now rewrite <- app_assoc.
    + cbn [List.length]. now rewrite Hl.
    + constructor; [repeat split | exact Hf].
Qed.

Lemma add_transition_trail_result (x y : Z) w g :
  exists trail,
    _add_transition_trail x y (w, g) =
    ((skip 16 w, set_transition_particles (transition_particles g ++ trail) g),
     Done tt) /\
    List.length trail = 8%nat /\
    Forall (trail_particle_at g x y) trail.
Proof.
  destruct (trail_loop (seq 0 8) x y w g) as (trail & H & Hl & Hf).
  exists trail. split; [exact H | split; [exact Hl | exact Hf]].
Qed.

(** The loop of [add_particle_effect], over any list of rounds. *)
Lemma burst_loop (rounds : list nat) (x y : Z) (c : colour) : forall w g,
  exists burst,
    for_each rounds (fun _ => burst_round x y c) (w, g) =
    ((skip (2 * List.length rounds) w,
      set_particles (particles g ++ burst) g), Done tt).
Proof.
  induction rounds as [| r rounds IH]; intros w g.
  - exists []. cbn [for_each List.length Nat.mul]. unfold ret.
    now rewrite skip_0, app_nil_r, set_particles_same.
  - cbn [for_each]. unfold bind at 1, burst_round at 1.
    unfold particle_at. py_run.
    match goal with
    | |- context [for_each rounds _ (?w1, ?g1)] =>
        destruct (IH w1 g1) as (burst & ->)
    end.
    eexists (_ :: burst).
    apply f_equal2; [apply f_equal2 |]; [| | reflexivity].
    + transitivity (skip (2 * List.length rounds) (skip 2 w));
        [reflexivity | rewrite skip_skip; f_equal; cbn [List.length]; lia].
    + unfold set_particles. cbn [particles].
      now rewrite <- app_assoc.
Qed.

Lemma add_particle_effect_result (x y : Z) (c : colour) w g :
  exists burst,
    add_particle_effect x y c (w, g) =
    ((skip 24 w, set_particles (particles g ++ burst) g), Done tt).
Proof. apply (burst_loop (seq 0 12)). Qed.

Lemma end_game_result w g :
  end_game (w, g) =
  ((world_after_end w g,
    set_high_score (Z.max (high_score g) (score g)) (set_game_over true g)),
   Done tt).
Proof.
  unfold end_game, world_after_end. unfold bind at 1. py_run.
  cbn [score high_score set_game_over].
  destruct (high_score g <? score g) eqn:E; cbn [andb].
  - apply Z.ltb_lt in E. rewrite Z.max_r by lia.
    destruct (open_fails w) eqn:Ho; cbn [negb].
    + rewrite save_high_score_denied by exact Ho. reflexivity.
    + rewrite save_high_score_writes by exact Ho. reflexivity.
  - apply Z.ltb_ge in E. rewrite Z.max_l by lia.
    change (high_score g) with (high_score (set_game_over true g)).
    now rewrite set_high_score_same.
Qed.

(** [wrap] returns the wrapped cell and leaves a trail of 8 particles
    when the cell was off the grid. *)
Lemma wrap_result (c : cell) w g :
  exists trail,
    wrap c (w, g) =
    ((skip (2 * List.length trail) w,
      set_transition_particles (transition_particles g ++ trail) g),
     Done (wrapped g c)) /\
    (fst c < 0 ->
     List.length trail = 8%nat /\ Forall (trail_particle_at g 0 (snd c)) trail).
Proof.
  unfold wrap, wrapped. py_run.
  destruct (fst c <? 0) eqn:E1;
    [| destruct (grid_width g <=? fst c) eqn:E2;
       [| destruct (snd c <? 0) eqn:E3;
          [| destruct (grid_height g <=? snd c) eqn:E4]]].
  5: { exists []. cbn [List.length Nat.mul]. unfold ret.
       rewrite skip_0, app_nil_r, set_transition_particles_same.
       split; [reflexivity |]. apply Z.ltb_ge in E1. lia. }
  all: match goal with
       | |- context [_add_transition_trail ?x ?y (?w1, ?g1)] =>
           destruct (add_transition_trail_result x y w1 g1)
             as (trail & -> & Hl & Hf)
       end;
       exists trail; rewrite Hl; (split; [reflexivity |]).
  - intros _. split; [reflexivity | exact Hf].
  - apply Z.ltb_ge in E1. lia.
  - apply Z.ltb_ge in E1. lia.
  - apply Z.ltb_ge in E1. lia.
Qed.

Lemma move_head_wrap w g head rest :
  wrap_around g = true ->
  snake g = head :: rest ->
  exists trail,
    move_head (w, g) =
    ((skip (2 * List.length trail) w,
      set_transition_particles (transition_particles g ++ trail)
        (set_direction (next_direction g) g)),
     Done (Some (new_head_cell g))) /\
    (fst (next_cell g) < 0 ->
     List.length trail = 8%nat /\
     Forall (trail_particle_at g 0 (snd (next_cell g))) trail).
Proof.
  intros Hw Hs. unfold move_head, new_head_cell, next_cell. rewrite Hw, Hs.
  destruct head as [head_x head_y]. py_run.
  cbn [snake set_direction]. rewrite Hs. cbv beta iota.
  cbn [fst snd wrap_around direction set_direction]. rewrite Hw.
  match goal with
  | |- context [wrap ?c (?w1, ?g1)] =>
      destruct (wrap_result c w1 g1) as (trail & -> & Ht)
  end.
  exists trail. split; [reflexivity | exact Ht].
Qed.

Lemma move_head_classic w g head rest :
  wrap_around g = false ->
  snake g = head :: rest ->
  move_head (w, g) =
    let g1 := set_direction (next_direction g) g in
    if off_grid g (next_cell g)
    then (fst (end_game (w, g1)), Done None)
    else ((w, g1), Done (Some (next_cell g))).
Proof.
  intros Hw Hs. unfold move_head, next_cell, off_grid. rewrite Hs.
  destruct head as [head_x head_y]. py_run.
  cbn [snake set_direction]. rewrite Hs. cbv beta iota.
  cbn [fst snd wrap_around direction set_direction grid_width grid_height].
  rewrite Hw. cbv beta iota zeta.
  cbn [fst snd set_direction grid_width grid_height].
  match goal with |- _ = (if ?b then _ else _) => destruct b end;
    [| reflexivity].
  rewrite end_game_result. reflexivity.
Qed.

Lemma update_running fuel w g :
  running g ->
  update fuel (w, g) =
    (moved <- move_head ;;
     match moved with
     | Some new_head => advance fuel new_head
     | None => ret tt
     end) (w, g).
Proof.
  intros [Ho Hp]. unfold update. unfold bind at 1, self_, gets. cbn [snd].
  unfold bind at 1. cbn [snd]. now rewrite Ho, Hp.
Qed.

Lemma update_halted fuel w g :
  game_over g || paused g = true ->
  update fuel (w, g) = ((w, g), Done tt).
Proof.
  intro H. unfold update. unfold bind at 1, self_, gets. cbn [snd].
  unfold bind at 1. cbn [snd]. now rewrite H.
Qed.

Lemma advance_collision fuel new_head w g :
  cell_in new_head (snake g) = true ->
  advance fuel new_head (w, g) = end_game (w, g).
Proof.
  intro H. unfold advance. unfold bind at 1, self_, gets. cbn [snd].
  now rewrite H.
Qed.

Lemma add_particle_effect_keeps_body x y c :
  keeps (kept body_and_trails) (add_particle_effect x y c).
Proof.
  unfold add_particle_effect.
  keeps_game body_and_trails_blind
    ltac:(idtac; lazymatch goal with
          | |- keeps _ (burst_round _ _ _) => unfold burst_round
          | |- keeps _ (particle_at _ _ _ _ _ _) => unfold particle_at
          end).
Qed.

Lemma spawn_fruit_keeps_body fuel :
  keeps (kept body_and_trails) (spawn_fruit fuel).
Proof.
  unfold spawn_fruit.
  keeps_game body_and_trails_blind
    ltac:(idtac; lazymatch goal with
          | |- keeps _ (spawn_power_up _) => unfold spawn_power_up
          | |- keeps _ fruit_attempt => unfold fruit_attempt
          | |- keeps _ power_up_attempt => unfold power_up_attempt
          end).
Qed.

Lemma collect_power_ups_keeps_body new_head :
  keeps (kept body_and_trails) (collect_power_ups new_head).
Proof.
  unfold collect_power_ups.
  keeps_game body_and_trails_blind
    ltac:(idtac; lazymatch goal with
          | |- keeps _ (add_particle_effect _ _ _) =>
              apply add_particle_effect_keeps_body
          | |- keeps _ (collect _ _) => unfold collect
          end).
Qed.

(** A move that is no self collision puts the new head first and leaves
    the wrap trails alone, whatever the rest of the tick does. *)
Lemma advance_moves fuel new_head w g :
  cell_in new_head (snake g) = false ->
  snake g <> [] ->
  hd_error (snake (snd (fst (advance fuel new_head (w, g))))) = Some new_head /\
  transition_particles (snd (fst (advance fuel new_head (w, g)))) =
    transition_particles g.
Proof.
  intros Hc Hne. remember (advance fuel new_head (w, g)) as r eqn:Hr.
  unfold advance in Hr. unfold bind at 1, self_ at 1, gets in Hr.
  cbn [snd] in Hr. rewrite Hc in Hr.
  unfold bind at 1, assign at 1, modify in Hr. cbn [fst snd] in Hr.
  unfold bind at 1, self_ at 1, gets in Hr. cbn [snd set_snake fruit] in Hr.
  assert (K : forall m : Py Env unit,
             keeps (kept body_and_trails) m ->
             forall e, hd_error (snake (snd e)) = Some new_head ->
                       transition_particles (snd e) = transition_particles g ->
             r = m e ->
             hd_error (snake (snd (fst r))) = Some new_head /\
             transition_particles (snd (fst r)) = transition_particles g).
  { intros m Hm e Hh Ht ->. specialize (Hm e). unfold kept, body_and_trails in Hm.
    injection Hm as Hs Hp. now rewrite Hs, Hp, Hh, Ht. }
  assert (Htail : keeps (kept body_and_trails)
            (collect_power_ups new_head ;; update_particles ;; update_power_ups)).
  { keeps_game body_and_trails_blind
      ltac:(idtac; lazymatch goal with
            | |- keeps _ (collect_power_ups _) =>
                apply collect_power_ups_keeps_body
            | |- keeps _ update_particles => unfold update_particles
            | |- keeps _ update_power_ups => unfold update_power_ups
            end). }
  destruct (cell_eqb new_head (fruit g)).
  - refine (K _ _ _ _ _ Hr); [| reflexivity | reflexivity].
    keeps_game body_and_trails_blind
      ltac:(idtac; lazymatch goal with
            | |- keeps _ (spawn_fruit _) => apply spawn_fruit_keeps_body
            | |- keeps _ (add_particle_effect _ _ _) =>
                apply add_particle_effect_keeps_body
            | |- keeps _ (collect_power_ups _) =>
                apply collect_power_ups_keeps_body
            | |- keeps _ update_particles => unfold update_particles
            | |- keeps _ update_power_ups => unfold update_power_ups
            end).
  - unfold bind at 1, assign at 1, modify in Hr. cbn [fst snd] in Hr.
    refine (K _ Htail _ _ _ Hr).
    + cbn [snake set_snake snd].
      destruct (snake g) as [| c rest]; [congruence | reflexivity].
    + reflexivity.
Qed.

(** The search of [spawn_fruit]: when it ends, the fruit is on a cell
    that is off the snake and off the power-ups, and nothing else of the
    game has changed; it raises nothing on a grid with cells. *)
Lemma fruit_search (fuel : nat) : forall w g,
  0 < grid_width g -> 0 < grid_height g ->
  match while_true fuel fruit_attempt (w, g) with
  | ((w', g'), Done _) =>
      exists c n, g' = set_fruit c g /\ w' = skip n w /\
        cell_in c (snake g) = false /\ clear_of c (power_ups g) = true /\
        off_grid g c = false
  | (_, Raised _) => False
  | (_, Spinning) => True
  end.
Proof.
  induction fuel as [| fuel IH]; intros w g Hw Hh; [exact I |].
  cbn [while_true]. unfold bind at 1, fruit_attempt at 1. py_run.
  replace (grid_width g - 1 <? 0) with false by (symmetry; apply Z.ltb_ge; lia).
  replace (grid_height g - 1 <? 0) with false by (symmetry; apply Z.ltb_ge; lia).
  cbn [fst snd random_pos random_draws set_random_pos].
  match goal with
  | |- context [negb (cell_in ?c (snake g))] => set (cand := c)
  end.
  destruct (cell_in cand (snake g)) eqn:Hin; cbn [negb andb].
  - specialize (IH (skip 2 w) g Hw Hh).
    change (set_random_pos _ (set_random_pos _ w)) with (skip 2 w).
    destruct (while_true fuel fruit_attempt (skip 2 w, g)) as [[w' g'] [[] | e |]];
      try exact IH.
    destruct IH as (c & n & Hg & Hw' & Hc).
    exists c, (2 + n)%nat. rewrite Hw', skip_skip. now split.
  - destruct (existsb _ (power_ups g)) eqn:Hex; cbn [negb].
    + specialize (IH (skip 2 w) g Hw Hh).
      change (set_random_pos _ (set_random_pos _ w)) with (skip 2 w).
      destruct (while_true fuel fruit_attempt (skip 2 w, g)) as [[w' g'] [[] | e |]];
        try exact IH.
      destruct IH as (c & n & Hg & Hw' & Hc).
      exists c, (2 + n)%nat. rewrite Hw', skip_skip. now split.
    + exists cand, 2%nat.
      split; [reflexivity |]. split; [reflexivity |]. split; [exact Hin |].
      split; [unfold clear_of; now rewrite Hex |].
      subst cand. unfold off_grid. cbn [fst snd].
      match goal with
      | |- context [0 + ?r1 mod ?m1 <? 0] =>
          pose proof (Z.mod_pos_bound r1 m1 ltac:(lia))
      end.
      match goal with
      | |- context [grid_height g <=? 0 + ?r2 mod ?m2] =>
          pose proof (Z.mod_pos_bound r2 m2 ltac:(lia))
      end.
      apply orb_false_intro; [apply orb_false_intro; [apply orb_false_intro |] |];
        first [apply Z.ltb_ge | apply Z.leb_gt]; lia.
Qed.

(** The search of [spawn_power_up], likewise. *)
Lemma power_up_search (fuel : nat) : forall w g,
  0 < grid_width g -> 0 < grid_height g ->
  match while_true fuel power_up_attempt (w, g) with
  | ((w', g'), Done _) =>
      exists c n, g' = set_power_ups (power_ups g ++ [star c]) g /\
        w' = skip n w /\
        cell_in c (snake g) = false /\ cell_eqb c (fruit g) = false
  | (_, Raised _) => False
  | (_, Spinning) => True
  end.
Proof.
  induction fuel as [| fuel IH]; intros w g Hw Hh; [exact I |].
  cbn [while_true]. unfold bind at 1, power_up_attempt at 1. py_run.
  replace (grid_width g - 1 <? 0) with false by (symmetry; apply Z.ltb_ge; lia).
  replace (grid_height g - 1 <? 0) with false by (symmetry; apply Z.ltb_ge; lia).
  cbn [fst snd random_pos random_draws set_random_pos].
  match goal with
  | |- context [negb (cell_in ?c (snake g))] => set (cand := c)
  end.
  destruct (cell_in cand (snake g)) eqn:Hin; cbn [negb andb];
    [| destruct (cell_eqb cand (fruit g)) eqn:Heq; cbn [negb]].
  3: { exists cand, 2%nat. repeat split; assumption. }
  all: specialize (IH (skip 2 w) g Hw Hh);
       change (set_random_pos _ (set_random_pos _ w)) with (skip 2 w);
       destruct (while_true fuel power_up_attempt (skip 2 w, g))
         as [[w' g'] [[] | e |]]; try exact IH;
       destruct IH as (c & n & Hg & Hw' & Hc);
       exists c, (2 + n)%nat; rewrite Hw', skip_skip; now split.
Qed.

(** [spawn_fruit], when it ends. *)
Lemma spawn_fruit_result (fuel : nat) w g :
  0 < grid_width g -> 0 < grid_height g ->
  match spawn_fruit fuel (w, g) with
  | ((w', g'), Done _) =>
      exists c n,
        w' = skip n w /\
        cell_in c (snake g) = false /\ clear_of c (power_ups g) = true /\
        off_grid g c = false /\
        (g' = set_fruit c g \/
         exists c', cell_in c' (snake g) = false /\ cell_eqb c' c = false /\
           g' = set_last_power_up_score (score g)
                  (set_power_ups (power_ups g ++ [star c']) (set_fruit c g)))
  | (_, Raised _) => False
  | (_, Spinning) => True
  end.
Proof.
  intros Hw Hh. unfold spawn_fruit. unfold bind at 1.
  pose proof (fruit_search fuel w g Hw Hh) as Hf.
  destruct (while_true fuel fruit_attempt (w, g)) as [[w1 g1] [[] | e |]];
    try exact Hf.
  destruct Hf as (c & n & -> & -> & Hc & Hp & Hon).
  py_run. cbn [score last_power_up_score set_fruit].
  destruct (30 <=? score g - last_power_up_score g).
  - cbn [random_pos random_draws skip set_random_pos].
    match goal with |- context [if ?b then _ else _] => destruct b end.
    + unfold spawn_power_up.
      match goal with
      | |- context [while_true fuel power_up_attempt (?w2, ?g2)] =>
          pose proof (power_up_search fuel w2 g2 Hw Hh) as Hs;
          destruct (while_true fuel power_up_attempt (w2, g2))
            as [[w3 g3] [[] | e |]]; try exact Hs
      end.
      destruct Hs as (c' & n' & -> & -> & Hc' & He).
      cbn [score set_power_ups set_fruit snake fruit power_ups] in *.
      exists c, (S n + n')%nat.
      split; [| split; [exact Hc | split; [exact Hp | split; [exact Hon |]]]].
      * unfold skip, set_random_pos. cbn. f_equal. lia.
      * right. exists c'. repeat split; assumption.
    + exists c, (S n).
      split; [| split; [exact Hc | split; [exact Hp | split; [exact Hon |]]]].
      * reflexivity.
      * now left.
  - exists c, n. repeat split; try assumption. now left.
Qed.

(** With no power-up on the new head cell, the loop over the power-ups
    does nothing. *)
Lemma collect_nothing (new_head : cell) (stars : list PowerUp) : forall e,
  clear_of new_head stars = true ->
  for_each stars (collect new_head) e = (e, Done tt).
Proof.
  unfold clear_of.
  induction stars as [| pu stars IH]; intros e H; [reflexivity |].
  cbn [existsb] in H. apply negb_true_iff, orb_false_iff in H.
  destruct H as [H1 H2].
  cbn [for_each]. unfold bind, collect at 1. rewrite H1. cbn [when ret].
  apply IH. now rewrite H2.
Qed.

Lemma collect_power_ups_nothing (new_head : cell) w g :
  clear_of new_head (power_ups g) = true ->
  collect_power_ups new_head (w, g) = ((w, g), Done tt).
Proof.
  intro H. unfold collect_power_ups. unfold bind, self_, gets. cbn [snd].
  now apply collect_nothing.
Qed.

(** The move onto the fruit cell, when its searches end. *)
Lemma advance_eats (fuel : nat) (new_head : cell) w g :
  0 < grid_width g -> 0 < grid_height g ->
  cell_in new_head (snake g) = false ->
  new_head = fruit g ->
  clear_of new_head (power_ups g) = true ->
  match advance fuel new_head (w, g) with
  | ((w', g'), Done _) =>
      score g' = score g + 10 /\
      snake g' = new_head :: snake g /\
      cell_in (fruit g') (snake g') = false /\
      clear_of (fruit g') (power_ups g') = true /\
      off_grid g' (fruit g') = false /\
      grid_width g' = grid_width g /\
      grid_height g' = grid_height g /\
      game_over g' = game_over g /\
      high_score_json w' = high_score_json w
  | (_, Raised _) => False
  | (_, Spinning) => True
  end.
Proof.
  intros Hw Hh Hc Hf Hp. unfold advance.
  unfold bind at 1, self_ at 1, gets. cbn [snd]. rewrite Hc.
  unfold bind at 1, assign at 1, modify. cbn [fst snd].
  unfold bind at 1, self_ at 1, gets. cbn [snd set_snake fruit].
  replace (cell_eqb new_head (fruit g)) with true
    by (symmetry; now apply cell_eqb_eq).
  unfold bind at 1. unfold bind at 1, assign at 1, modify. cbn [fst snd].
  unfold bind at 1.
  match goal with
  | |- context [add_particle_effect ?x ?y ?c (?w1, ?g1)] =>
      destruct (add_particle_effect_result x y c w1 g1) as (burst & ->)
  end.
  match goal with
  | |- context [spawn_fruit fuel (?w2, ?g2)] =>
      pose proof (spawn_fruit_result fuel w2 g2 Hw Hh) as Hs;
      destruct (spawn_fruit fuel (w2, g2)) as [[w3 g3] [[] | e |]];
      try exact Hs
  end.
  destruct Hs as (c & n & -> & Hcs & Hcp & Hon & Hg3).
  cbn [snake score power_ups set_particles set_score set_snake] in Hcs, Hcp, Hg3.
  change (off_grid _ c) with (off_grid g c) in Hon.
  assert (Hclear : clear_of new_head (power_ups g3) = true).
  { destruct Hg3 as [-> | (c' & Hc' & _ & ->)];
      cbn [power_ups set_fruit set_power_ups set_last_power_up_score
           set_particles set_score set_snake]; [exact Hp |].
    rewrite clear_of_app, Hp. unfold clear_of. cbn [existsb star pos andb orb].
    cbn [cell_in existsb] in Hc'. apply orb_false_iff in Hc'.
    destruct Hc' as [Hc' _]. rewrite cell_eqb_sym, Hc'. reflexivity. }
  unfold bind at 1. rewrite (collect_power_ups_nothing _ _ _ Hclear).
  unfold update_particles, update_power_ups. py_run.
  unfold off_grid.
  cbn [score snake fruit power_ups game_over grid_width grid_height
       set_power_ups set_particles].
  assert (Hfields : score g3 = score g + 10 /\ snake g3 = new_head :: snake g /\
                    fruit g3 = c /\ clear_of c (power_ups g3) = true /\
                    game_over g3 = game_over g /\
                    grid_width g3 = grid_width g /\
                    grid_height g3 = grid_height g).
  { destruct Hg3 as [-> | (c' & Hc' & Hne & ->)];
      cbn [score snake fruit power_ups game_over grid_width grid_height
           set_fruit set_power_ups
           set_last_power_up_score set_particles set_score set_snake];
      repeat split; try assumption.
    rewrite clear_of_app, Hcp. unfold clear_of. cbn [existsb star pos andb orb].
    rewrite cell_eqb_sym, Hne. reflexivity. }
  destruct Hfields as (F1 & F2 & F3 & F4 & F5 & F6 & F7).
  rewrite F1, F2, F3, F5, F6, F7.
  split; [reflexivity |]. split; [reflexivity |]. split; [exact Hcs |].
  split; [apply clear_of_aged; exact F4 |].
  split; [exact Hon |]. repeat split.
Qed.

(** The loop over the power-ups returns: each one it removes is still in
    the list. *)
Lemma collect_loop (new_head : cell) (todo : list PowerUp) : forall w g pre,
  power_ups g = pre ++ todo ->
  exists w' g',
    for_each todo (collect new_head) (w, g) = ((w', g'), Done tt) /\
    board_kept g g'.
Proof.
  induction todo as [| pu todo IH]; intros w g pre Hp.
  { exists w, g. split; [reflexivity | apply board_kept_refl]. }
  cbn [for_each]. unfold bind at 1, collect at 1.
  destruct (cell_eqb new_head (pos pu)); cbn [when].
  - unfold bind at 1, assign at 1, modify. cbn [fst snd].
    unfold bind at 1.
    match goal with
    | |- context [add_particle_effect ?x ?y ?c (?w1, ?g1)] =>
        destruct (add_particle_effect_result x y c w1 g1) as (burst & ->)
    end.
    unfold bind at 1, self_ at 1, gets. cbn [snd power_ups set_particles set_score].
    rewrite Hp.
    destruct (list_remove_found PowerUp_eqb pu todo (PowerUp_eqb_refl pu) pre)
      as [pre' Hrm].
    rewrite Hrm. unfold assign, modify. cbn [fst snd].
    match goal with
    | |- context [for_each todo _ (?w1, ?g1)] =>
        destruct (IH w1 g1 pre' eq_refl) as (w' & g' & -> & Hk)
    end.
    exists w', g'. split; [reflexivity |].
    refine (board_kept_trans _ _ _ _ Hk).
    repeat split. cbn [power_ups set_power_ups]. intros c Hc.
    apply (list_remove_clear c pu _ _ Hrm). now rewrite <- Hp.
  - unfold ret. apply (IH w g (pre ++ [pu])). now rewrite <- app_assoc.
Qed.

Lemma collect_power_ups_returns (new_head : cell) w g :
  exists w' g',
    collect_power_ups new_head (w, g) = ((w', g'), Done tt) /\
    board_kept g g'.
Proof.
  unfold collect_power_ups. unfold bind, self_, gets. cbn [snd].
  apply (collect_loop new_head (power_ups g) w g []). reflexivity.
Qed.

(** A move that is no self collision and not onto the fruit returns, with
    the new head first and the last segment gone. *)
Lemma advance_plain fuel new_head w g :
  cell_in new_head (snake g) = false ->
  cell_eqb new_head (fruit g) = false ->
  exists w' g',
    advance fuel new_head (w, g) = ((w', g'), Done tt) /\
    board_kept (set_snake (removelast (new_head :: snake g)) g) g'.
Proof.
  intros Hc Hf. unfold advance.
  unfold bind at 1, self_ at 1, gets. cbn [snd]. rewrite Hc.
  unfold bind at 1, assign at 1, modify. cbn [fst snd].
  unfold bind at 1, self_ at 1, gets. cbn [snd set_snake fruit]. rewrite Hf.
  unfold bind at 1. unfold bind at 1, assign at 1, modify.
  cbn [fst snd snake set_snake].
  match goal with
  | |- context [collect_power_ups new_head (?w1, ?g1)] =>
      destruct (collect_power_ups_returns new_head w1 g1)
        as (w2 & g2 & -> & Hk)
  end.
  unfold update_particles, update_power_ups. py_run.
  eexists _, _. split; [reflexivity |].
  apply (board_kept_trans _ g2); [exact Hk | repeat split].
  cbn [power_ups set_power_ups set_particles]. intros c.
  apply clear_of_aged.
Qed.

Lemma stable_spawn_fruit : stable spawn_fruit.
Proof.
  unfold spawn_fruit.
  apply (stable_bind (fun n => while_true n fruit_attempt)
           (fun n _ => _)); [apply stable_while_true | intros _].
  apply (stable_bind (fun _ => self_ score) (fun n points => _));
    [apply stable_const | intros points].
  apply (stable_bind (fun _ => self_ last_power_up_score) (fun n last => _));
    [apply stable_const | intros last].
  destruct (30 <=? points - last); [| apply stable_const].
  apply (stable_bind (fun _ => world_ random_random) (fun n chance => _));
    [apply stable_const | intros chance].
  destruct (chance <? power_up_spawn_chance)%float; [| apply stable_const].
  apply (stable_bind (fun n => spawn_power_up n) (fun n _ => _));
    [apply stable_while_true | intros _].
  apply stable_const.
Qed.

Lemma stable_advance (new_head : cell) :
  stable (fun n => advance n new_head).
Proof.
  unfold advance.
  apply (stable_bind (fun _ => self_ snake) (fun n body => _));
    [apply stable_const | intros body].
  destruct (cell_in new_head body); [apply stable_const |].
  apply (stable_bind (fun _ => assign _) (fun n _ => _));
    [apply stable_const | intros _].
  apply (stable_bind (fun _ => self_ fruit) (fun n food => _));
    [apply stable_const | intros food].
  apply (stable_bind (fun n => if cell_eqb new_head food then _ else _)
           (fun n _ => _)); [| intros _; apply stable_const].
  destruct (cell_eqb new_head food); [| apply stable_const].
  apply (stable_bind (fun _ => assign _) (fun n _ => _));
    [apply stable_const | intros _].
  apply (stable_bind (fun _ => add_particle_effect _ _ _) (fun n _ => _));
    [apply stable_const | intros _].
  apply stable_spawn_fruit.
Qed.

Lemma stable_update : stable update.
Proof.
  unfold update.
  apply (stable_bind (fun _ => self_ game_over) (fun n over => _));
    [apply stable_const | intros over].
  apply (stable_bind (fun _ => self_ paused) (fun n halted => _));
    [apply stable_const | intros halted].
  destruct (over || halted); [apply stable_const |].
  apply (stable_bind (fun _ => move_head) (fun n moved => _));
    [apply stable_const | intros [new_head |]];
    [apply stable_advance | apply stable_const].
Qed.

(** On a 4 by 4 grid whose cells are all under the snake, the search of
    [spawn_fruit] goes on for as many rounds as it is given. *)
Lemma fruit_search_spins (fuel : nat) : forall w g,
  grid_width g = 4 -> grid_height g = 4 ->
  (forall x y, 0 <= x < 4 -> 0 <= y < 4 -> cell_in (x, y) (snake g) = true) ->
  snd (while_true fuel fruit_attempt (w, g)) = Spinning.
Proof.
  induction fuel as [| fuel IH]; intros w g Hw Hh Hfull; [reflexivity |].
  cbn [while_true]. unfold bind at 1, fruit_attempt at 1. py_run.
  replace (grid_width g - 1 <? 0) with false by (symmetry; apply Z.ltb_ge; lia).
  replace (grid_height g - 1 <? 0) with false by (symmetry; apply Z.ltb_ge; lia).
  cbn [fst snd random_pos random_draws set_random_pos].
  match goal with
  | |- context [negb (cell_in (?a, ?b) (snake g))] =>
      rewrite (Hfull a b)
  end.
  - cbn [negb andb]. apply IH; assumption.
  - match goal with
    | |- context [?r mod ?m] => pose proof (Z.mod_pos_bound r m ltac:(lia))
    end. lia.
  - match goal with
    | |- context [?r mod ?m] => pose proof (Z.mod_pos_bound r m ltac:(lia))
    end. lia.
Qed.

(** The search of [spawn_fruit] ends as soon as a round draws a free
    cell. *)
Lemma fruit_search_ends (k : nat) : forall fuel w g,
  0 < grid_width g -> 0 < grid_height g ->
  (k < fuel)%nat ->
  cell_in (candidate w g (2 * k + random_pos w)) (snake g) = false ->
  clear_of (candidate w g (2 * k + random_pos w)) (power_ups g) = true ->
  settled (while_true fuel fruit_attempt (w, g)).
Proof.
  induction k as [| k IH]; intros fuel w g Hw Hh Hk Hin Hcl;
    (destruct fuel as [| fuel]; [lia |]);
    cbn [while_true]; unfold settled, bind at 1, fruit_attempt at 1; py_run;
    replace (grid_width g - 1 <? 0) with false by (symmetry; apply Z.ltb_ge; lia);
    replace (grid_height g - 1 <? 0) with false by (symmetry; apply Z.ltb_ge; lia);
    cbn [fst snd random_pos random_draws set_random_pos];
    replace (grid_width g - 1 - 0 + 1) with (grid_width g) by lia;
    replace (grid_height g - 1 - 0 + 1) with (grid_height g) by lia;
    rewrite !Z.add_0_l;
    fold (candidate w g (random_pos w)).
  - cbn [Nat.mul Nat.add] in Hin, Hcl. unfold clear_of in Hcl.
    apply negb_true_iff in Hcl. rewrite Hin, Hcl. cbn. discriminate.
  - match goal with
    | |- context [if ?b then _ else _] => destruct b
    end; [cbn; discriminate |].
    change (set_random_pos _ (set_random_pos _ w)) with (skip 2 w).
    apply (IH fuel (skip 2 w) g Hw Hh); [lia | |];
      cbn [skip set_random_pos random_pos];
      replace (2 * k + (2 + random_pos w))%nat
        with (2 * S k + random_pos w)%nat by lia; assumption.
Qed.

(** A tick returns when the new head cell is not the fruit cell. *)
Lemma update_plain_returns fuel w g :
  snake g <> [] ->
  cell_eqb (new_head_cell g) (fruit g) = false ->
  snd (update fuel (w, g)) = Done tt.
Proof.
  intros Hne Hf.
  destruct (game_over g || paused g) eqn:Hr.
  { now rewrite (update_halted fuel w g Hr). }
  apply orb_false_iff in Hr.
  rewrite (update_running fuel w g Hr).
  destruct (snake g) as [| head rest] eqn:Hs; [congruence |].
  assert (Hadv : forall w1 g1, snake g1 = snake g -> fruit g1 = fruit g ->
            snd (advance fuel (new_head_cell g) (w1, g1)) = Done tt).
  { intros w1 g1 E1 E2.
    destruct (cell_in (new_head_cell g) (snake g1)) eqn:Hc.
    - rewrite (advance_collision _ _ _ _ Hc), end_game_result. reflexivity.
    - destruct (advance_plain fuel (new_head_cell g) w1 g1 Hc)
        as (w' & g' & -> & _); [now rewrite E2 | reflexivity]. }
  destruct (wrap_around g) eqn:Hw.
  - destruct (move_head_wrap w g head rest Hw Hs) as (trail & Hm & _).
    rewrite (bind_done _ _ _ _ _ Hm). apply Hadv; reflexivity.
  - pose proof (move_head_classic w g head rest Hw Hs) as Hm. cbv zeta in Hm.
    destruct (off_grid g (next_cell g));
      rewrite (bind_done _ _ _ _ _ Hm); [reflexivity |].
    replace (next_cell g) with (new_head_cell g)
      by (unfold new_head_cell; now rewrite Hw).
    apply Hadv; reflexivity.
Qed.

(** A tick that returns keeps the fruit placed. *)
Lemma update_keeps_fruit_placed fuel w g :
  0 < grid_width g -> 0 < grid_height g ->
  fruit_placed g ->
  snd (update fuel (w, g)) = Done tt ->
  fruit_placed (snd (fst (update fuel (w, g)))).
Proof.
  intros Hgw Hgh Hp.
  destruct (game_over g || paused g) eqn:Hr.
  { rewrite (update_halted fuel w g Hr). intros _. exact Hp. }
  apply orb_false_iff in Hr.
  rewrite (update_running fuel w g Hr).
  destruct (snake g) as [| head rest] eqn:Hs.
  { unfold bind at 1, move_head. py_run. cbn [snake set_direction].
    rewrite Hs. discriminate. }
  assert (Hadv : forall w1 g1, board_kept g g1 ->
            snd (advance fuel (new_head_cell g) (w1, g1)) = Done tt ->
            fruit_placed (snd (fst (advance fuel (new_head_cell g) (w1, g1))))).
  { intros w1 g1 Hk Hd.
    pose proof (fruit_placed_kept _ _ Hk Hp) as (P1 & P2 & P3).
    destruct Hk as (K1 & K2 & K3 & K4 & _).
    destruct (cell_in (new_head_cell g) (snake g1)) eqn:Hc.
    { rewrite (advance_collision _ _ _ _ Hc), end_game_result. cbn [fst snd].
      repeat split; assumption. }
    destruct (cell_eqb (new_head_cell g) (fruit g1)) eqn:Hf.
    - apply cell_eqb_eq in Hf.
      pose proof (advance_eats fuel (new_head_cell g) w1 g1) as Ha.
      rewrite K3, K4 in Ha. specialize (Ha Hgw Hgh Hc Hf).
      rewrite Hf in Ha at 1. specialize (Ha P3).
      destruct (advance fuel (new_head_cell g) (w1, g1)) as [[w' g'] [[] | e |]];
        try discriminate.
      cbn [fst snd]. destruct Ha as (_ & _ & A3 & A4 & A5 & _).
      repeat split; assumption.
    - destruct (advance_plain fuel (new_head_cell g) w1 g1 Hc Hf)
        as (w' & g' & -> & Hk').
      cbn [fst snd]. apply (fruit_placed_kept _ _ Hk').
      unfold fruit_placed, off_grid in *.
      cbn [fruit snake power_ups grid_width grid_height set_snake].
      repeat split; try assumption.
      apply cell_in_removelast. cbn [cell_in existsb].
      rewrite cell_eqb_sym, Hf. exact P2. }
  destruct (wrap_around g) eqn:Hw.
  - destruct (move_head_wrap w g head rest Hw Hs) as (trail & Hm & _).
    rewrite (bind_done _ _ _ _ _ Hm). apply Hadv.
    repeat split; auto.
  - pose proof (move_head_classic w g head rest Hw Hs) as Hm. cbv zeta in Hm.
    destruct (off_grid g (next_cell g));
      rewrite (bind_done _ _ _ _ _ Hm).
    + intros _. rewrite end_game_result. exact Hp.
    + replace (next_cell g) with (new_head_cell g)
        by (unfold new_head_cell; now rewrite Hw).
      apply Hadv. repeat split; auto.
Qed.

(** A game that [reset_game] has set up is running on a grid with cells,
    with a snake of three segments and the fruit placed. *)
Lemma reset_game_places_fruit fuel w g :
  match reset_game fuel (w, g) with
  | ((w', g'), Done _) =>
      0 < grid_width g' /\ 0 < grid_height g' /\ running g' /\
      List.length (snake g') = 3%nat /\ fruit_placed g'
  | _ => True
  end.
Proof.
  unfold reset_game.
  cbv [bind self_ gets assign modify ret raise]. cbn [fst snd].
  destruct (grid_size g =? 0); [exact I |].
  match goal with
  | |- context [spawn_fruit fuel (?w1, ?g1)] =>
      pose proof (spawn_fruit_result fuel w1 g1) as Hs;
      destruct (spawn_fruit fuel (w1, g1)) as [[w' g'] [[] | e |]];
      try exact I
  end.
  cbn [grid_width grid_height snake power_ups score
       set_paused set_power_ups set_transition_particles set_particles
       set_speed_boost set_game_over set_score set_next_direction
       set_direction set_snake set_grid_height set_grid_width] in Hs.
  destruct Hs as (c & n & _ & Hc & Hp & Hon & Hg'); [lia | lia |].
  unfold off_grid in Hon.
  cbn [grid_width grid_height
       set_paused set_power_ups set_transition_particles set_particles
       set_speed_boost set_game_over set_score set_next_direction
       set_direction set_snake set_grid_height set_grid_width] in Hon.
  destruct Hg' as [-> | (c' & Hc' & Hne & ->)];
    unfold fruit_placed, running, off_grid;
    cbn [grid_width grid_height snake power_ups fruit game_over paused
         set_fruit set_last_power_up_score
         set_paused set_power_ups set_transition_particles set_particles
         set_speed_boost set_game_over set_score set_next_direction
         set_direction set_snake set_grid_height set_grid_width];
    (split; [lia |]); (split; [lia |]); (split; [split; reflexivity |]);
    (split; [reflexivity |]); (split; [exact Hon |]); (split; [exact Hc |]).
  - reflexivity.
  - unfold clear_of. cbn [app existsb star pos orb].
    rewrite cell_eqb_sym, Hne. reflexivity.
Qed.

(** C2 (amended): in a running game in wrap mode whose head is about to
    move to [(-1, y)], the tick leaves a trail of 8 particles at the wrap
    point, the cell [(0, y)]; the head is placed at [(grid_width - 1, y)]
    unless a segment of the snake is on that cell, in which case the tick
    is a self collision: the snake stays where it is and the game is
    over. The tick returns when that cell is not the fruit cell, where no
    search for a new fruit cell is run. The same state with wrap mode
    switched off ends the game on that tick, the snake staying where it
    is. *)
Theorem wrap_left_edge (fuel : nat) (w : World) (g : SnakeGame) (y : Z) :
  running g ->
  snake g <> [] ->
  wrap_around g = true ->
  next_cell g = (-1, y) ->
  let g' := snd (fst (update fuel (w, g))) in
  (exists trail,
     transition_particles g' = transition_particles g ++ trail /\
     List.length trail = 8%nat /\
     Forall (trail_particle_at g 0 y) trail) /\
  (cell_in (grid_width g - 1, y) (snake g) = false ->
   hd_error (snake g') = Some (grid_width g - 1, y)) /\
  (cell_in (grid_width g - 1, y) (snake g) = true ->
   snake g' = snake g /\ game_over g' = true) /\
  ((grid_width g - 1, y) <> fruit g -> snd (update fuel (w, g)) = Done tt) /\
  (let classic := update fuel (w, toggle_wrap g) in
   snd classic = Done tt /\
   game_over (snd (fst classic)) = true /\
   snake (snd (fst classic)) = snake g).
Proof.
  intros Hr Hne Hw Hn. cbv zeta.
  destruct (snake g) as [| head rest] eqn:Hs; [congruence |].
  assert (Hcell : new_head_cell g = (grid_width g - 1, y)).
  { unfold new_head_cell, wrapped. rewrite Hw, Hn. reflexivity. }
  split; [| split; [| split; [| split]]].
  4: { intro Hf. apply update_plain_returns; [rewrite Hs; discriminate |].
       rewrite Hcell.
       destruct (cell_eqb (grid_width g - 1, y) (fruit g)) eqn:E;
         [apply cell_eqb_eq in E; contradiction | reflexivity]. }
  - rewrite (update_running fuel w g Hr).
    destruct (move_head_wrap w g head rest Hw Hs) as (trail & Hm & Ht).
    rewrite (bind_done _ _ _ _ _ Hm).
    rewrite Hn in Ht. destruct (Ht ltac:(cbn; lia)) as [Hl Hf]. cbn [snd] in Hf.
    exists trail. split; [| split; [exact Hl | exact Hf]].
    destruct (cell_in (new_head_cell g) (head :: rest)) eqn:Hc.
    + rewrite advance_collision
        by (cbn [snake set_transition_particles set_direction]; rewrite Hs; exact Hc).
      rewrite end_game_result. reflexivity.
    + match goal with
      | |- context [advance fuel ?c (?w1, ?g1)] =>
          destruct (advance_moves fuel c w1 g1) as [_ Hp]
      end.
      * cbn [snake set_transition_particles set_direction]. rewrite Hs. exact Hc.
      * cbn [snake set_transition_particles set_direction]. rewrite Hs. discriminate.
      * rewrite Hp. reflexivity.
  - intro Hc. rewrite (update_running fuel w g Hr).
    destruct (move_head_wrap w g head rest Hw Hs) as (trail & Hm & _).
    rewrite (bind_done _ _ _ _ _ Hm), Hcell.
    match goal with
    | |- context [advance fuel ?c (?w1, ?g1)] =>
        destruct (advance_moves fuel c w1 g1) as [Hh _]
    end.
    + cbn [snake set_transition_particles set_direction]. rewrite Hs. exact Hc.
    + cbn [snake set_transition_particles set_direction]. rewrite Hs. discriminate.
    + exact Hh.
  - intro Hc. rewrite (update_running fuel w g Hr).
    destruct (move_head_wrap w g head rest Hw Hs) as (trail & Hm & _).
    rewrite (bind_done _ _ _ _ _ Hm), Hcell.
    rewrite advance_collision
      by (cbn [snake set_transition_particles set_direction]; rewrite Hs; exact Hc).
    rewrite end_game_result. cbn. rewrite Hs. split; reflexivity.
  - assert (Hr' : running (toggle_wrap g)) by exact Hr.
    rewrite (update_running fuel w _ Hr').
    assert (Hw' : wrap_around (toggle_wrap g) = false)
      by (cbn; now rewrite Hw).
    assert (Hs' : snake (toggle_wrap g) = head :: rest) by exact Hs.
    pose proof (move_head_classic w _ head rest Hw' Hs') as Hm. cbv zeta in Hm.
    replace (off_grid (toggle_wrap g) (next_cell (toggle_wrap g))) with true in Hm
      by (change (next_cell (toggle_wrap g)) with (next_cell g); now rewrite Hn).
    rewrite (bind_done _ _ _ _ _ Hm), end_game_result. cbn. rewrite Hs.
    repeat split.
Qed.

(** C3 (amended): in a running game whose next head cell is the fruit
    cell, with the fruit on the grid, off the snake and off every
    power-up (the three parts of [fruit_placed], which [reset_game] sets
    up and every tick keeps), a tick whose searches for free cells end
    within some number of rounds ends the same way for any larger number:
    it raises nothing, the score is 10 higher, the snake keeps its tail
    and has the fruit cell as its new head, so it is 1 longer, and the new
    fruit is on the grid, on no segment of the resulting snake and on no
    power-up. *)
Theorem fruit_is_eaten (fuel : nat) (w : World) (g : SnakeGame) :
  running g ->
  snake g <> [] ->
  0 < grid_width g -> 0 < grid_height g ->
  new_head_cell g = fruit g ->
  off_grid g (fruit g) = false ->
  cell_in (fruit g) (snake g) = false ->
  clear_of (fruit g) (power_ups g) = true ->
  settled (update fuel (w, g)) ->
  exists w' g',
    (forall rounds, (fuel <= rounds)%nat ->
       update rounds (w, g) = ((w', g'), Done tt)) /\
    score g' = score g + 10 /\
    List.length (snake g') = S (List.length (snake g)) /\
    snake g' = fruit g :: snake g /\
    cell_in (fruit g') (snake g') = false /\
    clear_of (fruit g') (power_ups g') = true /\
    off_grid g' (fruit g') = false /\
    game_over g' = false.
Proof.
  intros Hr Hne Hw Hh Hn Hon Hin Hcl Hs.
  assert (Hadv : exists w1 g1,
            update fuel (w, g) = advance fuel (fruit g) (w1, g1) /\
            snake g1 = snake g /\ score g1 = score g /\ fruit g1 = fruit g /\
            power_ups g1 = power_ups g /\ grid_width g1 = grid_width g /\
            grid_height g1 = grid_height g /\ game_over g1 = game_over g).
  { rewrite (update_running fuel w g Hr).
    destruct (snake g) as [| head rest] eqn:Hsn; [congruence |].
    destruct (wrap_around g) eqn:Hwr.
    - destruct (move_head_wrap w g head rest Hwr Hsn) as (trail & Hm & _).
      rewrite (bind_done _ _ _ _ _ Hm), Hn.
      eexists _, _. split; [reflexivity |]. cbn. repeat split. exact Hsn.
    - pose proof (move_head_classic w g head rest Hwr Hsn) as Hm. cbv zeta in Hm.
      unfold new_head_cell in Hn. rewrite Hwr in Hn. rewrite Hn, Hon in Hm.
      rewrite (bind_done _ _ _ _ _ Hm).
      eexists _, _. split; [reflexivity |]. cbn. repeat split. exact Hsn. }
  destruct Hadv as (w1 & g1 & Hu & E1 & E2 & E3 & E4 & E5 & E6 & E7).
  pose proof (advance_eats fuel (fruit g) w1 g1) as Ha.
  rewrite E1, E2, E3, E4, E5, E6, E7 in Ha.
  specialize (Ha Hw Hh Hin eq_refl Hcl).
  unfold settled in Hs. rewrite Hu in Hs.
  destruct (advance fuel (fruit g) (w1, g1)) as [[w' g'] [[] | e |]];
    [| contradiction | now cbn in Hs].
  destruct Ha as (A1 & A2 & A3 & A4 & A5 & _ & _ & A6 & _).
  exists w', g'. split; [| repeat split; try assumption].
  - intros rounds Hle. rewrite (stable_update fuel rounds (w, g) Hle).
    + exact Hu.
    + unfold settled. rewrite Hu. cbn. discriminate.
  - rewrite A2. reflexivity.
  - rewrite A6. apply Hr.
Qed.

End Ticks.

(** C8: with a [json] module that reads back what it writes, and a file
    that can be opened, saving a high score and loading it from the file
    afterwards, as a fresh process does, gives the same integer, negative
    ones included; loading never raises, and gives 0 when the file is
    missing or corrupt. *)
Theorem high_score_round_trip {py : PyLib} (w : World) (g : SnakeGame) :
  json_reads_back py ->
  open_fails w = false ->
  (let saved := save_high_score (w, g) in
   snd saved = Done tt /\
   load_high_score (fst (fst saved)) =
     (fst (fst saved), Done (high_score g))) /\
  (forall w0, exists n, load_high_score w0 = (w0, Done n)) /\
  (forall w0, high_score_json w0 = None \/ corrupt w0 ->
     load_high_score w0 = (w0, Done 0)).
Proof.
  intros Hj Ho. split; [| split].
  - cbv zeta. rewrite (save_high_score_writes w g Ho). cbn [fst snd].
    split; [reflexivity |].
    eapply load_high_score_document; [reflexivity | exact Ho | apply Hj].
  - apply load_high_score_total.
  - intros w0 [H | H];
      [apply load_high_score_missing | apply load_high_score_corrupt]; exact H.
Qed.

Lemma high_score_round_trip_witness :
  snd (load_high_score (py := high_score_codec)
         (fst (fst (save_high_score (py := high_score_codec)
                      (quiet_world, set_high_score 120 scenario))))) =
  Done 120.
Proof.
  pose proof (proj1 (high_score_round_trip (py := high_score_codec)
                quiet_world (set_high_score 120 scenario)
                high_score_codec_reads_back eq_refl)) as H.
  cbv zeta in H. destruct H as [_ H]. rewrite H. reflexivity.
Defined.

(** C4: in a game that is neither paused nor over, [change_direction]
    called with the name of the direction whose vector is the negation of
    the active direction's leaves the queued direction, and the whole
    state, as they were. *)
Theorem reversal_is_ignored
  (g : SnakeGame) (new_direction : string) (new_dir : Direction) :
  running g ->
  mapping new_direction = Some new_dir ->
  value new_dir = (- fst (value (direction g)), - snd (value (direction g))) ->
  next_direction (change_direction new_direction g) = next_direction g /\
  change_direction new_direction g = g.
Proof.
  intros [Ho Hp] Hm Hv. unfold change_direction. rewrite Ho, Hp, Hm. cbn [orb].
  destruct new_dir, (direction g); cbn in Hv; try discriminate Hv;
    cbn; split; reflexivity.
Qed.

Lemma reversal_is_ignored_witness :
  next_direction (change_direction "LEFT" scenario) = RIGHT.
Proof.
  apply (proj1 (reversal_is_ignored scenario "LEFT" LEFT
                  (conj eq_refl eq_refl) eq_refl eq_refl)).
Defined.

(** C10: in a game that is paused or over, [change_direction] leaves the
    queued direction and every other attribute as they were, whatever its
    argument. *)
Theorem change_direction_frozen (g : SnakeGame) (new_direction : string) :
  game_over g = true \/ paused g = true ->
  change_direction new_direction g = g /\
  next_direction (change_direction new_direction g) = next_direction g.
Proof.
  intros H. unfold change_direction.
  assert (E : game_over g || paused g = true).
  { destruct H as [-> | ->]; [reflexivity | apply orb_true_r]. }
  rewrite E. split; reflexivity.
Qed.

Lemma change_direction_frozen_witness :
  change_direction "UP" (toggle_pause scenario) = toggle_pause scenario.
Proof.
  apply (proj1 (change_direction_frozen (toggle_pause scenario) "UP"
                  (or_intror eq_refl))).
Defined.

Lemma wrap_left_edge_witness :
  hd_error (snake (snd (fst (update (py := high_score_codec) 1
                               (quiet_world, at_left_edge))))) =
  Some (9, 5).
Proof.
  apply (proj1 (proj2 (wrap_left_edge (py := high_score_codec) 1
                         quiet_world at_left_edge 5
                         (conj eq_refl eq_refl)
                         ltac:(discriminate) eq_refl eq_refl))).
  reflexivity.
Defined.

(** C2 as stated fails: the snake lies along the whole of row 5 and its
    head moves off the left edge in wrap mode; its last segment is on the
    cell the head would re-enter at, and after the tick the head is still
    at [(0, 5)], not at [(9, 5)]: the game is over. *)
Lemma wrap_onto_own_segment :
  running along_the_row /\
  wrap_around along_the_row = true /\
  next_cell along_the_row = (-1, 5) /\
  grid_width along_the_row - 1 = 9 /\
  let after := update (py := high_score_codec) 1 (quiet_world, along_the_row) in
  snd after = Done tt /\
  hd_error (snake (snd (fst after))) = Some (0, 5) /\
  hd_error (snake (snd (fst after))) <> Some (9, 5) /\
  game_over (snd (fst after)) = true.
Proof.
  repeat split; try reflexivity.
  vm_compute. discriminate.
Qed.

Lemma fruit_is_eaten_witness :
  let g' := snd (fst (update (py := high_score_codec) 5
                        (quiet_world, fruit_ahead))) in
  score g' = 10 /\
  snake g' = [(6, 5); (5, 5); (4, 5); (3, 5)] /\
  cell_in (fruit g') (snake g') = false.
Proof.
  destruct (fruit_is_eaten (py := high_score_codec) 1 quiet_world fruit_ahead)
    as (w' & g' & Hu & Hsc & _ & Hsn & Hf & _);
    try reflexivity;
    [ split; reflexivity | discriminate | vm_compute; discriminate |].
  cbv zeta. rewrite (Hu 5%nat) by lia. cbn [fst snd].
  split; [exact Hsc | split; [exact Hsn | exact Hf]].
Defined.

(** C3 as stated fails: the head of this snake moves onto the fruit, the
    last free cell of the board, and the tick never returns, however many
    rounds its search for a new fruit cell is given. *)
Lemma no_cell_for_the_fruit :
  running last_free_cell /\
  new_head_cell last_free_cell = fruit last_free_cell /\
  cell_in (fruit last_free_cell) (snake last_free_cell) = false /\
  forall fuel,
    snd (update (py := high_score_codec) fuel (quiet_world, last_free_cell)) =
    Spinning.
Proof.
  split; [split; reflexivity |]. split; [reflexivity |]. split; [reflexivity |].
  intro fuel.
  rewrite (update_running fuel quiet_world last_free_cell (conj eq_refl eq_refl)).
  destruct (move_head_wrap (py := high_score_codec) quiet_world last_free_cell
              (1, 0) (tl (snake last_free_cell)) eq_refl eq_refl)
    as (trail & Hm & _).
  rewrite (bind_done _ _ _ _ _ Hm).
  change (new_head_cell last_free_cell) with (0, 0).
  unfold advance. unfold bind at 1, self_ at 1, gets. cbn [snd].
  change (cell_in (0, 0) (snake _)) with false. cbv iota.
  unfold bind at 1, assign at 1, modify. cbn [fst snd].
  unfold bind at 1, self_ at 1, gets. cbn [snd].
  change (cell_eqb (0, 0) (fruit _)) with true. cbv iota.
  unfold bind at 1. unfold bind at 1. unfold bind at 1, assign at 1, modify.
  cbn [fst snd]. unfold bind at 1.
  match goal with
  | |- context [add_particle_effect ?x ?y ?c (?w1, ?g1)] =>
      destruct (add_particle_effect_result x y c w1 g1) as (burst & ->)
  end.
  unfold spawn_fruit. unfold bind at 1.
  match goal with
  | |- context [while_true fuel fruit_attempt (?w2, ?g2)] =>
      pose proof (fruit_search_spins fuel w2 g2 eq_refl eq_refl) as Hs;
      destruct (while_true fuel fruit_attempt (w2, g2)) as [e o]
  end.
  cbn [snd] in Hs. rewrite Hs; [reflexivity |].
  intros x y Hx Hy.
  assert (Ex : x = 0 \/ x = 1 \/ x = 2 \/ x = 3) by lia.
  assert (Ey : y = 0 \/ y = 1 \/ y = 2 \/ y = 3) by lia.
  destruct Ex as [-> | [-> | [-> | ->]]], Ey as [-> | [-> | [-> | ->]]];
    reflexivity.
Qed.

Lemma same_game g burst :
  burst = [] ->
  set_power_ups (power_ups g)
    (set_particles (particles g ++ burst) (set_score (score g + 20 * 0) g)) = g.
Proof. intros ->. rewrite app_nil_r, Z.mul_0_r, Z.add_0_r. now destruct g. Qed.

Lemma twenty_more (s : Z) (n : nat) :
  s + 20 + 20 * Z.of_nat n = s + 20 * Z.of_nat (S n).
Proof. lia. Qed.

Lemma clear_of_stars_off c stars : clear_of c (stars_off c stars) = true.
Proof.
  unfold clear_of, stars_off. induction stars as [| p stars IH]; [reflexivity |].
  cbn [filter]. destruct (cell_eqb c (pos p)) eqn:E; cbn [negb]; [exact IH |].
  cbn [existsb]. rewrite E. exact IH.
Qed.

Lemma list_remove_first_off (c : cell) (pu : PowerUp) (pre rest : list PowerUp) :
  clear_of c pre = true -> cell_eqb c (pos pu) = true ->
  list_remove PowerUp_eqb pu (pre ++ pu :: rest) = Some (pre ++ rest).
Proof.
  unfold clear_of. intros Hpre Hpu.
  induction pre as [| a pre IH]; cbn [app list_remove].
  - now rewrite PowerUp_eqb_refl.
  - cbn [existsb] in Hpre. apply negb_true_iff, orb_false_iff in Hpre.
    destruct Hpre as [Ha Hpre].
    assert (E : PowerUp_eqb a pu = false).
    { unfold PowerUp_eqb. destruct (cell_eqb (pos a) (pos pu)) eqn:Ep; [| reflexivity].
      apply cell_eqb_eq in Ep. apply cell_eqb_eq in Hpu.
      rewrite Ep, <- Hpu in Ha.
      now rewrite (proj2 (cell_eqb_eq c c) eq_refl) in Ha. }
    rewrite E, IH; [reflexivity | now rewrite Hpre].
Qed.

Section Collecting.
Context {py : PyLib}.

(** The loop of [add_particle_effect] with its particles counted. *)
Lemma burst_loop_counted (rounds : list nat) (x y : Z) (c : colour) :
  forall w g,
  exists burst,
    for_each rounds (fun _ => burst_round x y c) (w, g) =
    ((skip (2 * List.length rounds) w,
      set_particles (particles g ++ burst) g), Done tt) /\
    List.length burst = List.length rounds /\
    Forall (burst_particle_at g x y c) burst.
Proof.
  induction rounds as [| r rounds IH]; intros w g.
  - exists []. cbn [for_each List.length Nat.mul]. unfold ret.
    rewrite skip_0, app_nil_r, set_particles_same.
    repeat split. constructor.
  - cbn [for_each]. unfold bind at 1, burst_round at 1.
    unfold particle_at. py_run.
    match goal with
    | |- context [for_each rounds _ (?w1, ?g1)] =>
        destruct (IH w1 g1) as (burst & -> & Hl & Hf)
    end.
    eexists (_ :: burst). split; [| split].
    + apply f_equal2; [apply f_equal2 |]; [| | reflexivity].
      * transitivity (skip (2 * List.length rounds) (skip 2 w));
          [reflexivity | rewrite skip_skip; f_equal; cbn [List.length]; lia].
      * unfold set_particles. cbn [particles].
        now rewrite <- app_assoc.
    + cbn [List.length]. now rewrite Hl.
    + constructor; [repeat split | exact Hf].
Qed.

Lemma add_particle_effect_counted (x y : Z) (c : colour) w g :
  exists burst,
    add_particle_effect x y c (w, g) =
    ((skip 24 w, set_particles (particles g ++ burst) g), Done tt) /\
    List.length burst = 12%nat /\
    Forall (burst_particle_at g x y c) burst.
Proof.
  destruct (burst_loop_counted (seq 0 12) x y c w g) as (burst & H & Hl & Hf).
  exists burst. split; [exact H | split; [exact Hl | exact Hf]].
Qed.

(** A power-up away from the new head cell is left alone. *)
Lemma collect_miss (new_head : cell) (pu : PowerUp) (e : Env) :
  cell_eqb new_head (pos pu) = false ->
  collect new_head pu e = (e, Done tt).
Proof. intro E. unfold collect. now rewrite E. Qed.

(** A power-up on the new head cell: 20 points, a burst, and the first
    power-up equal to it leaves the list. *)
Lemma collect_hit (new_head : cell) (pu : PowerUp) w g rest :
  cell_eqb new_head (pos pu) = true ->
  list_remove PowerUp_eqb pu (power_ups g) = Some rest ->
  exists burst,
    collect new_head pu (w, g) =
    ((skip 24 w,
      set_power_ups rest
        (set_particles (particles g ++ burst) (set_score (score g + 20) g))),
     Done tt) /\
    List.length burst = 12%nat.
Proof.
  intros E Hrm. unfold collect. rewrite E. cbn [when].
  unfold bind at 1, assign at 1, modify. cbn [fst snd].
  unfold bind at 1.
  destruct (add_particle_effect_counted (fst new_head) (snd new_head) YELLOW
              w (set_score (score g + 20) g)) as (burst & Hadd & Hb & _).
  rewrite Hadd.
  unfold bind at 1, self_ at 1, gets. cbn [snd power_ups set_particles set_score].
  rewrite Hrm. exists burst. split; [reflexivity | exact Hb].
Qed.

Lemma collected_twice g rest rest' burst burst' (n : nat) :
  set_power_ups rest'
    (set_particles
       (particles
          (set_power_ups rest
             (set_particles (particles g ++ burst)
                (set_score (score g + 20) g))) ++ burst')
       (set_score
          (score
             (set_power_ups rest
                (set_particles (particles g ++ burst)
                   (set_score (score g + 20) g))) + 20 * Z.of_nat n)
          (set_power_ups rest
             (set_particles (particles g ++ burst)
                (set_score (score g + 20) g))))) =
  set_power_ups rest'
    (set_particles (particles g ++ burst ++ burst')
       (set_score (score g + 20 * Z.of_nat (S n)) g)).
Proof.
  destruct g.
  cbv [set_power_ups set_particles set_score
       width height grid_size grid_width grid_height high_score particles
       transition_particles power_ups last_power_up_score paused
       wrap_around snake direction next_direction score game_over
       speed_boost fruit].
  now rewrite <- app_assoc, twenty_more.
Qed.

(** The loop over the power-ups, exactly: each power-up on the new head
    cell gives 20 points and a burst of 12 particles, and is removed. *)
Lemma collect_loop_exact (new_head : cell) (todo : list PowerUp) :
  forall w g pre,
  power_ups g = pre ++ todo ->
  clear_of new_head pre = true ->
  exists burst,
    for_each todo (collect new_head) (w, g) =
    ((skip (24 * List.length (stars_on new_head todo)) w,
      set_power_ups (pre ++ stars_off new_head todo)
        (set_particles (particles g ++ burst)
           (set_score
              (score g + 20 * Z.of_nat (List.length (stars_on new_head todo)))
              g))),
     Done tt) /\
    List.length burst = (12 * List.length (stars_on new_head todo))%nat.
Proof.
  induction todo as [| pu todo IH]; intros w g pre Hp Hpre.
  { exists []. cbn [for_each stars_on stars_off filter List.length].
    rewrite !Nat.mul_0_r, skip_0, <- Hp. change (Z.of_nat 0) with 0.
    rewrite same_game by reflexivity.
    split; reflexivity. }
  cbn [for_each].
  destruct (cell_eqb new_head (pos pu)) eqn:E.
  - assert (Hrm : list_remove PowerUp_eqb pu (power_ups g) = Some (pre ++ todo)).
    { rewrite Hp. now apply (list_remove_first_off new_head). }
    destruct (collect_hit new_head pu w g _ E Hrm) as (burst & Hc & Hb).
    rewrite (bind_done _ _ _ _ _ Hc).
    destruct (IH (skip 24 w)
                (set_power_ups (pre ++ todo)
                   (set_particles (particles g ++ burst)
                      (set_score (score g + 20) g)))
                pre eq_refl Hpre) as (burst' & Hrun & Hl).
    rewrite Hrun. exists (burst ++ burst').
    assert (Hon : stars_on new_head (pu :: todo) = pu :: stars_on new_head todo)
      by (unfold stars_on; cbn [filter]; now rewrite E).
    assert (Hoff : stars_off new_head (pu :: todo) = stars_off new_head todo)
      by (unfold stars_off; cbn [filter]; now rewrite E).
    rewrite Hon, Hoff. cbn [List.length].
    rewrite collected_twice, skip_skip.
    split.
    + do 2 f_equal. f_equal. lia.
    + rewrite length_app, Hb, Hl. lia.
  - rewrite (bind_done _ _ _ _ _ (collect_miss new_head pu (w, g) E)).
    destruct (IH w g (pre ++ [pu])) as (burst & Hrun & Hl).
    + now rewrite <- (app_assoc pre [pu] todo).
    + rewrite clear_of_app, Hpre. unfold clear_of. cbn [existsb]. now rewrite E.
    + assert (Hon : stars_on new_head (pu :: todo) = stars_on new_head todo)
        by (unfold stars_on; cbn [filter]; now rewrite E).
      assert (Hoff : stars_off new_head (pu :: todo) = pu :: stars_off new_head todo)
        by (unfold stars_off; cbn [filter]; now rewrite E).
      rewrite Hrun, Hon, Hoff. exists burst.
      rewrite <- (app_assoc pre [pu] (stars_off new_head todo)).
      split; [reflexivity | exact Hl].
Qed.

Lemma collect_power_ups_exact (new_head : cell) w g :
  exists burst,
    collect_power_ups new_head (w, g) =
    ((skip (24 * List.length (stars_on new_head (power_ups g))) w,
      set_power_ups (stars_off new_head (power_ups g))
        (set_particles (particles g ++ burst)
           (set_score
              (score g +
               20 * Z.of_nat (List.length (stars_on new_head (power_ups g))))
              g))),
     Done tt) /\
    List.length burst =
      (12 * List.length (stars_on new_head (power_ups g)))%nat.
Proof.
  unfold collect_power_ups. unfold bind, self_, gets. cbn [snd].
  apply (collect_loop_exact new_head (power_ups g) w g []); reflexivity.
Qed.




(** A move that is no self collision and not onto the fruit, exactly. *)
Lemma advance_plain_exact fuel new_head w g :
  cell_in new_head (snake g) = false ->
  cell_eqb new_head (fruit g) = false ->
  exists burst,
    advance fuel new_head (w, g) =
    ((skip (24 * List.length (stars_on new_head (power_ups g))) w,
      set_power_ups (aged (stars_off new_head (power_ups g)))
        (set_particles (drifted (particles g ++ burst))
           (set_score
              (score g +
               20 * Z.of_nat (List.length (stars_on new_head (power_ups g))))
              (set_snake (removelast (new_head :: snake g)) g)))),
     Done tt) /\
    List.length burst =
      (12 * List.length (stars_on new_head (power_ups g)))%nat.
Proof.
  intros Hc Hf. unfold advance.
  unfold bind at 1, self_ at 1, gets. cbn [snd]. rewrite Hc.
  unfold bind at 1, assign at 1, modify. cbn [fst snd].
  unfold bind at 1, self_ at 1, gets. cbn [snd set_snake fruit]. rewrite Hf.
  unfold bind at 1. unfold bind at 1, assign at 1, modify.
  cbn [fst snd snake set_snake].
  match goal with
  | |- context [collect_power_ups new_head (?w1, ?g1)] =>
      destruct (collect_power_ups_exact new_head w1 g1) as (burst & Hrun & Hb)
  end.
  rewrite Hrun. exists burst. split; [| exact Hb].
  unfold update_particles, update_power_ups, bind, assign, modify.
  cbn [fst snd]. reflexivity.
Qed.

End Collecting.

Ltac by_cases :=
  repeat match goal with
         | |- context [?a <? ?b] => destruct (Z.ltb_spec a b)
         | |- context [?a <=? ?b] => destruct (Z.leb_spec a b)
         | H : context [?a <? ?b] |- _ => destruct (Z.ltb_spec a b)
         | H : context [?a <=? ?b] |- _ => destruct (Z.leb_spec a b)
         end;
  cbn [orb andb negb fst snd] in *; try discriminate; try reflexivity; try lia.

(** One step from a cell of the grid, the wrapped cell is on the grid. *)
Lemma wrapped_on_grid (g : SnakeGame) (head : cell) (d : Direction) :
  0 < grid_width g -> 0 < grid_height g ->
  off_grid g head = false ->
  off_grid g (wrapped g (fst head + fst (value d), snd head + snd (value d)))
    = false.
Proof.
  intros Hw Hh. destruct head as [hx hy]. unfold off_grid, wrapped.
  destruct d; cbn [value fst snd]; intro Hon; by_cases.
Qed.


Section Moving.
Context {py : PyLib}.

(** [wrap] on any cell: the wrapped cell, and a trail of 8 particles on
    the edge exactly when the cell was off the grid. *)
Lemma wrap_any (c : cell) w g :
  exists trail,
    wrap c (w, g) =
    ((skip (2 * List.length trail) w,
      set_transition_particles (transition_particles g ++ trail) g),
     Done (wrapped g c)) /\
    List.length trail = (if off_grid g c then 8 else 0)%nat /\
    Forall (trail_particle_at g (fst (trail_cell g c)) (snd (trail_cell g c)))
      trail.
Proof.
  unfold wrap, wrapped, trail_cell, off_grid. py_run.
  destruct (fst c <? 0) eqn:E1;
    [| destruct (grid_width g <=? fst c) eqn:E2;
       [| destruct (snd c <? 0) eqn:E3;
          [| destruct (grid_height g <=? snd c) eqn:E4]]];
    cbn [orb fst snd].
  5: { exists []. cbn [List.length Nat.mul]. unfold ret.
       rewrite skip_0, app_nil_r, set_transition_particles_same.
       repeat split. constructor. }
  all: match goal with
       | |- context [_add_transition_trail ?x ?y (?w1, ?g1)] =>
           destruct (add_transition_trail_result x y w1 g1)
             as (trail & Hrun & Hl & Hf)
       end;
       rewrite Hrun; exists trail; rewrite Hl;
       (split; [reflexivity |]); (split; [| exact Hf]);
       rewrite ?orb_true_r; reflexivity.
Qed.

(** A tick of a running game up to the collision test: the queued
    direction is committed; in wrap mode the head is wrapped and leaves
    its trail, in Classic mode a head off the grid ends the game. *)
Lemma update_to_advance fuel w g :
  running g -> snake g <> [] ->
  (wrap_around g = false -> off_grid g (next_cell g) = false) ->
  exists trail,
    update fuel (w, g) =
    advance fuel (new_head_cell g)
      (skip (2 * List.length trail) w,
       set_transition_particles (transition_particles g ++ trail)
         (set_direction (next_direction g) g)) /\
    List.length trail =
      (if wrap_around g && off_grid g (next_cell g) then 8 else 0)%nat /\
    Forall (trail_particle_at g (fst (trail_cell g (next_cell g)))
              (snd (trail_cell g (next_cell g)))) trail.
Proof.
  intros Hr Hne Hcl. rewrite (update_running fuel w g Hr).
  destruct (snake g) as [| [head_x head_y] rest] eqn:Hs; [congruence |].
  destruct (wrap_around g) eqn:Hw.
  - unfold bind at 1, move_head. py_run.
    cbn [snake set_direction]. rewrite Hs. cbv beta iota.
    cbn [fst snd wrap_around direction set_direction]. rewrite Hw.
    match goal with
    | |- context [wrap ?c (?w1, ?g1)] =>
        destruct (wrap_any c w1 g1) as (trail & Hrun & Hl & Hf)
    end.
    rewrite Hrun. exists trail.
    unfold new_head_cell, next_cell. rewrite Hw, Hs. cbn [andb].
    split; [reflexivity |]. split; [exact Hl | exact Hf].
  - pose proof (move_head_classic w g (head_x, head_y) rest Hw Hs) as Hm.
    cbv zeta in Hm. rewrite (Hcl eq_refl) in Hm.
    rewrite (bind_done _ _ _ _ _ Hm).
    exists []. cbn [List.length Nat.mul andb]. rewrite skip_0, app_nil_r.
    unfold new_head_cell. rewrite Hw.
    change (transition_particles g)
      with (transition_particles (set_direction (next_direction g) g)) at 1.
    rewrite set_transition_particles_same.
    repeat split. constructor.
Qed.


(** A tick that ends the game, on the wall in Classic mode or on the
    snake itself in either mode. *)
Lemma update_collides fuel w g :
  running g -> snake g <> [] ->
  (wrap_around g = false /\ off_grid g (next_cell g) = true) \/
  cell_in (new_head_cell g) (snake g) = true ->
  exists trail,
    update fuel (w, g) =
    ((world_after_end (skip (2 * List.length trail) w) g,
      set_transition_particles (transition_particles g ++ trail) (ended g)),
     Done tt) /\
    (wrap_around g = false -> trail = []).
Proof.
  intros Hr Hne Hc.
  destruct (negb (wrap_around g) && off_grid g (next_cell g)) eqn:Hwall.
  - apply andb_true_iff in Hwall. destruct Hwall as [Hw Ho].
    apply negb_true_iff in Hw.
    rewrite (update_running fuel w g Hr).
    destruct (snake g) as [| head rest] eqn:Hs; [congruence |].
    pose proof (move_head_classic w g head rest Hw Hs) as Hm.
    cbv zeta in Hm. rewrite Ho in Hm.
    rewrite (bind_done _ _ _ _ _ Hm), end_game_result.
    exists []. cbn [List.length Nat.mul fst]. rewrite skip_0, app_nil_r.
    split; [| reflexivity].
    change (transition_particles g) with (transition_particles (ended g)).
    now rewrite set_transition_particles_same.
  - assert (Hcl : wrap_around g = false -> off_grid g (next_cell g) = false).
    { intro Hw. rewrite Hw in Hwall. exact Hwall. }
    assert (Hin : cell_in (new_head_cell g) (snake g) = true).
    { destruct Hc as [[Hw Ho] | Hin]; [| exact Hin].
      rewrite (Hcl Hw) in Ho. discriminate. }
    destruct (update_to_advance fuel w g Hr Hne Hcl) as (trail & Hu & Hl & _).
    rewrite Hu, advance_collision by exact Hin. rewrite end_game_result.
    exists trail. split; [reflexivity |].
    intro Hw. rewrite Hw in Hl. cbn [andb] in Hl.
    now apply length_zero_iff_nil.
Qed.

Lemma length_moved {A} (a : A) (l : list A) :
  l <> [] -> List.length (removelast (a :: l)) = List.length l.
Proof.
  intro H. destruct l as [| b l]; [congruence |]. clear H.
  change (removelast (a :: b :: l)) with (a :: removelast (b :: l)).
  cbn [List.length]. f_equal.
  revert b. induction l as [| c l IH]; intro b; [reflexivity |].
  change (removelast (b :: c :: l)) with (b :: removelast (c :: l)).
  cbn [List.length]. f_equal. apply IH.
Qed.

(** X7: in a game that is neither paused nor over, with a snake of at
    least one segment, a move that stays on the grid when wrap-around is
    off, onto a new head cell that is neither on the snake nor the fruit
    cell, returns; the snake has the new head first and has lost its last
    segment, so it is as long as before; every power-up on the new head
    cell is collected for 20 points and removed, the others age by one;
    the queued direction is committed; the fruit, the high score and the
    file stay as they are. *)
Theorem plain_move fuel w g :
  running g -> snake g <> [] ->
  (wrap_around g = false -> off_grid g (next_cell g) = false) ->
  cell_in (new_head_cell g) (snake g) = false ->
  new_head_cell g <> fruit g ->
  exists w' g',
    update fuel (w, g) = ((w', g'), Done tt) /\
    snake g' = new_head_cell g :: removelast (snake g) /\
    List.length (snake g') = List.length (snake g) /\
    score g' =
      score g +
      20 * Z.of_nat (List.length (stars_on (new_head_cell g) (power_ups g))) /\
    power_ups g' = aged (stars_off (new_head_cell g) (power_ups g)) /\
    fruit g' = fruit g /\
    direction g' = next_direction g /\
    game_over g' = false /\
    high_score g' = high_score g /\
    high_score_json w' = high_score_json w.
Proof.
  intros Hr Hne Hcl Hin Hf.
  destruct (update_to_advance fuel w g Hr Hne Hcl) as (trail & Hu & _).
  assert (Hfb : cell_eqb (new_head_cell g) (fruit g) = false).
  { destruct (cell_eqb (new_head_cell g) (fruit g)) eqn:E; [| reflexivity].
    apply cell_eqb_eq in E. contradiction. }
  match type of Hu with
  | _ = advance _ _ (?w1, ?g1) =>
      destruct (advance_plain_exact fuel (new_head_cell g) w1 g1 Hin Hfb)
        as (burst & Ha & _)
  end.
  rewrite Ha in Hu. rewrite Hu. eexists _, _. split; [reflexivity |].
  cbn [snake score power_ups fruit direction game_over high_score
       set_power_ups set_particles set_score set_snake
       set_transition_particles set_direction].
  destruct (snake g) as [| head rest] eqn:Hs; [congruence |].
  split; [reflexivity |].
  split; [apply length_moved; discriminate |].
  repeat split. apply Hr.
Qed.



(** X10: a tick that ends the game, on a wall or on the snake, keeps the
    best score for the next process: when the score beats the high
    score, the high score becomes the score and [load_high_score] on the
    file afterwards returns it; when it does not, high score and file
    stay as they are. *)
Theorem lost_game_saves_high_score fuel w g :
  json_reads_back py -> open_fails w = false ->
  running g -> snake g <> [] ->
  (wrap_around g = false /\ off_grid g (next_cell g) = true) \/
  cell_in (new_head_cell g) (snake g) = true ->
  let w' := fst (fst (update fuel (w, g))) in
  let g' := snd (fst (update fuel (w, g))) in
  snd (update fuel (w, g)) = Done tt /\
  game_over g' = true /\
  (high_score g < score g ->
   high_score g' = score g /\ load_high_score w' = (w', Done (score g))) /\
  (score g <= high_score g ->
   high_score g' = high_score g /\ high_score_json w' = high_score_json w).
Proof.
  intros Hj Hopen Hr Hne Hc. cbv zeta.
  destruct (update_collides fuel w g Hr Hne Hc) as (trail & Hu & _).
  rewrite Hu. cbn [fst snd].
  split; [reflexivity |]. split; [reflexivity |].
  unfold world_after_end.
  cbn [high_score set_transition_particles ended set_high_score
       open_fails skip set_random_pos].
  rewrite Hopen. cbn [negb]. rewrite andb_true_r.
  split; intro H.
  - replace (high_score g <? score g) with true
      by (symmetry; apply Z.ltb_lt; lia).
    split; [apply Z.max_r; lia |].
    eapply load_high_score_document; [reflexivity | exact Hopen | apply Hj].
  - replace (high_score g <? score g) with false
      by (symmetry; apply Z.ltb_ge; lia).
    split; [apply Z.max_l; lia | reflexivity].
Qed.

(** C5 (amended): in a game that is neither paused nor over, when the
    new head cell is occupied by a segment of the snake, the tick ends the
    game and returns: the high score becomes the larger of itself and the
    score, and the file is rewritten with the score when the score is the
    larger and the file can be opened; the snake, its length, the score,
    the fruit, the power-ups, the particles and the power-up bookkeeping
    are what they were. The tick has two more effects, those of the steps
    before the collision test: the queued direction is committed, and in
    wrap mode a head that left the grid has left its trail of 8
    particles, for 16 draws; game and world are otherwise untouched. *)
Theorem self_collision_ends_game (fuel : nat) (w : World) (g : SnakeGame) :
  running g ->
  snake g <> [] ->
  cell_in (new_head_cell g) (snake g) = true ->
  exists w' g' trail,
    update fuel (w, g) = ((w', g'), Done tt) /\
    game_over g' = true /\
    high_score g' = Z.max (high_score g) (score g) /\
    high_score_json w' =
      (if (high_score g <? score g) && negb (open_fails w)
       then Some (json_dumps (JObj [("high_score"%string, JInt (score g))]))
       else high_score_json w) /\
    snake g' = snake g /\
    List.length (snake g') = List.length (snake g) /\
    score g' = score g /\
    fruit g' = fruit g /\
    power_ups g' = power_ups g /\
    particles g' = particles g /\
    last_power_up_score g' = last_power_up_score g /\
    g' = set_transition_particles (transition_particles g ++ trail)
           (set_high_score (Z.max (high_score g) (score g))
              (set_game_over true (set_direction (next_direction g) g))) /\
    (wrap_around g = false -> trail = []) /\
    w' = world_after_end (skip (2 * List.length trail) w) g /\
    List.length trail =
      (if wrap_around g && off_grid g (next_cell g) then 8 else 0)%nat /\
    Forall (trail_particle_at g (fst (trail_cell g (next_cell g)))
              (snd (trail_cell g (next_cell g)))) trail.
Proof.
  intros Hr Hne Hc.
  assert (Hfacts : exists trail,
            update fuel (w, g) =
              ((world_after_end (skip (2 * List.length trail) w) g,
                set_transition_particles (transition_particles g ++ trail)
                  (ended g)), Done tt) /\
            List.length trail =
              (if wrap_around g && off_grid g (next_cell g) then 8 else 0)%nat /\
            Forall (trail_particle_at g (fst (trail_cell g (next_cell g)))
                      (snd (trail_cell g (next_cell g)))) trail).
  { destruct (negb (wrap_around g) && off_grid g (next_cell g)) eqn:Hwall.
    - apply andb_true_iff in Hwall. destruct Hwall as [Hw Ho].
      apply negb_true_iff in Hw.
      destruct (update_collides fuel w g Hr Hne (or_intror Hc))
        as (trail & Hu & Hnil).
      specialize (Hnil Hw). subst trail. exists [].
      split; [exact Hu |]. rewrite Hw. split; [reflexivity | constructor].
    - assert (Hcl : wrap_around g = false -> off_grid g (next_cell g) = false).
      { intro Hw. rewrite Hw in Hwall. exact Hwall. }
      destruct (update_to_advance fuel w g Hr Hne Hcl)
        as (trail & Hu & Hl & Hf).
      exists trail. split; [| split; [exact Hl | exact Hf]].
      rewrite Hu, advance_collision by exact Hc.
      rewrite end_game_result. reflexivity. }
  destruct Hfacts as (trail & Hu & Hl & Hf).
  eexists _, _, trail. split; [exact Hu |].
  unfold ended.
  cbn [game_over high_score snake score fruit power_ups particles
       last_power_up_score set_high_score set_game_over
       set_transition_particles set_direction].
  do 2 (split; [reflexivity |]).
  split.
  { unfold world_after_end.
    cbn [open_fails skip set_random_pos set_high_score_json high_score_json].
    destruct ((high_score g <? score g) && negb (open_fails w));
      reflexivity. }
  do 8 (split; [reflexivity |]).
  split.
  { intro Hw. rewrite Hw in Hl. cbn [andb] in Hl.
    now apply length_zero_iff_nil. }
  split; [reflexivity |]. split; [exact Hl | exact Hf].
Qed.

End Moving.

Lemma self_collision_ends_game_witness :
  let after := update (py := high_score_codec) 1 (quiet_world, coiled) in
  game_over (snd (fst after)) = true /\
  snake (snd (fst after)) = [(5, 5); (4, 5); (4, 6); (5, 6)] /\
  score (snd (fst after)) = 10 /\
  high_score_json (fst (fst after)) = Some (high_score_text 10).
Proof.
  destruct (self_collision_ends_game (py := high_score_codec) 1
              quiet_world coiled (conj eq_refl eq_refl)
              ltac:(discriminate) eq_refl)
    as (w' & g' & trail & Hu & Hg & _ & Hf & Hs & _ & Hp & _).
  cbv zeta. rewrite Hu. cbn [fst snd].
  split; [exact Hg | split; [exact Hs | split; [exact Hp | exact Hf]]].
Defined.

(** C5 as stated fails on a paused game: the coiled snake is about to
    turn down into its own tail, its new head cell is on a segment, and
    the tick of the paused game returns with game and world as they
    were, the game not over. And the tick that does end a running game
    on a self collision changes more than the claim lists: on the coiled
    snake the direction goes from RIGHT to the queued DOWN; on the snake
    along row 5, whose head leaves the grid in wrap mode, 8 trail
    particles are added and 16 draws are made before the collision is
    seen. *)
Lemma self_collision_when_paused :
  (cell_in (new_head_cell (set_paused true coiled))
     (snake (set_paused true coiled)) = true /\
   update (py := high_score_codec) 1 (quiet_world, set_paused true coiled) =
     ((quiet_world, set_paused true coiled), Done tt) /\
   game_over (set_paused true coiled) = false) /\
  (running coiled /\
   cell_in (new_head_cell coiled) (snake coiled) = true /\
   direction coiled = RIGHT /\
   direction (snd (fst (update (py := high_score_codec) 1
                          (quiet_world, coiled)))) = DOWN) /\
  (running along_the_row /\
   cell_in (new_head_cell along_the_row) (snake along_the_row) = true /\
   transition_particles along_the_row = [] /\
   random_pos quiet_world = 0%nat /\
   let after := update (py := high_score_codec) 1
                  (quiet_world, along_the_row) in
   game_over (snd (fst after)) = true /\
   List.length (transition_particles (snd (fst after))) = 8%nat /\
   random_pos (fst (fst after)) = 16%nat).
Proof.
  repeat split; vm_compute; reflexivity.
Qed.


Lemma plain_move_witness :
  let g' := snd (fst (update (py := high_score_codec) 1
                        (quiet_world, star_ahead))) in
  snake g' = [(6, 5); (5, 5); (4, 5)] /\ score g' = 20 /\ power_ups g' = [].
Proof.
  destruct (plain_move (py := high_score_codec) 1 quiet_world star_ahead)
    as (w' & g' & Hu & Hs & _ & Hp & Hst & _);
    [split; reflexivity | discriminate | discriminate | reflexivity
    | discriminate |].
  cbv zeta. rewrite Hu. cbn [fst snd].
  split; [exact Hs | split; [exact Hp | exact Hst]].
Defined.




Lemma lost_game_saves_high_score_witness :
  load_high_score (py := high_score_codec)
    (fst (fst (update (py := high_score_codec) 1 (quiet_world, at_top_wall))))
  = (fst (fst (update (py := high_score_codec) 1 (quiet_world, at_top_wall))),
     Done 30).
Proof.
  destruct (lost_game_saves_high_score (py := high_score_codec) 1 quiet_world
              at_top_wall high_score_codec_reads_back eq_refl
              (conj eq_refl eq_refl) ltac:(discriminate)
              (or_introl (conj eq_refl eq_refl)))
    as (_ & _ & Hs & _).
  apply (proj2 (Hs ltac:(reflexivity))).
Defined.

Lemma cell_in_In (c : cell) (cells : list cell) :
  cell_in c cells = true <-> In c cells.
Proof.
  unfold cell_in. rewrite existsb_exists. split.
  - intros (x & Hx & E). apply cell_eqb_eq in E. now subst.
  - intro H. exists c. split; [exact H | now apply cell_eqb_eq].
Qed.

Lemma cell_in_not_In (c : cell) (cells : list cell) :
  cell_in c cells = false <-> ~ In c cells.
Proof.
  rewrite <- cell_in_In. destruct (cell_in c cells); split; intro H.
  - discriminate.
  - now elim H.
  - discriminate.
  - reflexivity.
Qed.

Lemma In_removelast {A} (a : A) (l : list A) :
  In a (removelast l) -> In a l.
Proof.
  induction l as [| b l IH]; [intros []|].
  destruct l as [| c l]; [intros [] |].
  change (removelast (b :: c :: l)) with (b :: removelast (c :: l)).
  intros [-> | H]; [now left | right; now apply IH].
Qed.

Lemma distinct_NoDup (cells : list cell) :
  distinct cells = true <-> NoDup cells.
Proof.
  induction cells as [| c rest IH]; cbn [distinct].
  - split; [constructor | reflexivity].
  - rewrite andb_true_iff, negb_true_iff, cell_in_not_In, IH. split.
    + intros [H1 H2]. now constructor.
    + intro H. inversion H. now split.
Qed.

Lemma distinct_removelast (l : list cell) :
  distinct l = true -> distinct (removelast l) = true.
Proof.
  rewrite !distinct_NoDup.
  induction l as [| b l IH]; [intros; constructor |].
  destruct l as [| c l]; [intros; constructor |].
  change (removelast (b :: c :: l)) with (b :: removelast (c :: l)).
  intro H. inversion H as [| ? ? Hb Hl]; subst.
  constructor; [| now apply IH].
  intro Hin. apply Hb. now apply In_removelast.
Qed.

Lemma on_grid_removelast g (l : list cell) :
  on_grid g l = true -> on_grid g (removelast l) = true.
Proof.
  unfold on_grid. rewrite !forallb_forall. intros H c Hc.
  apply H. now apply In_removelast.
Qed.

Lemma removelast_nonempty {A} (a : A) (l : list A) :
  l <> [] -> removelast (a :: l) <> [].
Proof. destruct l; [congruence | discriminate]. Qed.

(** The new head cell of a game whose head is on the grid is on the grid,
    unless the wall ends the game. *)
Lemma new_head_on_grid g :
  0 < grid_width g -> 0 < grid_height g ->
  snake g <> [] -> on_grid g (snake g) = true ->
  (wrap_around g = false -> off_grid g (next_cell g) = false) ->
  off_grid g (new_head_cell g) = false.
Proof.
  intros Hw Hh Hne Hon Hcl. unfold new_head_cell.
  destruct (wrap_around g) eqn:E; [| now apply Hcl].
  unfold next_cell. destruct (snake g) as [| [hx hy] rest]; [congruence |].
  cbn [on_grid forallb] in Hon. apply andb_true_iff in Hon.
  destruct Hon as [Hhead _]. apply negb_true_iff in Hhead.
  apply (wrapped_on_grid g (hx, hy) (next_direction g) Hw Hh Hhead).
Qed.

Section Invariant.
Context {py : PyLib}.

(** X11: from a well-formed game a tick never raises; and when it returns
    the game is well formed again: the grid is the same, the snake is not
    empty, lies on the grid and is on no cell twice, and the fruit is on
    the grid, off the snake and off the power-ups. *)
Theorem tick_keeps_well_formed fuel w g :
  well_formed g ->
  (forall e, snd (update fuel (w, g)) <> Raised e) /\
  (snd (update fuel (w, g)) = Done tt ->
   well_formed (snd (fst (update fuel (w, g)))) /\
   grid_width (snd (fst (update fuel (w, g)))) = grid_width g /\
   grid_height (snd (fst (update fuel (w, g)))) = grid_height g).
Proof.
  intros Hwf. pose proof Hwf as (Hgw & Hgh & Hne & Hon & Hnd & Hfp).
  pose proof (update_keeps_fruit_placed fuel w g Hgw Hgh Hfp) as Hfruit.
  destruct (game_over g || paused g) eqn:Hrun.
  { rewrite (update_halted fuel w g Hrun) in *. cbn [fst snd].
    split; [discriminate |]. intros _.
    split; [exact Hwf | split; reflexivity]. }
  apply orb_false_iff in Hrun.
  destruct (negb (wrap_around g) && off_grid g (next_cell g)) eqn:Hwall.
  { apply andb_true_iff in Hwall. destruct Hwall as [Hw Ho].
    apply negb_true_iff in Hw.
    destruct (update_collides fuel w g Hrun Hne (or_introl (conj Hw Ho)))
      as (trail & Hu & _).
    rewrite Hu in *. cbn [fst snd] in *.
    split; [discriminate |]. intros _.
    split; [exact Hwf | split; reflexivity]. }
  assert (Hcl : wrap_around g = false -> off_grid g (next_cell g) = false).
  { intro Hw. rewrite Hw in Hwall. exact Hwall. }
  pose proof (new_head_on_grid g Hgw Hgh Hne Hon Hcl) as Hhead.
  destruct (cell_in (new_head_cell g) (snake g)) eqn:Hin.
  { destruct (update_collides fuel w g Hrun Hne (or_intror Hin))
      as (trail & Hu & _).
    rewrite Hu in *. cbn [fst snd] in *.
    split; [discriminate |]. intros _.
    split; [exact Hwf | split; reflexivity]. }
  destruct (update_to_advance fuel w g Hrun Hne Hcl) as (trail & Hu & _).
  destruct (cell_eqb (new_head_cell g) (fruit g)) eqn:Hf.
  - apply cell_eqb_eq in Hf.
    match type of Hu with
    | _ = advance _ _ (?w1, ?g1) =>
        pose proof (advance_eats fuel (new_head_cell g) w1 g1 Hgw Hgh Hin Hf)
          as Ha
    end.
    destruct Hfp as (_ & _ & Hclear). rewrite <- Hf in Hclear.
    specialize (Ha Hclear). rewrite <- Hu in Ha.
    destruct (update fuel (w, g)) as [[w' g'] [[] | e |]];
      cbn [fst snd] in *; [| contradiction | split; discriminate].
    split; [discriminate |]. intros _.
    destruct Ha as (_ & Hs & _ & _ & _ & Hw' & Hh' & _).
    cbn [snake grid_width grid_height set_transition_particles set_direction]
      in Hs, Hw', Hh'.
    split; [| split; assumption].
    unfold well_formed. rewrite Hw', Hh', Hs.
    split; [assumption |]. split; [assumption |].
    split; [discriminate |].
    split.
    { unfold on_grid, off_grid in *. cbn [forallb]. rewrite Hw', Hh'.
      rewrite Hhead. exact Hon. }
    split; [cbn [distinct]; now rewrite Hin, Hnd |].
    apply Hfruit. reflexivity.
  - match type of Hu with
    | _ = advance _ _ (?w1, ?g1) =>
        destruct (advance_plain_exact fuel (new_head_cell g) w1 g1 Hin Hf)
          as (burst & Ha & _)
    end.
    rewrite Ha in Hu. rewrite Hu in *. cbn [fst snd] in *.
    split; [discriminate |]. intros _.
    split; [| split; reflexivity].
    unfold well_formed.
    cbn [snake grid_width grid_height set_power_ups set_particles set_score
         set_snake set_transition_particles set_direction].
    split; [assumption |]. split; [assumption |].
    split; [now apply removelast_nonempty |].
    split.
    { apply on_grid_removelast. unfold on_grid, off_grid in *. cbn [forallb].
      cbn [grid_width grid_height set_power_ups set_particles set_score
           set_snake set_transition_particles set_direction].
      rewrite Hhead. exact Hon. }
    split.
    { apply distinct_removelast. cbn [distinct]. now rewrite Hin, Hnd. }
    apply Hfruit. reflexivity.
Qed.

Lemma reset_game_zero_size fuel w g :
  grid_size g = 0 ->
  reset_game fuel (w, g) = ((w, g), Raised ZeroDivisionError).
Proof.
  intro H. unfold reset_game.
  cbv [bind self_ gets assign modify ret raise]. cbn [fst snd].
  now rewrite H.
Qed.

Lemma reset_game_spawns fuel w g :
  grid_size g <> 0 ->
  reset_game fuel (w, g) = spawn_fruit fuel (w, restarted g).
Proof.
  intro H. unfold reset_game.
  cbv [bind self_ gets assign modify ret raise]. cbn [fst snd].
  destruct (grid_size g =? 0) eqn:E; [apply Z.eqb_eq in E; contradiction |].
  reflexivity.
Qed.

(** [spawn_fruit] below the 30 points that a power-up takes: the fruit is
    moved and nothing else. *)
Lemma spawn_fruit_only fuel w g :
  0 < grid_width g -> 0 < grid_height g ->
  score g - last_power_up_score g < 30 ->
  match spawn_fruit fuel (w, g) with
  | ((w', g'), Done _) =>
      exists c n, w' = skip n w /\ g' = set_fruit c g /\
        cell_in c (snake g) = false /\ clear_of c (power_ups g) = true /\
        off_grid g c = false
  | (_, Raised _) => False
  | (_, Spinning) => True
  end.
Proof.
  intros Hw Hh Hlow. unfold spawn_fruit. unfold bind at 1.
  pose proof (fruit_search fuel w g Hw Hh) as Hf.
  destruct (while_true fuel fruit_attempt (w, g)) as [[w1 g1] [[] | e |]];
    try exact Hf.
  destruct Hf as (c & n & -> & -> & Hc & Hp & Hon).
  py_run. cbn [score last_power_up_score set_fruit].
  replace (30 <=? score g - last_power_up_score g) with false
    by (symmetry; apply Z.leb_gt; lia).
  exists c, n. repeat split; assumption.
Qed.

Lemma restarted_well_formed g c :
  cell_in c (snake (restarted g)) = false ->
  off_grid (restarted g) c = false ->
  well_formed (set_fruit c (restarted g)).
Proof.
  intros Hc Hon. unfold well_formed, fruit_placed, on_grid, off_grid in *.
  cbn [restarted grid_width grid_height snake fruit power_ups set_fruit
       set_paused set_power_ups set_transition_particles set_particles
       set_speed_boost set_game_over set_score set_next_direction
       set_direction set_snake set_grid_height set_grid_width] in *.
  set (columns := Z.max 4 (width g / grid_size g)) in *.
  set (rows := Z.max 4 (height g / grid_size g)) in *.
  assert (4 <= columns) by apply Z.le_max_l.
  assert (4 <= rows) by apply Z.le_max_l.
  assert (2 <= columns / 2 < columns) by (Z.div_mod_to_equations; lia).
  assert (2 <= rows / 2 < rows) by (Z.div_mod_to_equations; lia).
  split; [lia |]. split; [lia |]. split; [discriminate |].
  split.
  { cbn [forallb fst snd]. by_cases. }
  split.
  { cbn [distinct]. unfold cell_in, cell_eqb. cbn [existsb fst snd].
    rewrite Z.eqb_refl.
    replace (columns / 2 =? columns / 2 - 1) with false
      by (symmetry; apply Z.eqb_neq; lia).
    replace (columns / 2 =? columns / 2 - 2) with false
      by (symmetry; apply Z.eqb_neq; lia).
    replace (columns / 2 - 1 =? columns / 2 - 2) with false
      by (symmetry; apply Z.eqb_neq; lia).
    reflexivity. }
  split; [exact Hon |]. split; [exact Hc | reflexivity].
Qed.

(** [reset_game] on a game with a cell size, when its search ends. *)
Lemma reset_game_result fuel w g :
  grid_size g <> 0 -> - 30 < last_power_up_score g ->
  settled (reset_game fuel (w, g)) ->
  exists n c,
    reset_game fuel (w, g) =
      ((skip n w, set_fruit c (restarted g)), Done tt) /\
    well_formed (set_fruit c (restarted g)).
Proof.
  intros Hsize Hlast Hs. rewrite (reset_game_spawns fuel w g Hsize) in *.
  pose proof (spawn_fruit_only fuel w (restarted g)) as Hf.
  unfold settled in Hs.
  destruct (spawn_fruit fuel (w, restarted g)) as [[w' g'] [[] | e |]];
    cbn [snd] in Hs; [| | contradiction].
  - destruct Hf as (c & n & -> & -> & Hc & _ & Hon);
      [apply Z.lt_le_trans with 4; [lia | apply Z.le_max_l]
      | apply Z.lt_le_trans with 4; [lia | apply Z.le_max_l]
      | cbn; lia |].
    exists n, c. split; [reflexivity |].
    now apply restarted_well_formed.
  - exfalso. apply Hf;
      [apply Z.lt_le_trans with 4; [lia | apply Z.le_max_l]
      | apply Z.lt_le_trans with 4; [lia | apply Z.le_max_l]
      | cbn; lia].
Qed.

(** X12: [reset_game] on a game with a cell size: when its search for a
    fruit cell ends, the game is the one of lines 92-108 with the fruit on
    a free cell of the grid: a well-formed game on a grid of at least 4
    by 4 cells with a snake of three segments heading right from the
    centre, score 0, running, no particles and no power-ups; the high
    score, the wrap mode and the score of the last power-up are the ones
    of the game before. A cell size of 0 raises [ZeroDivisionError]. *)
Theorem reset_game_starts_afresh fuel w g :
  (grid_size g = 0 ->
   reset_game fuel (w, g) = ((w, g), Raised ZeroDivisionError)) /\
  (grid_size g <> 0 -> - 30 < last_power_up_score g ->
   settled (reset_game fuel (w, g)) ->
   exists n c,
     reset_game fuel (w, g) =
       ((skip n w, set_fruit c (restarted g)), Done tt) /\
     well_formed (set_fruit c (restarted g)) /\
     high_score (restarted g) = high_score g /\
     wrap_around (restarted g) = wrap_around g /\
     last_power_up_score (restarted g) = last_power_up_score g).
Proof.
  split; [apply reset_game_zero_size |].
  intros Hsize Hlast Hs.
  destruct (reset_game_result fuel w g Hsize Hlast Hs) as (n & c & Hr & Hwf).
  exists n, c. split; [exact Hr |]. split; [exact Hwf |]. repeat split.
Qed.

Lemma handle_restart_cases fuel gesture w g :
  (game_over g = true -> gesture = Some "UP"%string ->
   handle_restart fuel gesture (w, g) = reset_game fuel (w, g)) /\
  (game_over g = false \/ gesture <> Some "UP"%string ->
   handle_restart fuel gesture (w, g) = ((w, g), Done tt)).
Proof.
  unfold handle_restart. unfold bind, self_, gets. cbn [snd].
  split.
  - intros -> ->. reflexivity.
  - intros [-> | H]; [reflexivity |].
    destruct (game_over g); [| reflexivity]. cbn [andb].
    destruct gesture as [s |]; [| reflexivity]. cbn [opt_eqb].
    destruct (String.eqb s "UP") eqn:E; [| reflexivity].
    apply String.eqb_eq in E. subst. now elim H.
Qed.

End Invariant.

Lemma tick_keeps_well_formed_witness :
  well_formed
    (snd (fst (update (py := high_score_codec) 1 (quiet_world, scenario)))).
Proof.
  apply (proj2 (tick_keeps_well_formed (py := high_score_codec) 1
                  quiet_world scenario
                  ltac:(repeat split; try reflexivity; discriminate)));
    reflexivity.
Defined.

Lemma reset_game_starts_afresh_witness :
  exists n c,
    reset_game 1 (quiet_world, lost_game) =
      ((skip n quiet_world, set_fruit c (restarted lost_game)), Done tt) /\
    well_formed (set_fruit c (restarted lost_game)).
Proof.
  destruct (proj2 (reset_game_starts_afresh 1
                     quiet_world lost_game))
    as (n & c & Hr & Hwf & _);
    [discriminate | reflexivity | vm_compute; discriminate |].
  exists n, c. split; [exact Hr | exact Hwf].
Defined.

Lemma headings_blind : blind_to_draws headings.
Proof. intros n w g. reflexivity. Qed.

Lemma opposite_differs (d : Direction) : d <> opposite d.
Proof. destruct d; discriminate. Qed.

Lemma Direction_eqb_eq (a b : Direction) : Direction_eqb a b = true <-> a = b.
Proof. destruct a, b; cbn; split; intro H; try discriminate; reflexivity. Qed.

Section Steering.
Context {py : PyLib}.

Lemma end_game_keeps_headings : keeps (kept headings) end_game.
Proof. intros [w g]. now rewrite end_game_result. Qed.

Lemma advance_keeps_headings fuel c :
  keeps (kept headings) (advance fuel c).
Proof.
  unfold advance.
  keeps_game headings_blind
    ltac:(idtac; lazymatch goal with
          | |- keeps _ end_game => apply end_game_keeps_headings
          | |- keeps _ (add_particle_effect _ _ _) => unfold add_particle_effect
          | |- keeps _ (burst_round _ _ _) => unfold burst_round
          | |- keeps _ (particle_at _ _ _ _ _ _) => unfold particle_at
          | |- keeps _ (spawn_fruit _) => unfold spawn_fruit
          | |- keeps _ (spawn_power_up _) => unfold spawn_power_up
          | |- keeps _ fruit_attempt => unfold fruit_attempt
          | |- keeps _ power_up_attempt => unfold power_up_attempt
          | |- keeps _ (collect_power_ups _) => unfold collect_power_ups
          | |- keeps _ (collect _ _) => unfold collect
          | |- keeps _ update_particles => unfold update_particles
          | |- keeps _ update_power_ups => unfold update_power_ups
          end).
Qed.

(** After the queued direction is committed, the rest of [move_head]
    leaves both directions alone. *)
Lemma update_headings fuel w g :
  running g ->
  headings (fst (update fuel (w, g))) = (next_direction g, next_direction g).
Proof.
  intros Hr. rewrite (update_running fuel w g Hr).
  destruct (snake g) as [| head rest] eqn:Hs.
  { unfold bind at 1, move_head. py_run. cbn [snake set_direction].
    rewrite Hs. reflexivity. }
  destruct (negb (wrap_around g) && off_grid g (next_cell g)) eqn:Hwall.
  - apply andb_true_iff in Hwall. destruct Hwall as [Hw Ho].
    apply negb_true_iff in Hw.
    pose proof (move_head_classic w g head rest Hw Hs) as Hm.
    cbv zeta in Hm. rewrite Ho in Hm.
    rewrite (bind_done _ _ _ _ _ Hm), end_game_result. reflexivity.
  - assert (Hcl : wrap_around g = false -> off_grid g (next_cell g) = false).
    { intro Hw. rewrite Hw in Hwall. exact Hwall. }
    assert (Hne : snake g <> []) by (rewrite Hs; discriminate).
    rewrite <- (update_running fuel w g Hr).
    destruct (update_to_advance fuel w g Hr Hne Hcl) as (trail & Hu & _).
    rewrite Hu.
    match goal with
    | |- context [advance fuel ?c ?e] =>
        pose proof (advance_keeps_headings fuel c e) as Hk
    end.
    unfold kept in Hk. rewrite Hk. reflexivity.
Qed.

(** X13: the snake never reverses. While the queued direction is not the
    reverse of the active one, [change_direction] keeps it so whatever it
    is asked, and so does a tick, whatever its outcome; and the direction
    a tick commits is never the reverse of the one before. *)
Theorem snake_never_reverses fuel w g (name : string) :
  no_reversal g ->
  no_reversal (change_direction name g) /\
  no_reversal (snd (fst (update fuel (w, g)))) /\
  direction (snd (fst (update fuel (w, g)))) <> opposite (direction g).
Proof.
  intro H. unfold no_reversal in *. split; [| split].
  - unfold change_direction.
    destruct (game_over g || paused g); [exact H |].
    destruct (mapping name) as [d |]; [| exact H].
    destruct (Direction_eqb d (opposite (direction g))) eqn:E;
      cbn [negb]; [exact H |].
    cbn [next_direction direction set_next_direction].
    intro Hd. apply Direction_eqb_eq in Hd. congruence.
  - destruct (game_over g || paused g) eqn:Hr.
    + now rewrite (update_halted fuel w g Hr).
    + apply orb_false_iff in Hr.
      pose proof (update_headings fuel w g Hr) as Hh.
      unfold headings in Hh. injection Hh as Hd Hn.
      rewrite Hd, Hn. apply opposite_differs.
  - destruct (game_over g || paused g) eqn:Hr.
    + rewrite (update_halted fuel w g Hr). apply opposite_differs.
    + apply orb_false_iff in Hr.
      pose proof (update_headings fuel w g Hr) as Hh.
      unfold headings in Hh. injection Hh as Hd Hn.
      rewrite Hd. exact H.
Qed.

(** X14: a turn asked for while the game runs, to a direction that is not
    the reverse of the active one, is queued and nothing else changes;
    the next tick commits it; a name that is none of the four directions
    changes nothing. *)
Theorem turn_is_queued fuel w g (name : string) (d : Direction) :
  running g ->
  (mapping name = Some d -> d <> opposite (direction g) ->
   change_direction name g = set_next_direction d g /\
   direction (snd (fst (update fuel (w, change_direction name g)))) = d) /\
  (mapping name = None -> change_direction name g = g).
Proof.
  intros Hr. pose proof Hr as [Ho Hp]. unfold change_direction.
  rewrite Ho, Hp. cbn [orb]. split.
  - intros -> Hd.
    destruct (Direction_eqb d (opposite (direction g))) eqn:E;
      [apply Direction_eqb_eq in E; contradiction |].
    cbn [negb]. split; [reflexivity |].
    assert (Hr' : running (set_next_direction d g)) by exact Hr.
    pose proof (update_headings fuel w _ Hr') as Hh.
    unfold headings in Hh. injection Hh as Hdir _. exact Hdir.
  - intros ->. reflexivity.
Qed.

(** X15: a tick of a game that is paused or over changes nothing: the game
    and the world are the ones before, no draw is made and no file is
    written; and pausing twice gives the game back. *)
Theorem halted_tick_changes_nothing fuel w g :
  (game_over g = true \/ paused g = true ->
   update fuel (w, g) = ((w, g), Done tt)) /\
  (paused g = false ->
   update fuel (w, toggle_pause g) = ((w, toggle_pause g), Done tt)) /\
  toggle_pause (toggle_pause g) = g.
Proof.
  split; [| split].
  - intro H. apply update_halted.
    destruct H as [-> | ->]; [reflexivity | apply orb_true_r].
  - intro H. apply update_halted. cbn. rewrite H. apply orb_true_r.
  - unfold toggle_pause. destruct g. cbn. now rewrite negb_involutive.
Qed.

End Steering.

Lemma snake_never_reverses_witness :
  no_reversal (change_direction "LEFT" scenario) /\
  direction (snd (fst (update (py := high_score_codec) 1
                         (quiet_world, scenario)))) <> LEFT.
Proof.
  destruct (snake_never_reverses (py := high_score_codec) 1 quiet_world
              scenario "LEFT" ltac:(discriminate)) as (H1 & _ & H3).
  split; [exact H1 | exact H3].
Defined.

Lemma turn_is_queued_witness :
  direction (snd (fst (update (py := high_score_codec) 1
                         (quiet_world, change_direction "UP" scenario)))) = UP.
Proof.
  apply (proj1 (turn_is_queued (py := high_score_codec) 1 quiet_world
                  scenario "UP" UP (conj eq_refl eq_refl)));
    [reflexivity | discriminate].
Defined.

Lemma halted_tick_changes_nothing_witness :
  update (py := high_score_codec) 1 (quiet_world, lost_game) =
  ((quiet_world, lost_game), Done tt).
Proof.
  apply (proj1 (halted_tick_changes_nothing (py := high_score_codec) 1
                  quiet_world lost_game)).
  left. reflexivity.
Defined.

Lemma aged_once (stars : list PowerUp) : aged stars = aged_by 1 stars.
Proof.
  unfold aged, aged_by. induction stars as [| p stars IH]; [reflexivity |].
  cbn [map filter lifespan]. rewrite IH.
  replace (0 <? lifespan p - 1) with (1 <? lifespan p)
    by (destruct (Z.ltb_spec 1 (lifespan p)), (Z.ltb_spec 0 (lifespan p - 1));
        reflexivity || lia).
  now destruct (1 <? lifespan p).
Qed.

Lemma aged_by_compose (a b : Z) (stars : list PowerUp) :
  0 <= a -> 0 <= b ->
  aged_by a (aged_by b stars) = aged_by (a + b) stars.
Proof.
  intros Ha Hb. unfold aged_by.
  induction stars as [| p stars IH]; [reflexivity |].
  cbn [filter]. destruct (b <? lifespan p) eqn:E.
  - cbn [map filter lifespan pos type].
    replace (a <? lifespan p - b) with (a + b <? lifespan p)
      by (destruct (Z.ltb_spec (a + b) (lifespan p)),
                   (Z.ltb_spec a (lifespan p - b)); reflexivity || lia).
    destruct (a + b <? lifespan p); [| exact IH].
    cbn [map pos type lifespan]. rewrite IH. do 2 f_equal. lia.
  - rewrite IH.
    replace (a + b <? lifespan p) with false
      by (symmetry; apply Z.ltb_ge; apply Z.ltb_ge in E; lia).
    reflexivity.
Qed.

(** X16: [n] rounds of [update_power_ups], for [n] at least 1, keep exactly
    the power-ups whose lifespan is more than [n], in their order and on
    their cells, each with [n] taken off its lifespan; nothing else of
    the game changes. *)
Theorem power_up_lifetime (n : nat) w g :
  times (S n) update_power_ups (w, g) =
  ((w, set_power_ups (aged_by (Z.of_nat (S n)) (power_ups g)) g), Done tt).
Proof.
  revert g. induction n as [| n IH]; intro g.
  - cbn [times]. unfold bind, update_power_ups, assign, modify, ret.
    cbn [fst snd]. fold (aged (power_ups g)). now rewrite aged_once.
  - change (times (S (S n)) update_power_ups)
      with (update_power_ups ;; times (S n) update_power_ups).
    unfold bind at 1, update_power_ups at 1, assign, modify. cbn [fst snd].
    fold (aged (power_ups g)). rewrite IH.
    cbn [power_ups set_power_ups].
    rewrite aged_once, aged_by_compose by lia.
    replace (Z.of_nat (S n) + 1) with (Z.of_nat (S (S n))) by lia.
    reflexivity.
Qed.

Section Spawning.
Context {py : PyLib}.

(** The search of [spawn_power_up], with the cell it ends on. *)
Lemma power_up_search_cell (fuel : nat) : forall w g,
  0 < grid_width g -> 0 < grid_height g ->
  match while_true fuel power_up_attempt (w, g) with
  | ((w', g'), Done _) =>
      exists c n, g' = set_power_ups (power_ups g ++ [star c]) g /\
        w' = skip n w /\
        cell_in c (snake g) = false /\ c <> fruit g /\ off_grid g c = false
  | (_, Raised _) => False
  | (_, Spinning) => True
  end.
Proof.
  induction fuel as [| fuel IH]; intros w g Hw Hh; [exact I |].
  cbn [while_true]. unfold bind at 1, power_up_attempt at 1. py_run.
  replace (grid_width g - 1 <? 0) with false by (symmetry; apply Z.ltb_ge; lia).
  replace (grid_height g - 1 <? 0) with false by (symmetry; apply Z.ltb_ge; lia).
  cbn [fst snd random_pos random_draws set_random_pos].
  match goal with
  | |- context [negb (cell_in ?c (snake g))] => set (cand := c)
  end.
  destruct (cell_in cand (snake g)) eqn:Hin; cbn [negb andb];
    [| destruct (cell_eqb cand (fruit g)) eqn:Heq; cbn [negb]].
  3: { exists cand, 2%nat.
       split; [reflexivity |]. split; [reflexivity |]. split; [exact Hin |].
       split.
       { intro E. apply cell_eqb_eq in E. congruence. }
       subst cand. unfold off_grid. cbn [fst snd].
       match goal with
       | |- context [0 + ?r1 mod ?m1 <? 0] =>
           pose proof (Z.mod_pos_bound r1 m1 ltac:(lia))
       end.
       match goal with
       | |- context [grid_height g <=? 0 + ?r2 mod ?m2] =>
           pose proof (Z.mod_pos_bound r2 m2 ltac:(lia))
       end.
       apply orb_false_intro; [apply orb_false_intro; [apply orb_false_intro |] |];
         first [apply Z.ltb_ge | apply Z.leb_gt]; lia. }
  all: specialize (IH (skip 2 w) g Hw Hh);
       change (set_random_pos _ (set_random_pos _ w)) with (skip 2 w);
       destruct (while_true fuel power_up_attempt (skip 2 w, g))
         as [[w' g'] [[] | e |]]; try exact IH;
       destruct IH as (c & n & Hg & Hw' & Hc);
       exists c, (2 + n)%nat; rewrite Hw', skip_skip; now split.
Qed.

(** X17: [spawn_power_up], when its search ends, appends one power-up to
    the list, a star with a lifespan of 200 on a cell of the grid that is
    on no segment of the snake and is not the fruit cell; the power-ups
    already there and the rest of the game stay as they are. On a grid
    without columns the first draw raises [ValueError]. *)
Theorem spawn_power_up_places_star fuel w g :
  (0 < grid_width g -> 0 < grid_height g ->
   settled (spawn_power_up fuel (w, g)) ->
   exists c n,
     spawn_power_up fuel (w, g) =
       ((skip n w, set_power_ups (power_ups g ++ [star c]) g), Done tt) /\
     cell_in c (snake g) = false /\ c <> fruit g /\ off_grid g c = false) /\
  (grid_width g <= 0 ->
   spawn_power_up (S fuel) (w, g) = ((w, g), Raised ValueError)).
Proof.
  split.
  - intros Hw Hh Hs. unfold spawn_power_up, settled in *.
    pose proof (power_up_search_cell fuel w g Hw Hh) as H.
    destruct (while_true fuel power_up_attempt (w, g)) as [[w' g'] [[] | e |]];
      cbn [snd] in Hs; [| contradiction | contradiction].
    destruct H as (c & n & -> & -> & H).
    exists c, n. split; [reflexivity | exact H].
  - intro Hw. unfold spawn_power_up. cbn [while_true].
    unfold bind at 1, power_up_attempt at 1. py_run.
    replace (grid_width g - 1 <? 0) with true
      by (symmetry; apply Z.ltb_lt; lia).
    reflexivity.
Qed.

(** X18: [spawn_fruit], when its searches end, returns with the fruit on
    a cell of the grid that is on no segment of the snake and on no
    power-up, and with snake and score untouched. Below 30 points since the
    last power-up nothing else changes; a power-up is only added from 30
    points on, and then it is one star on a free cell other than the
    fruit's, and the score is recorded as that of the last power-up. *)
Theorem spawn_fruit_places_fruit fuel w g :
  0 < grid_width g -> 0 < grid_height g ->
  settled (spawn_fruit fuel (w, g)) ->
  exists c n g',
    spawn_fruit fuel (w, g) = ((skip n w, g'), Done tt) /\
    fruit g' = c /\
    cell_in c (snake g) = false /\ clear_of c (power_ups g) = true /\
    off_grid g c = false /\
    snake g' = snake g /\ score g' = score g /\
    (score g - last_power_up_score g < 30 -> g' = set_fruit c g) /\
    (g' = set_fruit c g \/
     exists c',
       30 <= score g - last_power_up_score g /\
       cell_in c' (snake g) = false /\ c' <> c /\
       g' = set_last_power_up_score (score g)
              (set_power_ups (power_ups g ++ [star c']) (set_fruit c g))).
Proof.
  intros Hw Hh Hs. unfold settled in Hs.
  destruct (Z.lt_ge_cases (score g - last_power_up_score g) 30) as [Hlow | Hhigh].
  - pose proof (spawn_fruit_only fuel w g Hw Hh Hlow) as H.
    destruct (spawn_fruit fuel (w, g)) as [[w' g'] [[] | e |]];
      cbn [snd] in Hs; [| contradiction | contradiction].
    destruct H as (c & n & -> & -> & Hc & Hp & Hon).
    exists c, n, (set_fruit c g).
    repeat split; try assumption; try reflexivity. now left.
  - pose proof (spawn_fruit_result fuel w g Hw Hh) as H.
    destruct (spawn_fruit fuel (w, g)) as [[w' g'] [[] | e |]];
      cbn [snd] in Hs; [| contradiction | contradiction].
    destruct H as (c & n & -> & Hc & Hp & Hon & Hg).
    exists c, n, g'. split; [reflexivity |].
    destruct Hg as [-> | (c' & Hc' & Hne & ->)].
    + repeat split; try assumption; try reflexivity. now left.
    + repeat split; try assumption; try reflexivity; [intro; lia |].
      right. exists c'. repeat split; try assumption; try reflexivity.
      intro E. subst c'.
      now rewrite (proj2 (cell_eqb_eq c c) eq_refl) in Hne.
Qed.

(** X19: [add_particle_effect] appends a burst of exactly 12 particles to
    the particles, each at the pixel centre of the cell, with a life of 40
    and the colour asked for; it makes 24 draws, always returns and
    changes nothing else. *)
Theorem add_particle_effect_bursts (x y : Z) (c : colour) w g :
  exists burst,
    add_particle_effect x y c (w, g) =
      ((skip 24 w, set_particles (particles g ++ burst) g), Done tt) /\
    List.length burst = 12%nat /\
    Forall (burst_particle_at g x y c) burst.
Proof. apply add_particle_effect_counted. Qed.

(** A new game, from the score that [load_high_score] finds. *)
Lemma init_result fuel (wd h size best : Z) world :
  size <> 0 ->
  load_high_score world = (world, Done best) ->
  settled (__init__ fuel wd h size world) ->
  exists n c,
    __init__ fuel wd h size world =
      (skip n world,
       Done (set_fruit c (restarted (new_game wd h size best)))) /\
    well_formed (set_fruit c (restarted (new_game wd h size best))).
Proof.
  intros Hsize Hload Hs. unfold __init__, settled in *.
  destruct (size =? 0) eqn:E; [apply Z.eqb_eq in E; contradiction |].
  rewrite Hload in *.
  destruct (reset_game_result fuel world (new_game wd h size best))
    as (n & c & Hr & Hwf); [exact Hsize | reflexivity | |].
  - unfold settled.
    destruct (reset_game fuel (world, new_game wd h size best))
      as [[w2 g2] [[] | e |]]; cbn [snd] in *;
      [discriminate | discriminate | contradiction].
  - rewrite Hr. exists n, c. split; [reflexivity | exact Hwf].
Qed.

(** X20: a new game takes up the high score the last one saved: after
    [save_high_score] on a file that can be opened, [SnakeGame(...)] in a
    fresh process returns, when its search for a fruit cell ends, a
    well-formed game in wrap mode, not paused, with that high score; with
    no file the high score is 0; a cell size of 0 raises
    [ZeroDivisionError]. *)
Theorem new_game_takes_saved_score fuel (wd h size : Z) w g :
  (json_reads_back py -> open_fails w = false -> size <> 0 ->
   let saved := fst (fst (save_high_score (w, g))) in
   settled (__init__ fuel wd h size saved) ->
   exists n c game,
     __init__ fuel wd h size saved = (skip n saved, Done game) /\
     game = set_fruit c (restarted (new_game wd h size (high_score g))) /\
     high_score game = high_score g /\
     well_formed game /\ wrap_around game = true /\ paused game = false /\
     game_over game = false /\ score game = 0) /\
  (high_score_json w = None -> size <> 0 ->
   settled (__init__ fuel wd h size w) ->
   exists n c,
     __init__ fuel wd h size w =
       (skip n w, Done (set_fruit c (restarted (new_game wd h size 0))))) /\
  (size = 0 -> __init__ fuel wd h size w = (w, Raised ZeroDivisionError)).
Proof.
  split; [| split].
  - intros Hj Ho Hsize. cbv zeta.
    rewrite (save_high_score_writes w g Ho). cbn [fst].
    intro Hs.
    match type of Hs with
    | settled (__init__ _ _ _ _ ?saved) =>
        assert (Hload : load_high_score saved = (saved, Done (high_score g)))
          by (eapply load_high_score_document;
              [reflexivity | exact Ho | apply Hj]);
        destruct (init_result fuel wd h size (high_score g) saved Hsize
                    Hload Hs) as (n & c & Hr & Hwf)
    end.
    exists n, c, (set_fruit c (restarted (new_game wd h size (high_score g)))).
    repeat split; try assumption; apply Hwf.
  - intros Hf Hsize Hs.
    destruct (init_result fuel wd h size 0 w Hsize
                (load_high_score_missing w Hf) Hs) as (n & c & Hr & _).
    now exists n, c.
  - intros ->. reflexivity.
Qed.

End Spawning.

Lemma new_game_takes_saved_score_witness :
  exists n game,
    __init__ (py := high_score_codec) 1 400 600 20
      (fst (fst (save_high_score (py := high_score_codec)
                   (quiet_world, lost_game)))) =
    (skip n (fst (fst (save_high_score (py := high_score_codec)
                         (quiet_world, lost_game)))), Done game) /\
    high_score game = 40.
Proof.
  destruct (proj1 (new_game_takes_saved_score (py := high_score_codec)
                     1 400 600 20 quiet_world lost_game))
    as (n & c & game & Hr & _ & Hh & _);
    [apply high_score_codec_reads_back | reflexivity | discriminate
    | vm_compute; discriminate |].
  exists n, game. split; [exact Hr | exact Hh].
Defined.

Lemma spawn_power_up_places_star_witness :
  exists c n,
    spawn_power_up 3 (quiet_world, scenario) =
      ((skip n quiet_world,
        set_power_ups (power_ups scenario ++ [star c]) scenario), Done tt) /\
    cell_in c (snake scenario) = false.
Proof.
  destruct (proj1 (spawn_power_up_places_star 3 quiet_world scenario))
    as (c & n & H & Hc & _);
    [reflexivity | reflexivity | vm_compute; discriminate |].
  exists c, n. split; [exact H | exact Hc].
Defined.


Lemma spawn_fruit_places_fruit_witness :
  exists c n g',
    spawn_fruit 3 (quiet_world, scenario) = ((skip n quiet_world, g'), Done tt) /\
    fruit g' = c /\ cell_in c (snake scenario) = false.
Proof.
  destruct (spawn_fruit_places_fruit 3 quiet_world scenario)
    as (c & n & g' & H & Hf & Hc & _);
    [reflexivity | reflexivity | vm_compute; discriminate |].
  exists c, n, g'. split; [exact H | split; [exact Hf | exact Hc]].
Defined.

Section Searching.
Context {py : PyLib}.

(** One round of the search of [spawn_fruit]: two draws, and the fruit
    is moved when the cell drawn is free. *)
Lemma fruit_attempt_round w g :
  0 < grid_width g -> 0 < grid_height g ->
  fruit_attempt (w, g) =
    if free g (candidate w g (random_pos w))
    then ((skip 2 w, set_fruit (candidate w g (random_pos w)) g), Done true)
    else ((skip 2 w, g), Done false).
Proof.
  intros Hw Hh. unfold fruit_attempt, free, clear_of. py_run.
  replace (grid_width g - 1 <? 0) with false by (symmetry; apply Z.ltb_ge; lia).
  replace (grid_height g - 1 <? 0) with false by (symmetry; apply Z.ltb_ge; lia).
  cbn [fst snd random_pos random_draws set_random_pos].
  replace (grid_width g - 1 - 0 + 1) with (grid_width g) by lia.
  replace (grid_height g - 1 - 0 + 1) with (grid_height g) by lia.
  rewrite !Z.add_0_l.
  fold (candidate w g (random_pos w)).
  change (set_random_pos _ (set_random_pos _ w)) with (skip 2 w).
  destruct (negb (cell_in _ _) && negb _); reflexivity.
Qed.

Lemma fruit_search_first (k : nat) : forall fuel w g,
  0 < grid_width g -> 0 < grid_height g ->
  (k < fuel)%nat ->
  (forall j, (j < k)%nat -> free g (candidate w g (2 * j + random_pos w)) = false) ->
  free g (candidate w g (2 * k + random_pos w)) = true ->
  while_true fuel fruit_attempt (w, g) =
    ((skip (2 * S k) w, set_fruit (candidate w g (2 * k + random_pos w)) g),
     Done tt).
Proof.
  induction k as [| k IH]; intros fuel w g Hw Hh Hk Hbusy Hfree;
    (destruct fuel as [| fuel]; [lia |]);
    cbn [while_true]; unfold bind; rewrite (fruit_attempt_round w g Hw Hh).
  - cbn [Nat.mul Nat.add] in Hfree. rewrite Hfree. reflexivity.
  - pose proof (Hbusy 0%nat ltac:(lia)) as H0. cbn [Nat.mul Nat.add] in H0.
    rewrite H0.
    rewrite (IH fuel (skip 2 w) g Hw Hh); [| lia | |].
    + rewrite skip_skip. cbn [skip set_random_pos random_pos].
      replace (2 * k + (2 + random_pos w))%nat
        with (2 * S k + random_pos w)%nat by lia.
      do 2 f_equal. f_equal. lia.
    + intros j Hj. cbn [skip set_random_pos random_pos].
      replace (2 * j + (2 + random_pos w))%nat
        with (2 * S j + random_pos w)%nat by lia.
      apply (Hbusy (S j)). lia.
    + cbn [skip set_random_pos random_pos].
      replace (2 * k + (2 + random_pos w))%nat
        with (2 * S k + random_pos w)%nat by lia.
      exact Hfree.
Qed.

Lemma fruit_search_busy (fuel : nat) : forall w g,
  0 < grid_width g -> 0 < grid_height g ->
  (forall j, (j < fuel)%nat ->
     free g (candidate w g (2 * j + random_pos w)) = false) ->
  while_true fuel fruit_attempt (w, g) = ((skip (2 * fuel) w, g), Spinning).
Proof.
  induction fuel as [| fuel IH]; intros w g Hw Hh Hbusy.
  - cbn [while_true Nat.mul]. now rewrite skip_0.
  - cbn [while_true]. unfold bind. rewrite (fruit_attempt_round w g Hw Hh).
    pose proof (Hbusy 0%nat ltac:(lia)) as H0. cbn [Nat.mul Nat.add] in H0.
    rewrite H0.
    rewrite (IH (skip 2 w) g Hw Hh).
    + rewrite skip_skip. do 2 f_equal. f_equal. lia.
    + intros j Hj. cbn [skip set_random_pos random_pos].
      replace (2 * j + (2 + random_pos w))%nat
        with (2 * S j + random_pos w)%nat by lia.
      apply (Hbusy (S j)). lia.
Qed.

(** X21: the search of [spawn_fruit] takes the first free cell it draws.
    Each round makes two draws and reduces them modulo the grid; below 30
    points since the last power-up, if the cells of the first [k] rounds
    are on the snake or on a power-up and the next one is free, the call
    returns after [k + 1] rounds with the fruit on that cell and nothing
    else changed; and as long as no round draws a free cell the call has
    not returned. *)
Theorem spawn_fruit_takes_first_free (k fuel : nat) w g :
  0 < grid_width g -> 0 < grid_height g ->
  score g - last_power_up_score g < 30 ->
  (forall j, (j < k)%nat ->
     free g (candidate w g (2 * j + random_pos w)) = false) ->
  ((k < fuel)%nat ->
   free g (candidate w g (2 * k + random_pos w)) = true ->
   spawn_fruit fuel (w, g) =
     ((skip (2 * S k) w,
       set_fruit (candidate w g (2 * k + random_pos w)) g), Done tt)) /\
  ((fuel <= k)%nat -> snd (spawn_fruit fuel (w, g)) = Spinning).
Proof.
  intros Hw Hh Hlow Hbusy. unfold spawn_fruit. split.
  - intros Hk Hfree. unfold bind at 1.
    rewrite (fruit_search_first k fuel w g Hw Hh Hk Hbusy Hfree).
    py_run. cbn [score last_power_up_score set_fruit].
    replace (30 <=? score g - last_power_up_score g) with false
      by (symmetry; apply Z.leb_gt; lia).
    reflexivity.
  - intro Hk. unfold bind at 1.
    rewrite (fruit_search_busy fuel w g Hw Hh); [reflexivity |].
    intros j Hj. apply Hbusy. lia.
Qed.

End Searching.

Lemma spawn_fruit_takes_first_free_witness :
  spawn_fruit 1 (quiet_world, scenario) =
  ((skip 2 quiet_world, set_fruit (3, 0) scenario), Done tt).
Proof.
  apply (proj1 (spawn_fruit_takes_first_free 0 1 quiet_world scenario
                  ltac:(reflexivity) ltac:(reflexivity) ltac:(reflexivity)
                  ltac:(intros j Hj; lia)));
    [lia | reflexivity].
Defined.

Lemma In_aged (p : PowerUp) (stars : list PowerUp) :
  In p (aged stars) -> exists q, In q stars /\ pos p = pos q.
Proof.
  unfold aged. intro H. apply filter_In in H. destruct H as [H _].
  apply in_map_iff in H. destruct H as (q & <- & Hq). now exists q.
Qed.

Lemma In_stars_off (c : cell) (p : PowerUp) (stars : list PowerUp) :
  In p (stars_off c stars) -> In p stars /\ cell_eqb c (pos p) = false.
Proof.
  unfold stars_off. intro H. apply filter_In in H. destruct H as [H E].
  split; [exact H | now apply negb_true_iff].
Qed.

Lemma clear_of_In (c : cell) (stars : list PowerUp) (p : PowerUp) :
  clear_of c stars = true -> In p stars -> cell_eqb c (pos p) = false.
Proof.
  unfold clear_of. intros H Hp. apply negb_true_iff in H.
  destruct (cell_eqb c (pos p)) eqn:E; [| reflexivity].
  rewrite <- H. symmetry. apply existsb_exists. now exists p.
Qed.

Lemma cell_in_moved (c new_head : cell) (body : list cell) :
  cell_eqb new_head c = false -> cell_in c body = false ->
  cell_in c (removelast (new_head :: body)) = false.
Proof.
  intros Hn Hb. apply cell_in_removelast. unfold cell_in in *.
  cbn [existsb]. now rewrite (cell_eqb_sym c), Hn, Hb.
Qed.

Section Stars.
Context {py : PyLib}.

(** [spawn_fruit], when it ends, with the cells it chose. *)
Lemma spawn_fruit_cells (fuel : nat) w g :
  0 < grid_width g -> 0 < grid_height g ->
  match spawn_fruit fuel (w, g) with
  | ((w', g'), Done _) =>
      exists c extra,
        g' = set_last_power_up_score (last_power_up_score g')
               (set_power_ups (power_ups g ++ extra) (set_fruit c g)) /\
        cell_in c (snake g) = false /\ clear_of c (power_ups g) = true /\
        off_grid g c = false /\
        (forall p, In p extra ->
           off_grid g (pos p) = false /\ cell_in (pos p) (snake g) = false /\
           cell_eqb (pos p) c = false)
  | (_, Raised _) => False
  | (_, Spinning) => True
  end.
Proof.
  intros Hw Hh. unfold spawn_fruit. unfold bind at 1.
  pose proof (fruit_search fuel w g Hw Hh) as Hf.
  destruct (while_true fuel fruit_attempt (w, g)) as [[w1 g1] [[] | e |]];
    try exact Hf.
  destruct Hf as (c & n & -> & -> & Hc & Hp & Hon).
  py_run. cbn [score last_power_up_score set_fruit].
  destruct (30 <=? score g - last_power_up_score g).
  - cbn [random_pos random_draws skip set_random_pos].
    match goal with |- context [if ?b then _ else _] => destruct b end.
    + unfold spawn_power_up.
      match goal with
      | |- context [while_true fuel power_up_attempt (?w2, ?g2)] =>
          pose proof (power_up_search_cell fuel w2 g2 Hw Hh) as Hs;
          destruct (while_true fuel power_up_attempt (w2, g2))
            as [[w3 g3] [[] | e |]]; try exact Hs
      end.
      destruct Hs as (c' & n' & -> & -> & Hc' & Hne & Hon').
      cbn [score set_power_ups set_fruit snake fruit power_ups] in *.
      exists c, [star c'].
      split; [reflexivity |]. split; [exact Hc |]. split; [exact Hp |].
      split; [exact Hon |].
      intros p [<- | []]. cbn [pos star].
      split; [exact Hon' |]. split; [exact Hc' |].
      destruct (cell_eqb c' c) eqn:E; [| reflexivity].
      apply cell_eqb_eq in E. contradiction.
    + exists c, []. rewrite app_nil_r.
      split; [now destruct g |]. repeat split; try assumption; contradiction.
  - exists c, []. rewrite app_nil_r.
    split; [now destruct g |]. repeat split; try assumption; contradiction.
Qed.

(** The move onto the fruit cell, with the power-ups it leaves. *)
Lemma advance_eats_stars (fuel : nat) (new_head : cell) w g :
  0 < grid_width g -> 0 < grid_height g ->
  cell_in new_head (snake g) = false ->
  new_head = fruit g ->
  match advance fuel new_head (w, g) with
  | ((w', g'), Done _) =>
      forall p, In p (power_ups g') ->
        cell_eqb (pos p) (fruit g') = false /\
        cell_eqb new_head (pos p) = false /\
        ((exists q, In q (power_ups g) /\ pos p = pos q) \/
         (off_grid g (pos p) = false /\ cell_in (pos p) (snake g) = false))
  | _ => True
  end.
Proof.
  intros Hw Hh Hc Hf. unfold advance.
  unfold bind at 1, self_ at 1, gets. cbn [snd]. rewrite Hc.
  unfold bind at 1, assign at 1, modify. cbn [fst snd].
  unfold bind at 1, self_ at 1, gets. cbn [snd set_snake fruit].
  replace (cell_eqb new_head (fruit g)) with true
    by (symmetry; now apply cell_eqb_eq).
  unfold bind at 1. unfold bind at 1, assign at 1, modify. cbn [fst snd].
  unfold bind at 1.
  match goal with
  | |- context [add_particle_effect ?x ?y ?c (?w1, ?g1)] =>
      destruct (add_particle_effect_result x y c w1 g1) as (burst & ->)
  end.
  match goal with
  | |- context [spawn_fruit fuel (?w2, ?g2)] =>
      pose proof (spawn_fruit_cells fuel w2 g2 Hw Hh) as Hs;
      destruct (spawn_fruit fuel (w2, g2)) as [[w3 g3] [[] | e |]];
      try exact I
  end.
  destruct Hs as (c & extra & Hg3 & Hcs & Hcp & Hon & Hex).
  cbn [snake score power_ups set_particles set_score set_snake] in Hg3, Hcs, Hcp, Hex.
  change (off_grid _ c) with (off_grid g c) in Hon.
  unfold bind at 1.
  destruct (collect_power_ups_exact new_head w3 g3) as (burst' & Hrun & _).
  rewrite Hrun. unfold update_particles, update_power_ups. py_run.
  cbn [power_ups fruit set_power_ups set_particles set_score].
  fold (aged (stars_off new_head (power_ups g3))).
  assert (Hfruit : fruit g3 = c) by (rewrite Hg3; reflexivity).
  assert (Hstars : power_ups g3 = power_ups g ++ extra) by (rewrite Hg3; reflexivity).
  rewrite Hfruit, Hstars.
  intros p Hp. apply In_aged in Hp. destruct Hp as (q & Hq & Hpos).
  apply In_stars_off in Hq. destruct Hq as [Hq Hnh].
  rewrite Hpos. split; [| split; [exact Hnh |]].
  - apply in_app_or in Hq. destruct Hq as [Hq | Hq].
    + rewrite cell_eqb_sym. now apply (clear_of_In c (power_ups g)).
    + now apply (Hex q Hq).
  - apply in_app_or in Hq. destruct Hq as [Hq | Hq].
    + left. now exists q.
    + right. destruct (Hex q Hq) as (H1 & H2 & _).
      change (off_grid _ (pos q)) with (off_grid g (pos q)) in H1.
      cbn [cell_in existsb] in H2. apply orb_false_iff in H2.
      split; [exact H1 | apply H2].
Qed.

(** X22: the power-ups stay clear of the snake and the fruit. In a
    well-formed game whose power-ups are on cells of the grid, off the
    snake and off the fruit cell, they still are after every tick that
    returns: a power-up under the new head has been collected, a new one
    is spawned on a free cell, and the fruit is respawned off the
    power-ups. *)
Theorem power_ups_stay_clear fuel w g :
  well_formed g -> stars_clear g = true ->
  snd (update fuel (w, g)) = Done tt ->
  stars_clear (snd (fst (update fuel (w, g)))) = true.
Proof.
  intros Hwf Hst. pose proof Hwf as (Hgw & Hgh & Hne & Hon & Hnd & Hfp).
  destruct (game_over g || paused g) eqn:Hrun.
  { now rewrite (update_halted fuel w g Hrun). }
  apply orb_false_iff in Hrun.
  destruct (negb (wrap_around g) && off_grid g (next_cell g)) eqn:Hwall.
  { apply andb_true_iff in Hwall. destruct Hwall as [Hw Ho].
    apply negb_true_iff in Hw.
    destruct (update_collides fuel w g Hrun Hne (or_introl (conj Hw Ho)))
      as (trail & Hu & _).
    rewrite Hu. intros _. exact Hst. }
  assert (Hcl : wrap_around g = false -> off_grid g (next_cell g) = false).
  { intro Hw. rewrite Hw in Hwall. exact Hwall. }
  destruct (cell_in (new_head_cell g) (snake g)) eqn:Hin.
  { destruct (update_collides fuel w g Hrun Hne (or_intror Hin))
      as (trail & Hu & _).
    rewrite Hu. intros _. exact Hst. }
  destruct (update_to_advance fuel w g Hrun Hne Hcl) as (trail & Hu & _).
  unfold stars_clear in *. rewrite forallb_forall in Hst.
  assert (Hold : forall q, In q (power_ups g) ->
            off_grid g (pos q) = false /\ cell_in (pos q) (snake g) = false /\
            cell_eqb (pos q) (fruit g) = false).
  { intros q Hq. specialize (Hst q Hq). unfold star_clear in Hst.
    apply andb_true_iff in Hst. destruct Hst as [Hst H3].
    apply andb_true_iff in Hst. destruct Hst as [H1 H2].
    now rewrite negb_true_iff in H1, H2, H3. }
  destruct (cell_eqb (new_head_cell g) (fruit g)) eqn:Hf.
  - apply cell_eqb_eq in Hf.
    match type of Hu with
    | _ = advance _ _ (?w1, ?g1) =>
        pose proof (advance_eats_stars fuel (new_head_cell g) w1 g1
                      Hgw Hgh Hin Hf) as Hs;
        pose proof (advance_eats fuel (new_head_cell g) w1 g1 Hgw Hgh Hin Hf)
          as Ha
    end.
    destruct Hfp as (_ & _ & Hclear). rewrite <- Hf in Hclear.
    specialize (Ha Hclear). rewrite <- Hu in Hs, Ha.
    destruct (update fuel (w, g)) as [[w' g'] [[] | e |]];
      cbn [fst snd] in *; try discriminate.
    intros _. destruct Ha as (_ & Hsn & _ & _ & _ & Hw' & Hh' & _).
    cbn [snake grid_width grid_height power_ups
         set_transition_particles set_direction] in Hsn, Hw', Hh', Hs.
    apply forallb_forall. intros p Hp.
    destruct (Hs p Hp) as (Hfr & Hnh & Hor).
    unfold star_clear, off_grid. rewrite Hw', Hh', Hsn, Hfr.
    cbn [cell_in existsb]. rewrite cell_eqb_sym, Hnh. cbn [orb negb andb].
    destruct Hor as [(q & Hq & Hpos) | [H1 H2]].
    + destruct (Hold q Hq) as (H1 & H2 & _). rewrite Hpos.
      unfold off_grid, cell_in in H1, H2. now rewrite H1, H2.
    + unfold off_grid, cell_in in H1, H2.
      cbn [grid_width grid_height snake set_transition_particles
           set_direction] in H1, H2.
      now rewrite H1, H2.
  - match type of Hu with
    | _ = advance _ _ (?w1, ?g1) =>
        destruct (advance_plain_exact fuel (new_head_cell g) w1 g1 Hin Hf)
          as (burst & Ha & _)
    end.
    rewrite Ha in Hu. rewrite Hu. cbn [fst snd]. intros _.
    cbn [power_ups set_power_ups set_particles set_score set_snake
         set_transition_particles set_direction].
    apply forallb_forall. intros p Hp.
    apply In_aged in Hp. destruct Hp as (q & Hq & Hpos).
    apply In_stars_off in Hq. destruct Hq as [Hq Hnh].
    destruct (Hold q Hq) as (H1 & H2 & H3).
    unfold star_clear, off_grid.
    cbn [snake fruit grid_width grid_height set_power_ups set_particles
         set_score set_snake set_transition_particles set_direction].
    rewrite Hpos, H3. unfold off_grid in H1. rewrite H1.
    rewrite (cell_in_moved (pos q) (new_head_cell g) (snake g) Hnh H2).
    reflexivity.
Qed.

End Stars.

Lemma power_ups_stay_clear_witness :
  stars_clear
    (snd (fst (update (py := high_score_codec) 1 (quiet_world, star_ahead))))
  = true.
Proof.
  apply (power_ups_stay_clear (py := high_score_codec) 1 quiet_world star_ahead);
    [repeat split; try reflexivity; discriminate | reflexivity | reflexivity].
Defined.

End SnakeFacts.

(** ** The main loop *)

Module MainFacts.
Import SnakeGame SnakeFacts Main.

Section Loop.
Context {py : PyLib}.

(** X23: what a gesture does to the game in the main loop. No gesture,
    or an empty one, leaves the game alone; while the game is on, a
    gesture only asks for a turn, UP included; when the game is over, UP
    restarts it and any other gesture does nothing. In each case the
    boost flag is then set to the pinch of the frame; after a restart it
    is set on the new game. *)
Theorem gesture_steers_or_restarts fuel (pinching : bool) w g :
  steer fuel None pinching (w, g) = ((w, set_speed_boost pinching g), Done tt) /\
  (forall name, name <> EmptyString -> game_over g = false ->
     steer fuel (Some name) pinching (w, g) =
       ((w, set_speed_boost pinching (change_direction name g)), Done tt)) /\
  (forall name, name <> EmptyString -> name <> "UP"%string ->
     game_over g = true ->
     steer fuel (Some name) pinching (w, g) =
       ((w, set_speed_boost pinching g), Done tt)) /\
  (game_over g = true ->
   steer fuel (Some "UP"%string) pinching (w, g) =
     (reset_game fuel ;; assign (set_speed_boost pinching)) (w, g)) /\
  steer fuel (Some EmptyString) pinching (w, g) =
    ((w, set_speed_boost pinching g), Done tt).
Proof.
  split; [reflexivity |]. split; [| split; [| split; [| reflexivity]]].
  - intros name Hn Ho. unfold steer.
    destruct (String.eqb name EmptyString) eqn:E;
      [apply String.eqb_eq in E; contradiction |].
    cbn [negb]. unfold bind at 1. unfold bind at 1, assign at 1, modify.
    cbn [fst snd]. unfold bind at 1, self_ at 1, gets. cbn [snd].
    replace (game_over (change_direction name g)) with false.
    + reflexivity.
    + unfold change_direction. rewrite Ho. cbn [orb].
      destruct (paused g); [now rewrite Ho |].
      destruct (mapping name) as [d |]; [| now rewrite Ho].
      destruct (negb _); now rewrite ?Ho.
  - intros name Hn Hup Ho. unfold steer.
    destruct (String.eqb name EmptyString) eqn:E;
      [apply String.eqb_eq in E; contradiction |].
    cbn [negb]. unfold bind at 1. unfold bind at 1, assign at 1, modify.
    cbn [fst snd]. unfold bind at 1, self_ at 1, gets. cbn [snd].
    assert (Hc : change_direction name g = g)
      by (unfold change_direction; now rewrite Ho).
    rewrite Hc, Ho.
    rewrite (proj2 (handle_restart_cases fuel (Some name) w g)).
    + reflexivity.
    + right. intros [= ->]. now apply Hup.
  - intro Ho. unfold steer. cbn [String.eqb negb Ascii.eqb].
    unfold bind at 1. unfold bind at 1, assign at 1, modify.
    cbn [fst snd]. unfold bind at 1, self_ at 1, gets. cbn [snd].
    assert (Hc : change_direction "UP" g = g)
      by (unfold change_direction; now rewrite Ho).
    rewrite Hc, Ho.
    rewrite (proj1 (handle_restart_cases fuel (Some "UP"%string) w g)
               Ho eq_refl).
    reflexivity.
Qed.

Lemma cleanup_result w g :
  cleanup (w, g) =
  ((world_after_end w g,
    set_high_score (Z.max (high_score g) (score g)) g), Done tt).
Proof.
  unfold cleanup, try_except, world_after_end.
  unfold bind at 1, self_ at 1, gets.
  unfold bind at 1, self_ at 1, gets. cbn [snd].
  destruct (high_score g <? score g) eqn:E; cbn [when andb].
  - apply Z.ltb_lt in E. rewrite Z.max_r by lia.
    unfold bind, assign, modify. cbn [fst snd].
    destruct (open_fails w) eqn:Ho; cbn [negb].
    + rewrite save_high_score_denied by exact Ho. reflexivity.
    + rewrite save_high_score_writes by exact Ho. reflexivity.
  - apply Z.ltb_ge in E. rewrite Z.max_l by lia.
    now rewrite set_high_score_same.
Qed.

(** X24: [cleanup] never raises, whatever the file does; when the score
    beats the high score and the file can be opened, the score becomes
    the high score and [load_high_score] on the file afterwards returns
    it, so the next process starts from it; when the score does not beat
    the high score, game and file stay as they are. *)
Theorem cleanup_keeps_best_score w g :
  snd (cleanup (w, g)) = Done tt /\
  (json_reads_back py -> open_fails w = false -> high_score g < score g ->
   high_score (snd (fst (cleanup (w, g)))) = score g /\
   load_high_score (fst (fst (cleanup (w, g)))) =
     (fst (fst (cleanup (w, g))), Done (score g))) /\
  (score g <= high_score g -> cleanup (w, g) = ((w, g), Done tt)).
Proof.
  rewrite cleanup_result. cbn [fst snd]. unfold world_after_end.
  split; [reflexivity |]. split.
  - intros Hj Ho Hlt.
    replace (high_score g <? score g) with true
      by (symmetry; apply Z.ltb_lt; lia).
    rewrite Ho. cbn [andb negb high_score set_high_score].
    split; [apply Z.max_r; lia |].
    eapply load_high_score_document; [reflexivity | exact Ho | apply Hj].
  - intro Hle.
    replace (high_score g <? score g) with false
      by (symmetry; apply Z.ltb_ge; lia).
    cbn [andb]. rewrite Z.max_l by lia. now rewrite set_high_score_same.
Qed.

End Loop.

Lemma gesture_steers_or_restarts_witness :
  steer 1 (Some "LEFT"%string) true (quiet_world, lost_game) =
  ((quiet_world, lost_game), Done tt).
Proof.
  rewrite (proj1 (proj2 (proj2 (gesture_steers_or_restarts 1 true
                                   quiet_world lost_game)))
             "LEFT"%string); try discriminate; reflexivity.
Defined.

Lemma cleanup_keeps_best_score_witness :
  load_high_score (py := high_score_codec)
    (fst (fst (cleanup (py := high_score_codec)
                 (quiet_world, set_score 50 lost_game)))) =
  (fst (fst (cleanup (py := high_score_codec)
               (quiet_world, set_score 50 lost_game))), Done 50).
Proof.
  apply (proj1 (proj2 (cleanup_keeps_best_score (py := high_score_codec)
                         quiet_world (set_score 50 lost_game))));
    [apply high_score_codec_reads_back | reflexivity | reflexivity].
Defined.

End MainFacts.
